(** * ApeCode: the tool-calling loop, its safety gate and subagent isolation

    A shallow embedding of [apecode/tools.py], [apecode/agent.py],
    [apecode/subagents.py], [apecode/plugins.py] and [apecode/mcp.py], with
    the slash commands of [apecode/commands.py], the catalog of
    [apecode/skills.py] and the command registration of [apecode/cli.py].

    Python text is a [string] holding its UTF-8 bytes, with lengths, slices
    and white space read by characters; a dict used as a map is a [gmap],
    a JSON value is the inductive [json].  Code that has effects is
    written in a small state-and-fault monad [M] over the record [State].
    Interpreter and operating-system services the code calls (the JSON
    codec, the case mapping of Unicode, path canonicalisation, the home
    directory) are the fields of the class [Platform]. *)

From Stdlib Require Import ZArith Ascii String.
From stdpp Require Import base tactics option strings list gmap fin_maps pretty sorting.

Local Set Warnings "-register-all,-clear-no-such-hyp".

(** ** Python text *)

Module Py.

(** A text is held as its UTF-8 bytes.  A character is one byte that is
    not a continuation byte ([10xxxxxx]), with the continuation bytes that
    follow it. *)
Definition is_continuation (c : ascii) : bool :=
  let n := nat_of_ascii c in
  Nat.leb 128 n && Nat.ltb n 192.

(** [len(s)]: the number of characters. *)
Fixpoint len (s : string) : nat :=
  match s with
  | EmptyString => 0
  | String c s' => if is_continuation c then len s' else S (len s')
  end.

(** [s[:n]]: the first [n] characters. *)
Fixpoint take (n : nat) (s : string) : string :=
  match s with
  | EmptyString => EmptyString
  | String c s' =>
      if is_continuation c then String c (take n s')
      else match n with
           | 0 => EmptyString
           | S n' => String c (take n' s')
           end
  end.

(** [s.isascii()] *)
Fixpoint isascii (s : string) : bool :=
  match s with
  | EmptyString => true
  | String c s' => Nat.ltb (nat_of_ascii c) 128 && isascii s'
  end.

(** The UTF-8 bytes of a code point. *)
Definition byte (n : N) : ascii := ascii_of_N n.

Definition utf8 (cp : N) : string :=
  if (cp <? 0x80)%N then String (byte cp) ""
  else if (cp <? 0x800)%N then
    String (byte (0xC0 + cp / 0x40)) (String (byte (0x80 + cp mod 0x40)) "")
  else if (cp <? 0x10000)%N then
    String (byte (0xE0 + cp / 0x1000))
      (String (byte (0x80 + (cp / 0x40) mod 0x40)) (String (byte (0x80 + cp mod 0x40)) ""))
  else
    String (byte (0xF0 + cp / 0x40000))
      (String (byte (0x80 + (cp / 0x1000) mod 0x40))
         (String (byte (0x80 + (cp / 0x40) mod 0x40)) (String (byte (0x80 + cp mod 0x40)) ""))).

(** The characters [str.isspace] holds for, which [str.strip] removes:
    TAB..CR, FS..US, the blank, NEL, the no-break space and the spaces and
    separators of Unicode. *)
Definition space_code_points : list N :=
  [ 0x09; 0x0A; 0x0B; 0x0C; 0x0D; 0x1C; 0x1D; 0x1E; 0x1F; 0x20; 0x85; 0xA0; 0x1680;
    0x2000; 0x2001; 0x2002; 0x2003; 0x2004; 0x2005; 0x2006; 0x2007; 0x2008; 0x2009;
    0x200A; 0x2028; 0x2029; 0x202F; 0x205F; 0x3000 ]%N.

Definition whitespace : list string := utf8 <$> space_code_points.

(** The text after [prefix], when [s] starts with it. *)
Fixpoint after (prefix s : string) : option string :=
  match prefix with
  | EmptyString => Some s
  | String a prefix' =>
      match s with
      | String b s' => if Ascii.eqb a b then after prefix' s' else None
      | EmptyString => None
      end
  end.

(** The text after the first of [chars] that [s] starts with. *)
Fixpoint after_any (chars : list string) (s : string) : option string :=
  match chars with
  | [] => None
  | w :: chars' =>
      match after w s with
      | Some rest => Some rest
      | None => after_any chars' s
      end
  end.

(** Dropping the characters [chars] from the front, as long as there is
    one; [fuel] bounds the number of characters dropped. *)
Fixpoint lstrip_chars (chars : list string) (fuel : nat) (s : string) : string :=
  match fuel with
  | 0 => s
  | S fuel' =>
      match after_any chars s with
      | Some rest => lstrip_chars chars fuel' rest
      | None => s
      end
  end.

(** [s.lstrip()], [s.rstrip()] and [s.strip()].  A text ends with a
    character exactly when its bytes end with the bytes of the character,
    so that the end is stripped on the reversed bytes. *)
Definition lstrip (s : string) : string := lstrip_chars whitespace (String.length s) s.

Definition rstrip (s : string) : string :=
  String.rev (lstrip_chars (String.rev <$> whitespace) (String.length s) (String.rev s)).

Definition strip (s : string) : string := rstrip (lstrip s).

(** [s.strip(c)] for one ASCII character [c], given as the test [p]. *)
Fixpoint lstrip_with (p : ascii → bool) (s : string) : string :=
  match s with
  | EmptyString => EmptyString
  | String c s' => if p c then lstrip_with p s' else s
  end.

Definition rstrip_with (p : ascii → bool) (s : string) : string :=
  String.rev (lstrip_with p (String.rev s)).

Definition strip_with (p : ascii → bool) (s : string) : string :=
  rstrip_with p (lstrip_with p s).

Definition lower_char (c : ascii) : ascii :=
  let n := nat_of_ascii c in
  if Nat.leb 65 n && Nat.leb n 90 then ascii_of_nat (n + 32) else c.

(** [s.lower()] on text that is ASCII: the letters A..Z are lowered. *)
Fixpoint lower (s : string) : string :=
  match s with
  | EmptyString => EmptyString
  | String c s' => String (lower_char c) (lower s')
  end.

(** [x or default] for text: the empty string is falsy. *)
Definition str_or (s default : string) : string :=
  match s with EmptyString => default | _ => s end.

(** [None if not s else s] as used by [str(...).strip() or None]. *)
Definition str_or_none (s : string) : option string :=
  match s with EmptyString => None | _ => Some s end.

(** [sep.join(l)] *)
Fixpoint join (sep : string) (l : list string) : string :=
  match l with
  | [] => ""
  | [x] => x
  | x :: l' => x +:+ sep +:+ join sep l'
  end.

(** [s.split(sep)] for a one-character separator. *)
Fixpoint split_on (sep : ascii) (s : string) : list string :=
  match s with
  | EmptyString => [""]
  | String c s' =>
      if Ascii.eqb c sep then "" :: split_on sep s'
      else match split_on sep s' with
           | [] => [String c ""]
           | w :: ws => String c w :: ws
           end
  end.

End Py.

(** ** Faults *)

(** The exceptions the modelled code raises or lets through, all of them
    subclasses of [Exception] (what [except Exception] catches); each
    carries the text [str(exc)] gives.  An exception of a subclass that
    the code catches by its base class is carried by the constructor of the
    base class: a [RecursionError] is a [RuntimeError]. *)
Inductive exn : Type :=
  | ValueError (msg : string)
  | RuntimeError (msg : string)
  | TypeError (msg : string)
  | OtherError (kind msg : string).

Definition exn_str (e : exn) : string :=
  match e with
  | ValueError m | RuntimeError m | TypeError m | OtherError _ m => m
  end.

Inductive outcome (A : Type) : Type :=
  | Ret (a : A)
  | Raise (e : exn).
Arguments Ret {A} a.
Arguments Raise {A} e.

Definition outcome_bind {A B} (o : outcome A) (k : A → outcome B) : outcome B :=
  match o with Ret a => k a | Raise e => Raise e end.

Definition is_Ret {A} (o : outcome A) : bool :=
  match o with Ret _ => true | Raise _ => false end.

(** ** JSON values, as [json.loads] builds them *)

Inductive json : Type :=
  | JNull
  | JBool (b : bool)
  | JInt (z : Z)
  | JFloat (repr : string)          (* a float, carried as its [repr] *)
  | JStr (s : string)
  | JArr (items : list json)
  | JObj (fields : list (string * json)).

(** [d.get(key)] on the fields of an object. *)
Fixpoint dict_get (key : string) (fields : list (string * json)) : option json :=
  match fields with
  | [] => None
  | (k, v) :: rest => if String.eqb k key then Some v else dict_get key rest
  end.

Definition is_dict (v : json) : bool := match v with JObj _ => true | _ => false end.
Definition is_list (v : json) : bool := match v with JArr _ => true | _ => false end.

(** [bool(v)] *)
Definition truthy (v : json) : bool :=
  match v with
  | JNull => false
  | JBool b => b
  | JInt z => negb (z =? 0)%Z
  | JFloat r => negb (String.eqb r "0.0" || String.eqb r "-0.0")
  | JStr s => negb (String.eqb s "")
  | JArr l => match l with [] => false | _ => true end
  | JObj l => match l with [] => false | _ => true end
  end.

(** ** Paths ([pathlib.PurePosixPath]) *)

Record Path : Type := mkPath {
  root : string;                (* "", "/" or "//" *)
  parts : list string           (* the components after the root *)
}.

Global Instance Path_eq_dec : EqDecision Path.
Proof. solve_decision. Defined.

Fixpoint count_slashes (s : string) : nat :=
  match s with
  | String "/" s' => S (count_slashes s')
  | _ => 0
  end.

(** [Path(raw)]: empty and [.] components vanish, [..] stays; exactly two
    leading slashes make the root [//]. *)
Definition Path_of_string (raw : string) : Path :=
  {| root := match count_slashes raw with 0 => "" | 2 => "//" | _ => "/" end;
     parts := filter (λ c, c ≠ "" ∧ c ≠ ".") (Py.split_on "/" raw) |}.

Definition Path_str (p : Path) : string :=
  match root p, parts p with
  | "", [] => "."
  | r, ps => r +:+ Py.join "/" ps
  end.

Definition is_absolute (p : Path) : bool := negb (String.eqb (root p) "").

(** [base / other] *)
Definition joinpath (base other : Path) : Path :=
  if is_absolute other then other
  else {| root := root base; parts := parts base ++ parts other |}.

(** [p.parent] and [p.name] *)
Definition Path_parent (p : Path) : Path :=
  {| root := root p; parts := removelast (parts p) |}.
Definition Path_name (p : Path) : string := List.last (parts p) "".

(** ** Services of the interpreter and the operating system *)

(** What [json.loads] raises besides [json.JSONDecodeError]: a
    [RecursionError] for a text nested too deeply, and a plain
    [ValueError] for an integer of more digits than the interpreter
    converts. *)
Inductive LoadsFault : Type :=
  | RecursionError (msg : string)
  | DigitLimitError (msg : string).

Definition loads_exn (fault : LoadsFault) : exn :=
  match fault with
  | RecursionError msg => RuntimeError msg
  | DigitLimitError msg => ValueError msg
  end.

(** How [json.loads(text)] ends: with a value, with a
    [json.JSONDecodeError] (carried as its text), or with another
    exception. *)
Inductive Loaded : Type :=
  | Parsed (value : json)
  | JSONDecodeError (msg : string)
  | LoadsRaised (fault : LoadsFault).

Class Platform : Type := {
  (** [Path.expanduser] and [Path.resolve] (symlinks and [..] removed) *)
  fs_expanduser : Path → Path;
  fs_resolve : Path → Path;
  (** [json.loads] *)
  json_loads : string → Loaded;
  (** [json.dumps(v, ensure_ascii=True, indent=2)] *)
  json_dumps_indent : json → string;
  (** [repr(v)], which is [str(v)] for a list or a dict *)
  py_repr : json → string;
  (** [int(s)] for text and for the [repr] of a float *)
  int_of_str : string → outcome Z;
  int_of_float : string → outcome Z;
  (** [s.lower()] for text that is not ASCII: the case mapping of Unicode *)
  str_lower : string → string
}.

(** [str(v)] *)
Definition py_str {host : Platform} (v : json) : string :=
  match v with
  | JNull => "None"
  | JBool true => "True"
  | JBool false => "False"
  | JInt z => pretty z
  | JFloat r => r
  | JStr s => s
  | JArr _ | JObj _ => py_repr v
  end.

(** [type(v).__name__] *)
Definition py_type_name (v : json) : string :=
  match v with
  | JNull => "NoneType"
  | JBool _ => "bool"
  | JInt _ => "int"
  | JFloat _ => "float"
  | JStr _ => "str"
  | JArr _ => "list"
  | JObj _ => "dict"
  end.

(** [int(v)] *)
Definition py_int {host : Platform} (v : json) : outcome Z :=
  match v with
  | JInt z => Ret z
  | JBool b => Ret (if b then 1 else 0)%Z
  | JFloat r => int_of_float r
  | JStr s => int_of_str s
  | JNull | JArr _ | JObj _ =>
      Raise (TypeError ("int() argument must be a string, a bytes-like object or a real number, not '"
                        +:+ py_type_name v +:+ "'"))
  end.

(** [s.lower()]: on ASCII text the letters A..Z are lowered; other text
    goes through the case mapping of Unicode. *)
Definition py_lower {host : Platform} (s : string) : string :=
  if Py.isascii s then Py.lower s else str_lower s.

(** [target.relative_to(base)] succeeds exactly when [base] is [target]
    or one of its parents: same root, and the components of [base] start
    those of [target]. *)
Definition relative_to {host : Platform} (target base : Path) : outcome Path :=
  if bool_decide (root base = root target ∧ parts base `prefix_of` parts target)
  then Ret {| root := ""; parts := drop (length (parts base)) (parts target) |}
  else Raise (ValueError (py_repr (JStr (Path_str target)) +:+ " is not in the subpath of "
                          +:+ py_repr (JStr (Path_str base))
                          +:+ " OR one path is relative and the other is absolute.")).

(** [tools._is_within] *)
Definition _is_within {host : Platform} (base target : Path) : bool :=
  match relative_to target base with
  | Ret _ => true
  | Raise _ => false              (* [relative_to] raises only ValueError *)
  end.

(** ** tools.py: modes, context, tools *)

Inductive SandboxMode : Type := READ_ONLY | WORKSPACE_WRITE | DANGER_FULL_ACCESS.
Inductive ApprovalPolicy : Type := ON_REQUEST | ALWAYS | NEVER.

Global Instance SandboxMode_eq_dec : EqDecision SandboxMode.
Proof. solve_decision. Defined.
Global Instance ApprovalPolicy_eq_dec : EqDecision ApprovalPolicy.
Proof. solve_decision. Defined.

Definition SandboxMode_value (m : SandboxMode) : string :=
  match m with
  | READ_ONLY => "read-only"
  | WORKSPACE_WRITE => "workspace-write"
  | DANGER_FULL_ACCESS => "danger-full-access"
  end.

Definition ApprovalPolicy_value (p : ApprovalPolicy) : string :=
  match p with
  | ON_REQUEST => "on-request"
  | ALWAYS => "always"
  | NEVER => "never"
  end.

(** One entry of [ToolContext.plan]: [{"step": ..., "status": ...}]. *)
Record PlanItem : Type := mkPlanItem { step : string; status : string }.

Global Instance PlanItem_eq_dec : EqDecision PlanItem.
Proof. solve_decision. Defined.

(** [args: dict[str, Any]], the parsed arguments of a call. *)
Abbreviation dict := (list (string * json)).

(** [ToolContext]: [W] is the world outside the process (files,
    subprocesses, the terminal the approval prompt reads).  The approval
    callback may act on it and, as any callable, may raise. *)
Record ToolContext (W : Type) : Type := mkToolContext {
  cwd : Path;
  ask_approval : string → string → W → outcome bool * W;
  sandbox_mode : SandboxMode;
  approval_policy : ApprovalPolicy;
  plan : list PlanItem
}.
Arguments mkToolContext {W}.
Arguments cwd {W}.
Arguments ask_approval {W}.
Arguments sandbox_mode {W}.
Arguments approval_policy {W}.
Arguments plan {W}.

Definition set_plan {W} (ctx : ToolContext W) (p : list PlanItem) : ToolContext W :=
  {| cwd := cwd ctx; ask_approval := ask_approval ctx; sandbox_mode := sandbox_mode ctx;
     approval_policy := approval_policy ctx; plan := p |}.

(** [ToolContext(...)] with its [__post_init__]. *)
Definition ToolContext_new {host : Platform} {W} (cwd0 : Path)
    (ask : string → string → W → outcome bool * W)
    (mode : SandboxMode) (policy : ApprovalPolicy) (plan0 : list PlanItem) : ToolContext W :=
  {| cwd := fs_resolve (fs_expanduser cwd0); ask_approval := ask;
     sandbox_mode := mode; approval_policy := policy; plan := plan0 |}.

(** The path [resolve_path] checks: [raw_path] with the home directory
    expanded, taken from the workspace root when relative, and resolved. *)
Definition resolved_candidate {host : Platform} {W} (self : ToolContext W) (raw_path : string) : Path :=
  let candidate := fs_expanduser (Path_of_string raw_path) in
  if is_absolute candidate then fs_resolve candidate
  else fs_resolve (joinpath (cwd self) candidate).

(** [ToolContext.resolve_path] *)
Definition resolve_path {host : Platform} {W} (self : ToolContext W) (raw_path : string) : outcome Path :=
  let resolved := resolved_candidate self raw_path in
  if bool_decide (sandbox_mode self ≠ DANGER_FULL_ACCESS) && negb (_is_within (cwd self) resolved)
  then Raise (ValueError ("path escapes workspace: " +:+ raw_path))
  else Ret resolved.

(** [ToolHandler]: a handler reads the context and the arguments, acts on
    the world, may replace the plan of the context (the one field a
    handler assigns), and returns text or raises. *)
Definition ToolHandler (W : Type) : Type :=
  ToolContext W → dict → W → outcome string * list PlanItem * W.

Record Tool (W : Type) : Type := mkTool {
  tool_name : string;
  tool_description : string;
  tool_parameters : json;
  tool_handler : ToolHandler W;
  tool_mutating : bool
}.
Arguments mkTool {W}.
Arguments tool_name {W}.
Arguments tool_description {W}.
Arguments tool_parameters {W}.
Arguments tool_handler {W}.
Arguments tool_mutating {W}.

(** [ToolRegistry]: the context and the dict [_tools]. *)
Record ToolRegistry (W : Type) : Type := mkToolRegistry {
  context : ToolContext W;
  _tools : gmap string (Tool W)
}.
Arguments mkToolRegistry {W}.
Arguments context {W}.
Arguments _tools {W}.

(** ** agent.py: messages *)

(** A tool call as the adapters of [model_adapters.py] build it: the id,
    the name and the arguments are text, so that [str(call.get("id", ""))]
    and the like in [run] are these fields. *)
Record ToolCall : Type := mkToolCall {
  tc_id : string;
  tc_name : string;             (* [call["function"]["name"]] *)
  tc_arguments : string         (* [call["function"]["arguments"]] *)
}.

Inductive ContentPart : Type :=
  | TextPart (text : string)    (* [{"type": "text", "text": ...}] *)
  | OtherPart.

Inductive Content : Type :=
  | CNone
  | CText (s : string)
  | CParts (l : list ContentPart)
  | COther (shown : string).    (* anything else, with its [str] *)

Inductive Message : Type :=
  | SystemMessage (content : string)
  | UserMessage (content : string)
  | AssistantMessage (content : Content) (reasoning_content : option string)
                     (tool_calls : list ToolCall)
  | ToolMessage (tool_call_id : string) (content : string).

(** What [ChatModel.complete] returns. *)
Record Assistant : Type := mkAssistant {
  a_content : Content;
  a_reasoning_content : option string;
  a_tool_calls : list ToolCall
}.

(** One entry of [as_openai_tools()]: name, description, parameters. *)
Abbreviation ToolSchema := (string * string * json)%type.

(** [ChatModel]: the model reads the conversation and the schemas, acts
    on the world and returns one assistant message, or raises. *)
Record ChatModel (W : Type) : Type := mkChatModel {
  complete : list Message → list ToolSchema → W → outcome Assistant * W
}.
Arguments mkChatModel {W}.
Arguments complete {W}.

Record AgentConfig : Type := mkAgentConfig { max_steps : Z }.

(** [AgentCallbacks]: each hook is absent or a callable acting on the
    observer's own state [U] (the display); a hook may raise. *)
Record AgentCallbacks (U : Type) : Type := mkAgentCallbacks {
  on_status : option (string → U → outcome unit * U);
  on_thinking : option (string → U → outcome unit * U);
  on_tool_call : option (string * string → U → outcome unit * U);
  on_tool_result : option (string * string → U → outcome unit * U)
}.
Arguments mkAgentCallbacks {U}.
Arguments on_status {U}.
Arguments on_thinking {U}.
Arguments on_tool_call {U}.
Arguments on_tool_result {U}.

(** ** The machine state *)

(** The calls that leave the loop, in the order they are made. *)
Inductive Event : Type :=
  | EvComplete (messages : list Message)           (* [model.complete] *)
  | EvApproval (action preview : string)           (* [ask_approval] *)
  | EvHandler (name : string) (arguments : dict)   (* [tool.handler], and *)
              (result : outcome string).           (* how it ended *)

Record State (W U : Type) : Type := mkState {
  st_tools : ToolRegistry W;        (* [agent.tools], with its context *)
  st_messages : list Message;       (* [agent.messages] *)
  st_world : W;                     (* what tools, model and callback act on *)
  st_ui : U;                        (* what the hooks act on *)
  st_log : list Event               (* the calls made so far *)
}.
Arguments mkState {W U}.
Arguments st_tools {W U}.
Arguments st_messages {W U}.
Arguments st_world {W U}.
Arguments st_ui {W U}.
Arguments st_log {W U}.

(** Computations: a result or a fault, and the state left behind. *)
Definition M (W U : Type) (A : Type) : Type := State W U → outcome A * State W U.

Global Instance M_ret {W U} : MRet (M W U) := λ A a st, (Ret a, st).
Global Instance M_bind {W U} : MBind (M W U) := λ A B k m st,
  match m st with
  | (Ret a, st') => k a st'
  | (Raise e, st') => (Raise e, st')
  end.

Definition raise {W U A} (e : exn) : M W U A := λ st, (Raise e, st).
Definition gets {W U A} (f : State W U → A) : M W U A := λ st, (Ret (f st), st).
Definition modify {W U} (f : State W U → State W U) : M W U unit := λ st, (Ret (), f st).

Definition with_plan {W U} (p : list PlanItem) (st : State W U) : State W U :=
  mkState (mkToolRegistry (set_plan (context (st_tools st)) p) (_tools (st_tools st)))
          (st_messages st) (st_world st) (st_ui st) (st_log st).
Definition with_messages {W U} (ms : list Message) (st : State W U) : State W U :=
  mkState (st_tools st) ms (st_world st) (st_ui st) (st_log st).
Definition with_world {W U} (w : W) (st : State W U) : State W U :=
  mkState (st_tools st) (st_messages st) w (st_ui st) (st_log st).
Definition with_ui {W U} (u : U) (st : State W U) : State W U :=
  mkState (st_tools st) (st_messages st) (st_world st) u (st_log st).
Definition with_log {W U} (l : list Event) (st : State W U) : State W U :=
  mkState (st_tools st) (st_messages st) (st_world st) (st_ui st) l.

(** [self.messages.append(m)] *)
Definition append_message {W U} (m : Message) : M W U unit :=
  modify (λ st, with_messages (st_messages st ++ [m]) st).

(** The double quote, for the JSON text the code prints. *)
Definition dq : string := String (ascii_of_nat 34) "".

(** The line feed. *)
Definition nl : string := String (ascii_of_nat 10) "".

Section Runtime.
Context {host : Platform} {W U : Type}.

Local Abbreviation M := (M W U).

(** *** ToolRegistry *)

(** [ToolRegistry(context)] *)
Definition ToolRegistry_new (ctx : ToolContext W) : ToolRegistry W :=
  mkToolRegistry ctx ∅.

(** [register]: insert by the tool's own name; the same name replaces. *)
Definition register (self : ToolRegistry W) (tool : Tool W) : ToolRegistry W :=
  mkToolRegistry (context self) (<[tool_name tool := tool]> (_tools self)).

(** [sorted(self._tools)]: the keys in the order of [str] comparison
    (code points, which is the order of the UTF-8 bytes). *)
Definition sorted_names (tools : gmap string (Tool W)) : list string :=
  merge_sort (λ a b, String.leb a b) (map_to_list tools).*1.

(** [list_tools]: [[self._tools[name] for name in sorted(self._tools)]] *)
Definition list_tools (self : ToolRegistry W) : list (Tool W) :=
  omap (λ name, _tools self !! name) (sorted_names (_tools self)).

Definition list_tool_names (self : ToolRegistry W) : list string :=
  tool_name <$> list_tools self.

Definition as_openai_tools (self : ToolRegistry W) : list ToolSchema :=
  (λ tool, (tool_name tool, tool_description tool, tool_parameters tool)) <$> list_tools self.

(** The call of the approval callback, on the world. *)
Definition call_ask_approval (action preview : string) : M bool := λ st,
  let '(r, w) := ask_approval (context (st_tools st)) action preview (st_world st) in
  (r, with_world w (with_log (st_log st ++ [EvApproval action preview]) st)).

(** [try: return tool.handler(self.context, arguments)
     except Exception as exc: return f"Tool execution failed: {exc}"] *)
Definition try_handler (name : string) (tool : Tool W) (arguments : dict) : M string := λ st,
  let '(r, p, w) := tool_handler tool (context (st_tools st)) arguments (st_world st) in
  let st' := with_plan p (with_world w (with_log (st_log st ++ [EvHandler name arguments r]) st)) in
  match r with
  | Ret text => (Ret text, st')
  | Raise exc => (Ret ("Tool execution failed: " +:+ exn_str exc), st')
  end.

(** [json.dumps(arguments, ensure_ascii=True, indent=2)[:600]] *)
Definition approval_preview (arguments : dict) : string :=
  Py.take 600 (json_dumps_indent (JObj arguments)).

(** The gate of [execute] for a mutating tool: the text of the refusal,
    or [None] when the call may go on to the handler. *)
Definition gate (name : string) (arguments : dict) : M (option string) :=
  ctx ← gets (λ st, context (st_tools st));
  if bool_decide (sandbox_mode ctx = READ_ONLY) then
    mret (Some "blocked by sandbox policy: read-only")
  else if bool_decide (approval_policy ctx = NEVER) then
    mret (Some "blocked by approval policy: never")
  else if bool_decide (approval_policy ctx = ON_REQUEST) then
    let preview := approval_preview arguments in
    approved ← call_ask_approval name preview;
    if negb approved then mret (Some "Rejected by user.") else mret None
  else mret None.

(** [ToolRegistry.execute]; what [json.loads] raises besides
    [JSONDecodeError] is not caught. *)
Definition execute (name arguments_json : string) : M string :=
  tools ← gets (λ st, _tools (st_tools st));
  match tools !! name with
  | None => mret ("Unknown tool: " +:+ name)
  | Some tool =>
      match json_loads (Py.str_or arguments_json "{}") with
      | JSONDecodeError exc => mret ("Invalid tool arguments JSON: " +:+ exc)
      | LoadsRaised fault => raise (loads_exn fault)
      | Parsed (JObj arguments) =>
          blocked ← (if tool_mutating tool then gate name arguments else mret None);
          match blocked with
          | Some refusal => mret refusal
          | None => try_handler name tool arguments
          end
      | Parsed _ => mret "Tool arguments must be a JSON object."
      end
  end.

(** *** The plan tool *)

Definition plan_statuses : list string := ["pending"; "in_progress"; "completed"].

(** The loop of [_update_plan] over the items, with its early returns:
    [inl] the text returned from inside the loop, [inr] the list
    [normalized] when the loop ends. *)
Fixpoint normalize_plan (items : list json) (normalized : list PlanItem)
    : string + list PlanItem :=
  match items with
  | [] => inr normalized
  | JObj item :: rest =>
      let step := Py.strip (py_str (default (JStr "") (dict_get "step" item))) in
      let status := Py.strip (py_str (default (JStr "") (dict_get "status" item))) in
      if bool_decide (step = "") then inl "plan step cannot be empty"
      else if negb (bool_decide (status ∈ plan_statuses)) then
        inl "status must be pending | in_progress | completed"
      else normalize_plan rest (normalized ++ [mkPlanItem step status])
  | _ :: _ => inl "each plan item must be an object"
  end.

(** [json.dumps({"ok": True, "plan_size": n})] *)
Definition plan_ok_text (n : nat) : string :=
  "{" +:+ dq +:+ "ok" +:+ dq +:+ ": true, " +:+ dq +:+ "plan_size" +:+ dq +:+ ": "
  +:+ pretty n +:+ "}".

(** [_update_plan] *)
Definition _update_plan : ToolHandler W := λ ctx args w,
  match dict_get "plan" args with
  | Some (JArr plan_arg) =>
      match normalize_plan plan_arg [] with
      | inl message => (Ret message, plan ctx, w)
      | inr normalized =>
          (Ret (plan_ok_text (length normalized)), normalized, w)
      end
  | _ => (Ret "plan must be a list of {step, status}", plan ctx, w)
  end.

Definition update_plan_tool : Tool W :=
  mkTool "update_plan"
         "Create or update a lightweight task plan for the current session."
         (JObj [("type", JStr "object")]) _update_plan false.

(** *** The agent loop *)

(** [_coerce_text] *)
Definition _coerce_text (content : Content) : string :=
  match content with
  | CNone => ""
  | CText s => s
  | CParts l =>
      String.concat "" (omap (λ item, match item with TextPart t => Some t | OtherPart => None end) l)
  | COther shown => shown
  end.

(** [NanoCodeAgent._fire]: call the hook if there is one. *)
Definition _fire {A} (fn : option (A → U → outcome unit * U)) (a : A) : M unit := λ st,
  match fn with
  | None => (Ret (), st)
  | Some f => let '(r, u) := f a (st_ui st) in (r, with_ui u st)
  end.

(** [self.model.complete(messages=self.messages, tools=self.tools.as_openai_tools())] *)
Definition call_model (model : ChatModel W) : M Assistant := λ st,
  let '(r, w) := complete model (st_messages st) (as_openai_tools (st_tools st)) (st_world st) in
  (r, with_world w (with_log (st_log st ++ [EvComplete (st_messages st)]) st)).

(** [reasoning_content], kept only when truthy. *)
Definition kept_reasoning (assistant : Assistant) : option string :=
  match a_reasoning_content assistant with
  | Some r => Py.str_or_none r
  | None => None
  end.

(** [for call in tool_calls: ...] *)
Fixpoint run_tool_calls (cb : AgentCallbacks U) (tool_calls : list ToolCall) : M unit :=
  match tool_calls with
  | [] => mret ()
  | call :: rest =>
      let call_id := tc_id call in
      let name := tc_name call in
      let arguments := tc_arguments call in
      _fire (on_tool_call cb) (name, arguments);;
      result ← execute name arguments;
      _fire (on_tool_result cb) (name, result);;
      append_message (ToolMessage call_id result);;
      run_tool_calls cb rest
  end.

(** The body of [for _ in range(self.config.max_steps)], with what
    follows the loop; [n] counts the iterations that remain. *)
Fixpoint run_steps (model : ChatModel W) (cb : AgentCallbacks U) (limit : Z) (n : nat)
    : M string :=
  match n with
  | 0 => raise (RuntimeError ("max steps exceeded (" +:+ pretty limit +:+ ")"))
  | S n' =>
      _fire (on_status cb) "Thinking...";;
      assistant ← call_model model;
      _fire (on_status cb) "";;
      match kept_reasoning assistant with
      | Some reasoning => _fire (on_thinking cb) reasoning
      | None => mret ()
      end;;
      let tool_calls := a_tool_calls assistant in
      append_message
        (AssistantMessage (a_content assistant) (kept_reasoning assistant) tool_calls);;
      match tool_calls with
      | [] => mret (_coerce_text (a_content assistant))
      | _ :: _ => run_tool_calls cb tool_calls;; run_steps model cb limit n'
      end
  end.

(** [NanoCodeAgent.run] *)
Definition run (model : ChatModel W) (config : AgentConfig) (cb : AgentCallbacks U)
    (user_input : string) : M string :=
  append_message (UserMessage user_input);;
  run_steps model cb (max_steps config) (Z.to_nat (max_steps config)).

(** [NanoCodeAgent.__init__]: the conversation starts as the system
    prompt alone. *)
Definition NanoCodeAgent_init (tools : ToolRegistry W) (system_prompt : string)
    (w : W) (u : U) (log : list Event) : State W U :=
  mkState tools [SystemMessage system_prompt] w u log.

(** *** subagents.py *)

(** [SubagentRunner._build_subagent_tools] *)
Definition _build_subagent_tools (parent_tools : ToolRegistry W) : ToolRegistry W :=
  let parent_context := context parent_tools in
  let sub_context :=
    ToolContext_new (cwd parent_context) (ask_approval parent_context) READ_ONLY NEVER [] in
  foldl (λ registry tool,
           if tool_mutating tool then registry
           else if bool_decide (tool_name tool ∈ ["update_plan"]) then registry
           else register registry tool)
        (ToolRegistry_new sub_context) (list_tools parent_tools).

End Runtime.

(** ** Names of external tools *)

Definition is_word_char (c : ascii) : bool :=
  let n := nat_of_ascii c in
  (Nat.leb 48 n && Nat.leb n 57) || (Nat.leb 65 n && Nat.leb n 90)
  || (Nat.leb 97 n && Nat.leb n 122) || Nat.eqb n 95.

(** [re.sub(r"[^A-Za-z0-9_]+", "_", value)]: every maximal run of other
    characters becomes one underscore. *)
Fixpoint sub_non_word (in_run : bool) (value : string) : string :=
  match value with
  | EmptyString => EmptyString
  | String c rest =>
      if is_word_char c then String c (sub_non_word false rest)
      else if in_run then sub_non_word true rest
      else String "_" (sub_non_word true rest)
  end.

(** [re.sub(...).strip("_").lower() or fallback] *)
Definition sanitize_with (fallback value : string) : string :=
  Py.str_or (Py.lower (Py.strip_with (Ascii.eqb "_") (sub_non_word false value))) fallback.

(** ** plugins.py *)

Module Plugins.

Definition _sanitize_name : string → string := sanitize_with "item".

Record PluginToolSpec : Type := mkPluginToolSpec {
  plugin_name : string;
  name : string;
  description : string;
  parameters : dict;
  mutating : bool;
  timeout_sec : Z;
  command : option string;
  argv : option (list string);
  workdir : option Path
}.

Section Parse.
Context {host : Platform}.

(** One turn of the loop of [_parse_tools]. *)
Definition parse_tool (manifest_path : Path) (plugin : string) (item : json)
    : outcome PluginToolSpec :=
  match item with
  | JObj item =>
      let name := Py.strip (py_str (default (JStr "") (dict_get "name" item))) in
      if bool_decide (name = "") then Raise (ValueError "tool.name is required") else
      let description :=
        Py.str_or (Py.strip (py_str (default (JStr "") (dict_get "description" item))))
                  ("Plugin tool `" +:+ name +:+ "`") in
      match default (JObj []) (dict_get "parameters" item) with
      | JObj parameters =>
          let command :=
            Py.str_or_none (Py.strip (py_str (default (JStr "") (dict_get "command" item)))) in
          let argv :=
            match dict_get "argv" item with
            | Some (JArr argv_value) => Some (py_str <$> argv_value)
            | _ => None
            end in
          let no_argv := match argv with Some (_ :: _) => false | _ => true end in
          if bool_decide (command = None) && no_argv then
            Raise (ValueError ("tool `" +:+ name +:+ "` must provide `command` or `argv`"))
          else if negb (bool_decide (command = None)) && negb no_argv then
            Raise (ValueError ("tool `" +:+ name +:+ "` cannot provide both `command` and `argv`"))
          else
            outcome_bind (py_int (default (JInt 120) (dict_get "timeout_sec" item))) (λ t,
              Ret {| plugin_name := plugin; name := name; description := description;
                     parameters := parameters;
                     mutating := truthy (default (JBool false) (dict_get "mutating" item));
                     timeout_sec := Z.max 1 (Z.min t 1800);
                     command := command; argv := argv;
                     workdir := Some (Path_parent manifest_path) |})
      | _ => Raise (ValueError "tool.parameters must be an object")
      end
  | _ => Raise (ValueError "tool entry must be an object")
  end.

Fixpoint parse_tool_entries (manifest_path : Path) (plugin : string) (raw_tools : list json)
    : outcome (list PluginToolSpec) :=
  match raw_tools with
  | [] => Ret []
  | item :: rest =>
      outcome_bind (parse_tool manifest_path plugin item) (λ spec,
        outcome_bind (parse_tool_entries manifest_path plugin rest) (λ specs,
          Ret (spec :: specs)))
  end.

(** [_parse_tools] *)
Definition _parse_tools (payload : dict) (manifest_path : Path) (plugin : string)
    : outcome (list PluginToolSpec) :=
  match default (JArr []) (dict_get "tools" payload) with
  | JArr raw_tools => parse_tool_entries manifest_path plugin raw_tools
  | _ => Raise (ValueError "`tools` must be a list")
  end.

End Parse.

Section Load.
Context {host : Platform} {W : Type}.

(** What the loader takes from its surroundings: the commands and skills
    of a manifest (not tools), the manifest files found under the plugin
    directories, the text of a manifest parsed by [json.loads], and the
    subprocess handler built for a tool. *)
Variables PluginCommandSpec Skill : Type.
Variable _parse_commands : dict → string → outcome (list PluginCommandSpec).
Variable _parse_skills : dict → Path → string → outcome (list Skill).
Variable _iter_manifest_files : list Path → list Path.
Variable read_manifest : Path → outcome json.
Variable _build_tool_handler : PluginToolSpec → ToolHandler W.

Record PluginLoadResult : Type := mkPluginLoadResult {
  tool_names : list string;
  commands : list PluginCommandSpec;
  skills : list Skill;
  errors : list string
}.

Record _ParsedManifest : Type := mkParsedManifest {
  pm_plugin_name : string;
  pm_tools : list PluginToolSpec;
  pm_commands : list PluginCommandSpec;
  pm_skills : list Skill
}.

(** [_parse_manifest] *)
Definition _parse_manifest (manifest_path : Path) : outcome _ParsedManifest :=
  outcome_bind (read_manifest manifest_path) (λ payload,
    match payload with
    | JObj payload =>
        let dir_name := Path_name (Path_parent manifest_path) in
        let plugin :=
          Py.str_or (Py.strip (py_str (default (JStr dir_name) (dict_get "name" payload))))
                    dir_name in
        outcome_bind (_parse_tools payload manifest_path plugin) (λ tools,
          outcome_bind (_parse_commands payload plugin) (λ cmds,
            outcome_bind (_parse_skills payload manifest_path plugin) (λ sks,
              Ret (mkParsedManifest plugin tools cmds sks))))
    | _ => Raise (ValueError "manifest root must be an object")
    end).

Definition namespaced_name (spec : PluginToolSpec) : string :=
  _sanitize_name (plugin_name spec) +:+ "__" +:+ _sanitize_name (name spec).

(** The [Tool] that [load_plugins] builds from a declaration. *)
Definition plugin_tool (spec : PluginToolSpec) : Tool W :=
  mkTool (namespaced_name spec)
         ("[plugin:" +:+ plugin_name spec +:+ "] " +:+ description spec)
         (JObj (parameters spec)) (_build_tool_handler spec) (mutating spec).

(** The loader's variables: the registry, [existing_tool_names], [result]. *)
Record LoadState : Type := mkLoadState {
  ls_registry : ToolRegistry W;
  ls_existing : gset string;
  ls_result : PluginLoadResult
}.

Definition add_error (msg : string) (r : PluginLoadResult) : PluginLoadResult :=
  mkPluginLoadResult (tool_names r) (commands r) (skills r) (errors r ++ [msg]).

Definition duplicate_error (namespaced : string) : string :=
  "duplicate plugin tool ignored: " +:+ namespaced.

(** How many collision errors, and how many registrations, the result
    reports for a name. *)
Definition collisions (namespaced : string) (r : PluginLoadResult) : nat :=
  length (filter (λ e, e = duplicate_error namespaced) (errors r)).

Definition registrations (namespaced : string) (r : PluginLoadResult) : nat :=
  length (filter (λ x, x = namespaced) (tool_names r)).

(** The tool declarations of the manifests that parse, in load order. *)
Definition declared_tools (manifests : list Path) : list PluginToolSpec :=
  manifests ≫= λ manifest,
    match _parse_manifest manifest with
    | Ret parsed => pm_tools parsed
    | Raise _ => []
    end.

(** The body of [for spec in parsed.tools]. *)
Definition load_spec (s : LoadState) (spec : PluginToolSpec) : LoadState :=
  let namespaced := namespaced_name spec in
  if bool_decide (namespaced ∈ ls_existing s) then
    mkLoadState (ls_registry s) (ls_existing s)
                (add_error (duplicate_error namespaced) (ls_result s))
  else
    let r := ls_result s in
    mkLoadState (register (ls_registry s) (plugin_tool spec))
                ({[namespaced]} ∪ ls_existing s)
                (mkPluginLoadResult (tool_names r ++ [namespaced]) (commands r) (skills r)
                                    (errors r)).

(** The body of [for manifest in _iter_manifest_files(plugin_dirs)]. *)
Definition load_manifest (s : LoadState) (manifest : Path) : LoadState :=
  match _parse_manifest manifest with
  | Raise exc =>
      mkLoadState (ls_registry s) (ls_existing s)
        (add_error ("invalid plugin manifest `" +:+ Path_str manifest +:+ "`: " +:+ exn_str exc)
                   (ls_result s))
  | Ret parsed =>
      let s' := foldl load_spec s (pm_tools parsed) in
      let r := ls_result s' in
      mkLoadState (ls_registry s') (ls_existing s')
        (mkPluginLoadResult (tool_names r) (commands r ++ pm_commands parsed)
                            (skills r ++ pm_skills parsed) (errors r))
  end.

(** [load_plugins] *)
Definition load_plugins (registry : ToolRegistry W) (plugin_dirs : list Path)
    : ToolRegistry W * PluginLoadResult :=
  let s0 := mkLoadState registry (list_to_set (list_tool_names registry))
                        (mkPluginLoadResult [] [] [] []) in
  let s := foldl load_manifest s0 (_iter_manifest_files plugin_dirs) in
  (ls_registry s, ls_result s).

(** The loader keeps in [existing_tool_names] the keys of the registry. *)
Definition tracked (s : LoadState) : Prop :=
  ls_existing s = dom (_tools (ls_registry s)).

(** Two loader states that agree on everything about tools. *)
Definition agree (s1 s2 : LoadState) : Prop :=
  ls_registry s1 = ls_registry s2
  ∧ ls_existing s1 = ls_existing s2
  ∧ tool_names (ls_result s1) = tool_names (ls_result s2)
  ∧ ∀ n, collisions n (ls_result s1) = collisions n (ls_result s2).

End Load.

(** *** Slash commands of a manifest *)

Record PluginCommandSpec : Type := mkPluginCommandSpec {
  cmd_plugin_name : string;
  cmd_name : string;
  cmd_description : string;
  cmd_usage : string;
  cmd_output : string;
  cmd_agent_input_template : option string
}.

Section Commands.
Context {host : Platform}.

(** [str(item.get(key, "")).strip()] *)
Definition text_field (key : string) (item : dict) : string :=
  Py.strip (py_str (default (JStr "") (dict_get key item))).

(** One turn of the loop of [_parse_commands]. *)
Definition parse_command (plugin : string) (item : json) : outcome PluginCommandSpec :=
  match item with
  | JObj item =>
      let raw_name := text_field "name" item in
      if bool_decide (raw_name = "") then Raise (ValueError "command.name is required") else
      let name := _sanitize_name raw_name in
      Ret {| cmd_plugin_name := plugin;
             cmd_name := name;
             cmd_description :=
               Py.str_or (text_field "description" item) ("Plugin command `" +:+ name +:+ "`");
             cmd_usage := Py.str_or (text_field "usage" item) ("/" +:+ name +:+ " [args]");
             cmd_output :=
               Py.str_or (text_field "output" item)
                         ("Running plugin command `/" +:+ name +:+ "`...");
             cmd_agent_input_template :=
               Py.str_or_none (text_field "agent_input_template" item) |}
  | _ => Raise (ValueError "command entry must be an object")
  end.

Fixpoint parse_command_entries (plugin : string) (raw_commands : list json)
    : outcome (list PluginCommandSpec) :=
  match raw_commands with
  | [] => Ret []
  | item :: rest =>
      outcome_bind (parse_command plugin item) (λ spec,
        outcome_bind (parse_command_entries plugin rest) (λ specs,
          Ret (spec :: specs)))
  end.

(** [_parse_commands] *)
Definition _parse_commands (payload : dict) (plugin : string)
    : outcome (list PluginCommandSpec) :=
  match default (JArr []) (dict_get "commands" payload) with
  | JArr raw_commands => parse_command_entries plugin raw_commands
  | _ => Raise (ValueError "`commands` must be a list")
  end.

End Commands.

(** *** The handler of a plugin tool *)

(** What [subprocess.run(..., capture_output=True, text=True)] returns. *)
Record CompletedProcess : Type := mkCompletedProcess {
  returncode : Z;
  stdout : string;
  stderr : string
}.

(** [output[:limit] + "\n... (truncated)"] when [len(output) > limit] *)
Definition truncated (limit : nat) (output : string) : string :=
  if Nat.ltb limit (Py.len output)
  then Py.take limit output +:+ nl +:+ "... (truncated)"
  else output.

Section Handler.
Context {W : Type}.

(** [subprocess.run(command, shell=..., cwd=..., input=..., timeout=...,
    check=False)]: the command is a shell line ([shell=True]) or an
    argument vector; the call acts on the world and returns the finished
    process, or raises ([TimeoutExpired], [OSError]).  [json_dumps] is
    [json.dumps(args, ensure_ascii=False)]. *)
Variable subprocess_run : string + list string → option Path → string → Z → W
                          → outcome CompletedProcess * W.
Variable json_dumps : json → string.

(** The command line the handler runs: [spec.argv] when it is not empty,
    or else [spec.command or ""] through the shell. *)
Definition plugin_command (spec : PluginToolSpec) : string + list string :=
  match argv spec with
  | Some (arg :: args) => inr (arg :: args)
  | _ => inl (default "" (command spec))
  end.

(** What the handler makes of the finished process. *)
Definition render_process (spec : PluginToolSpec) (proc : CompletedProcess) : string :=
  let output := Py.strip (stdout proc) in
  let error_text := Py.strip (stderr proc) in
  if bool_decide (returncode proc ≠ 0%Z) then
    let detail :=
      Py.str_or (Py.str_or error_text output) ("exit_code=" +:+ pretty (returncode proc)) in
    "plugin `" +:+ plugin_name spec +:+ "` tool `" +:+ name spec +:+ "` failed: " +:+ detail
  else if bool_decide (output = "") then
    "plugin `" +:+ plugin_name spec +:+ "` tool `" +:+ name spec
    +:+ "` finished with empty output"
  else truncated (8 * 1000) output.

(** [_build_tool_handler] *)
Definition _build_tool_handler (spec : PluginToolSpec) : ToolHandler W := λ _ctx args w,
  let '(r, w') :=
    subprocess_run (plugin_command spec) (workdir spec) (json_dumps (JObj args))
                   (timeout_sec spec) w in
  match r with
  | Ret proc => (Ret (render_process spec proc), plan _ctx, w')
  | Raise exc => (Raise exc, plan _ctx, w')
  end.

End Handler.

End Plugins.

(** ** mcp.py *)

Module Mcp.

Definition _sanitize_name : string → string := sanitize_with "tool".

Record McpServerConfig : Type := mkMcpServerConfig {
  server_name : string;
  server_command : string;
  server_args : list string;
  server_timeout_sec : Z
}.

(** [raw_tool.annotations]: [readOnlyHint] is a bool, or is [None] or
    missing. *)
Record ToolAnnotations : Type := mkToolAnnotations {
  readOnlyHint : option bool
}.

(** A tool as [client.list_tools()] reports it, through the attributes
    the loader reads. *)
Record RawTool : Type := mkRawTool {
  raw_name : string;                          (* [str(getattr(t, "name", ""))] *)
  raw_description : string;
  inputSchema : option json;
  annotations : option ToolAnnotations
}.

Record McpBridge : Type := mkMcpBridge {
  tool_names : list string;
  errors : list string
}.

Section Load.
Context {host : Platform} {W : Type}.

(** What the loader takes from its surroundings: whether a path is an
    existing file, the servers a config file declares, the tools a server
    lists (or the fault of asking), and the handler that calls a tool. *)
Variable is_file : Path → bool.
Variable _parse_mcp_config : Path → outcome (list McpServerConfig).
Variable list_server_tools : McpServerConfig → outcome (list RawTool).
Variable mcp_handler : McpServerConfig → string → ToolHandler W.

(** [bool(getattr(annotations, "readOnlyHint", False)) if annotations else False] *)
Definition read_only_of (raw_tool : RawTool) : bool :=
  match annotations raw_tool with
  | Some a => default false (readOnlyHint a)
  | None => false
  end.

Definition namespaced_name (server : McpServerConfig) (name : string) : string :=
  "mcp__" +:+ _sanitize_name (server_name server) +:+ "__" +:+ _sanitize_name name.

(** The [Tool] registered for a listed tool. *)
Definition mcp_tool (server : McpServerConfig) (raw_tool : RawTool) (name : string) : Tool W :=
  let description := Py.strip (raw_description raw_tool) in
  let schema :=
    match inputSchema raw_tool with
    | Some (JObj fields) => JObj fields
    | _ => JObj [("type", JStr "object"); ("properties", JObj [])]
    end in
  mkTool (namespaced_name server name)
         (Py.str_or description
            ("[mcp:" +:+ server_name server +:+ "] call MCP tool `" +:+ name +:+ "`"))
         schema (mcp_handler server name) (negb (read_only_of raw_tool)).

Record LoadState : Type := mkLoadState {
  ls_registry : ToolRegistry W;
  ls_seen : gset string;
  ls_bridge : McpBridge
}.

(** The body of [for raw_tool in tools]. *)
Definition load_tool (server : McpServerConfig) (s : LoadState) (raw_tool : RawTool)
    : LoadState :=
  let name := Py.strip (raw_name raw_tool) in
  if bool_decide (name = "") then s
  else
    let tool := mcp_tool server raw_tool name in
    mkLoadState (register (ls_registry s) tool) (ls_seen s)
                (mkMcpBridge (tool_names (ls_bridge s) ++ [tool_name tool])
                             (errors (ls_bridge s))).

Definition add_error (msg : string) (s : LoadState) : LoadState :=
  mkLoadState (ls_registry s) (ls_seen s)
              (mkMcpBridge (tool_names (ls_bridge s)) (errors (ls_bridge s) ++ [msg])).

(** The body of [for server in servers]. *)
Definition load_server (s : LoadState) (server : McpServerConfig) : LoadState :=
  if bool_decide (server_name server ∈ ls_seen s) then s
  else
    let s := mkLoadState (ls_registry s) ({[server_name server]} ∪ ls_seen s) (ls_bridge s) in
    match list_server_tools server with
    | Raise exc =>
        add_error ("MCP server `" +:+ server_name server +:+ "` unavailable: " +:+ exn_str exc) s
    | Ret tools => foldl (load_tool server) s tools
    end.

(** The body of [for raw_path in config_paths]. *)
Definition load_config (s : LoadState) (raw_path : Path) : LoadState :=
  let path := fs_resolve (fs_expanduser raw_path) in
  if negb (is_file path) then s
  else
    match _parse_mcp_config path with
    | Raise exc =>
        add_error ("invalid MCP config `" +:+ Path_str path +:+ "`: " +:+ exn_str exc) s
    | Ret servers => foldl load_server s servers
    end.

(** [load_mcp_tools] *)
Definition load_mcp_tools (registry : ToolRegistry W) (config_paths : list Path)
    : ToolRegistry W * McpBridge :=
  let s := foldl load_config (mkLoadState registry ∅ (mkMcpBridge [] [])) config_paths in
  (ls_registry s, ls_bridge s).

End Load.

(** *** The config file *)

Section Config.
Context {host : Platform}.

(** [json.loads(path.read_text(encoding="utf-8"))]: the value, or what
    reading or decoding raised. *)
Variable read_config : Path → outcome json.

(** One turn of the loop of [_parse_mcp_config]: [None] when the entry
    is skipped. *)
Definition parse_server (name : string) (item : json) : outcome (option McpServerConfig) :=
  match item with
  | JObj item =>
      let command := Py.strip (py_str (default (JStr "") (dict_get "command" item))) in
      if bool_decide (command = "") then Ret None else
      let args :=
        match default (JArr []) (dict_get "args" item) with
        | JArr raw_args => py_str <$> raw_args
        | _ => []
        end in
      outcome_bind (py_int (default (JInt 30) (dict_get "timeout_sec" item))) (λ t,
        Ret (Some {| server_name := Py.strip name;
                     server_command := command;
                     server_args := args;
                     server_timeout_sec := Z.max 5 (Z.min t 300) |}))
  | _ => Ret None
  end.

Fixpoint parse_servers (raw_mcp_servers : list (string * json))
    : outcome (list McpServerConfig) :=
  match raw_mcp_servers with
  | [] => Ret []
  | (name, item) :: rest =>
      outcome_bind (parse_server name item) (λ parsed,
        outcome_bind (parse_servers rest) (λ servers,
          Ret (match parsed with
               | Some server => server :: servers
               | None => servers
               end)))
  end.

(** [_parse_mcp_config] *)
Definition _parse_mcp_config (path : Path) : outcome (list McpServerConfig) :=
  outcome_bind (read_config path) (λ payload,
    match payload with
    | JObj payload =>
        match dict_get "mcpServers" payload with
        | Some (JObj raw_mcp_servers) => parse_servers raw_mcp_servers
        | _ => Ret []
        end
    | _ =>
        Raise (OtherError "AttributeError"
                 ("'" +:+ py_type_name payload +:+ "' object has no attribute 'get'"))
    end).

End Config.

(** *** Calling a tool *)

(** One item of [result.content]: a text item, an item that has
    [model_dump] (carried as the [json.dumps] text of its dump), or
    anything else (carried as its [str]). *)
Inductive ContentItem : Type :=
  | TextContent (text : string)
  | DumpedContent (dumped : string)
  | OtherContent (shown : string).

(** The result of [client.call_tool], through the attributes that
    [_render_tool_result] reads; [isError] stands for
    [isError or is_error]. *)
Record CallToolResult : Type := mkCallToolResult {
  isError : bool;
  content : list ContentItem
}.

Definition chunk_of (item : ContentItem) : option string :=
  match item with
  | TextContent text => Py.str_or_none text
  | DumpedContent dumped => Some dumped
  | OtherContent shown => Some shown
  end.

(** [_render_tool_result] *)
Definition _render_tool_result (result : CallToolResult) (server_name tool_name : string)
    : string :=
  let chunks := omap chunk_of (content result) in
  let rendered := Py.strip (Py.join nl (filter (λ part, Py.strip part ≠ "") chunks)) in
  let rendered :=
    Py.str_or rendered
      ("MCP `" +:+ server_name +:+ "/" +:+ tool_name +:+ "` returned empty result.") in
  if isError result
  then "MCP `" +:+ server_name +:+ "/" +:+ tool_name +:+ "` failed: " +:+ rendered
  else rendered.

Section Call.
Context {W : Type}.

(** [asyncio.run(asyncio.wait_for(_call_tool_async(server, tool_name,
    args), timeout=server.timeout_sec))]: the call acts on the world and
    returns the result, or raises (a timeout, a server that is gone). *)
Variable call_tool : McpServerConfig → string → dict → W → outcome CallToolResult * W.

(** The handler [_handler] that [load_mcp_tools] registers. *)
Definition _handler (server : McpServerConfig) (tool_name : string) : ToolHandler W :=
  λ _ctx args w,
    let '(r, w') := call_tool server tool_name args w in
    match r with
    | Ret result =>
        (Ret (_render_tool_result result (server_name server) tool_name), plan _ctx, w')
    | Raise exc =>
        (Ret ("MCP `" +:+ server_name server +:+ "/" +:+ tool_name +:+ "` invocation error: "
              +:+ exn_str exc), plan _ctx, w')
    end.

End Call.

End Mcp.

(** ** Vocabulary of the properties *)

(** [p] lies in the tree under [base]: same root, and the components of
    [base] followed by [rest]; strictly inside when [rest] is not empty. *)
Definition within_root (base p : Path) : Prop :=
  root p = root base ∧ ∃ rest, parts p = parts base ++ rest.

Definition strictly_inside (base p : Path) : Prop :=
  root p = root base ∧ ∃ c rest, parts p = parts base ++ c :: rest.

(** A registry as [register] builds it: every key is the name of its tool. *)
Definition registry_wf {W} (reg : ToolRegistry W) : Prop :=
  ∀ k t, _tools reg !! k = Some t → tool_name t = k.


Definition hook_returns {A U} (fn : option (A → U → outcome unit * U)) : Prop :=
  ∀ f, fn = Some f → ∀ a u, ∃ u', f a u = (Ret (), u').

Definition hooks_return {U} (cb : AgentCallbacks U) : Prop :=
  hook_returns (on_status cb) ∧ hook_returns (on_thinking cb) ∧
  hook_returns (on_tool_call cb) ∧ hook_returns (on_tool_result cb).



(** The text [execute] makes of the way a handler ended. *)
Definition handler_text (r : outcome string) : string :=
  match r with
  | Ret text => text
  | Raise exc => "Tool execution failed: " +:+ exn_str exc
  end.









(** The conversations handed to the model, and the handler calls, of a log. *)
Definition model_requests (log : list Event) : list (list Message) :=
  omap (λ e, match e with EvComplete ms => Some ms | _ => None end) log.

Definition handler_calls (log : list Event) : list (string * dict) :=
  omap (λ e, match e with EvHandler n a _ => Some (n, a) | _ => None end) log.

Definition approval_calls (log : list Event) : list (string * string) :=
  omap (λ e, match e with EvApproval a p => Some (a, p) | _ => None end) log.

(** Reading a conversation after its system message.  [pending] holds the
    ids of the tool calls of the last assistant message that have no tool
    message yet.  A tool message must carry the first pending id; a user
    or assistant message may only come when nothing is pending; a second
    system message is refused.  The result is what is pending at the end. *)
Fixpoint pending_after (pending : list string) (ms : list Message) : option (list string) :=
  match ms with
  | [] => Some pending
  | ToolMessage id _ :: rest =>
      match pending with
      | p :: ps => if bool_decide (id = p) then pending_after ps rest else None
      | [] => None
      end
  | AssistantMessage _ _ calls :: rest =>
      match pending with
      | [] => pending_after (tc_id <$> calls) rest
      | _ :: _ => None
      end
  | UserMessage _ :: rest =>
      match pending with
      | [] => pending_after [] rest
      | _ :: _ => None
      end
  | SystemMessage _ :: _ => None
  end.

(** The pending ids of a whole conversation: it must start with its one
    system message. *)
Definition pending_calls (ms : list Message) : option (list string) :=
  match ms with
  | SystemMessage _ :: rest => pending_after [] rest
  | _ => None
  end.

(** One system message first and no orphaned tool message; some calls of
    the last assistant message may still be open. *)
Definition conversation_open (ms : list Message) : Prop := is_Some (pending_calls ms).

(** The same, with every tool call answered. *)
Definition conversation_ok (ms : list Message) : Prop := pending_calls ms = Some [].

(** The tool message at position [i] answers a call of the assistant
    message just before it: position [j] holds an assistant message, only
    tool messages lie between [j] and [i], and the id is the id of the call
    of that assistant message at the same rank. *)
Definition answers_call (ms : list Message) (i : nat) (id : string) : Prop :=
  ∃ j content reasoning calls,
    j < i
    ∧ ms !! j = Some (AssistantMessage content reasoning calls)
    ∧ (∀ k, j < k < i → ∃ id' text', ms !! k = Some (ToolMessage id' text'))
    ∧ (tc_id <$> calls) !! (i - j - 1) = Some id.

(** The tool messages that answer [calls] with [results], in order. *)
Definition tool_messages (calls : list ToolCall) (results : list string) : list Message :=
  zip_with (λ call result, ToolMessage (tc_id call) result) calls results.



(** No hook at all. *)
Definition no_hooks {U} : AgentCallbacks U := mkAgentCallbacks None None None None.

(** The fault raised when the loop runs out of steps. *)
Definition StepBudgetExceeded (limit : Z) : exn :=
  RuntimeError ("max steps exceeded (" +:+ pretty limit +:+ ")").

(** The plan items the plan tool accepts, and what it stores for them. *)
Definition item_step {host : Platform} (item : dict) : string :=
  Py.strip (py_str (default (JStr "") (dict_get "step" item))).
Definition item_status {host : Platform} (item : dict) : string :=
  Py.strip (py_str (default (JStr "") (dict_get "status" item))).

Definition valid_plan_item {host : Platform} (v : json) : Prop :=
  match v with
  | JObj item =>
      item_step item ≠ "" ∧
      (item_status item = "pending" ∨ item_status item = "in_progress"
       ∨ item_status item = "completed")
  | _ => False
  end.

Definition normalized_item {host : Platform} (v : json) : PlanItem :=
  match v with
  | JObj item => mkPlanItem (item_step item) (item_status item)
  | _ => mkPlanItem "" ""
  end.

(** A plan item as the claim words it: an object whose step is a text
    that is not empty and whose status is one of the three. *)
Definition item_as_worded (v : json) : Prop :=
  match v with
  | JObj item =>
      (∃ s, dict_get "step" item = Some (JStr s) ∧ s ≠ "")
      ∧ (∃ t, dict_get "status" item = Some (JStr t) ∧ t ∈ plan_statuses)
  | _ => False
  end.

Definition plan_errors : list string :=
  [ "plan must be a list of {step, status}"; "each plan item must be an object";
    "plan step cannot be empty"; "status must be pending | in_progress | completed" ].

(** What the loop of [_build_subagent_tools] keeps true of the registry
    it fills. *)
Definition only_read_only {W} (reg : ToolRegistry W) : Prop :=
  ∀ k t, _tools reg !! k = Some t →
         tool_name t = k ∧ tool_mutating t = false ∧ tool_name t ≠ "update_plan".

(** The parts of the state that no tool call, hook or model call can
    change: the tools, and the context but for its plan. *)
Definition same_setup {W U} (st st' : State W U) : Prop :=
  _tools (st_tools st') = _tools (st_tools st)
  ∧ ask_approval (context (st_tools st')) = ask_approval (context (st_tools st))
  ∧ sandbox_mode (context (st_tools st')) = sandbox_mode (context (st_tools st))
  ∧ approval_policy (context (st_tools st')) = approval_policy (context (st_tools st))
  ∧ cwd (context (st_tools st')) = cwd (context (st_tools st)).


(** Computations that neither read nor write the display. *)
Definition ui_blind {W U A} (m : M W U A) : Prop :=
  ∀ u st, m (with_ui u st) = let '(r, st') := m st in (r, with_ui u st').

(** Membership in a list that is written out. *)
Ltac solve_elem :=
  repeat first [ apply list_elem_of_here | apply list_elem_of_further ].

(** *** Names and text *)

(** The characters of a name that [_sanitize_name] returns: lower-case
    letters, digits and the underscore. *)
Definition is_name_char (c : ascii) : bool :=
  let n := nat_of_ascii c in
  (Nat.leb 48 n && Nat.leb n 57) || (Nat.leb 97 n && Nat.leb n 122) || Nat.eqb n 95.

Fixpoint all_chars (p : ascii → bool) (s : string) : bool :=
  match s with
  | EmptyString => true
  | String c s' => p c && all_chars p s'
  end.

Definition first_char (s : string) : option ascii :=
  match s with
  | EmptyString => None
  | String c _ => Some c
  end.

Definition last_char (s : string) : option ascii := first_char (String.rev s).

(** Text that starts and ends with none of the ASCII characters [p]:
    what [strip(c)] leaves. *)
Definition stripped (p : ascii → bool) (s : string) : Prop :=
  (∀ c, first_char s = Some c → p c = false)
  ∧ (∀ c, last_char s = Some c → p c = false).

(** Text with no white-space character at either end: what
    [str.strip()] leaves. *)
Definition starts_with_space (s : string) : Prop :=
  ∃ w rest, w ∈ Py.whitespace ∧ s = w +:+ rest.

Definition ends_with_space (s : string) : Prop :=
  ∃ w front, w ∈ Py.whitespace ∧ s = front +:+ w.

Definition trimmed (s : string) : Prop := ¬ starts_with_space s ∧ ¬ ends_with_space s.

(** The bytes that occur in a white-space character. *)
Definition space_byte (c : ascii) : bool :=
  existsb (λ w, negb (all_chars (λ b, negb (Ascii.eqb b c)) w)) Py.whitespace.

(** A sanitized name: not empty, made of name characters, with no
    underscore at either end. *)
Definition sanitized (s : string) : Prop :=
  s ≠ "" ∧ all_chars is_name_char s = true ∧ stripped (Ascii.eqb "_") s.

(** *** What a run leaves in the log *)

(** The handler and approval calls of [events] are those the gate of
    [execute] allows under the registry [reg]: a handler that was called
    is that of a registered tool; if the tool is mutating, the sandbox is
    not read-only, the policy is not [never], and under [on-request] the
    call just before it is the approval call for this very tool and these
    very arguments.  The approval callback is called for registered
    mutating tools only, outside a read-only sandbox, under [on-request]. *)
Definition gate_respected {host : Platform} {W} (reg : ToolRegistry W) (events : list Event)
    : Prop :=
  (∀ pre name arguments result post,
     events = pre ++ EvHandler name arguments result :: post →
     ∃ tool,
       _tools reg !! name = Some tool
       ∧ (tool_mutating tool = true →
          sandbox_mode (context reg) ≠ READ_ONLY
          ∧ approval_policy (context reg) ≠ NEVER
          ∧ (approval_policy (context reg) = ON_REQUEST →
             ∃ pre', pre = pre' ++ [EvApproval name (approval_preview arguments)])))
  ∧ (∀ action preview,
       EvApproval action preview ∈ events →
       ∃ tool,
         _tools reg !! action = Some tool
         ∧ tool_mutating tool = true
         ∧ sandbox_mode (context reg) ≠ READ_ONLY
         ∧ approval_policy (context reg) = ON_REQUEST).

(** From [st] to [st'] the log has grown by [events], which respect the
    gate, and the setup is the same. *)
Definition leaves {host : Platform} {W U} (st st' : State W U) (events : list Event) : Prop :=
  st_log st' = st_log st ++ events
  ∧ same_setup st st'
  ∧ gate_respected (st_tools st) events.

(** The same, with at most [n] requests to the model among the events. *)
Definition within_steps {host : Platform} {W U} (n : nat) (st st' : State W U) : Prop :=
  ∃ events, leaves st st' events ∧ length (model_requests events) ≤ n.

(** Every run of the computation [m] relates the state before and the
    state after by [I], however it ends. *)
Definition respects {W U A} (I : State W U → State W U → Prop) (m : M W U A) : Prop :=
  ∀ st r st', m st = (r, st') → I st st'.

(** *** Declarations of plugins *)

(** A tool declaration as [_parse_tools] accepts it for the plugin
    [plugin] of the manifest at [manifest_path]: a name that is not empty
    and has no white space around it, a description, a timeout between one
    second and half an hour, the directory of the manifest as working
    directory, and exactly one way to run: a shell command, or an argument
    vector that is not empty. *)
Definition valid_tool_spec (manifest_path : Path) (plugin : string)
    (spec : Plugins.PluginToolSpec) : Prop :=
  Plugins.plugin_name spec = plugin
  ∧ Plugins.name spec ≠ ""
  ∧ trimmed (Plugins.name spec)
  ∧ Plugins.description spec ≠ ""
  ∧ (1 ≤ Plugins.timeout_sec spec ≤ 1800)%Z
  ∧ Plugins.workdir spec = Some (Path_parent manifest_path)
  ∧ ((Plugins.command spec = None
      ∧ ∃ arg args, Plugins.argv spec = Some (arg :: args)
                    ∧ Plugins.plugin_command spec = inr (arg :: args))
     ∨ (∃ line, Plugins.command spec = Some line ∧ line ≠ ""
                ∧ trimmed line
                ∧ Plugins.plugin_command spec = inl line)).

(** A command declaration as [_parse_commands] accepts it. *)
Definition valid_command_spec (plugin : string) (spec : Plugins.PluginCommandSpec) : Prop :=
  Plugins.cmd_plugin_name spec = plugin
  ∧ sanitized (Plugins.cmd_name spec)
  ∧ Plugins.cmd_description spec ≠ ""
  ∧ Plugins.cmd_usage spec ≠ ""
  ∧ Plugins.cmd_output spec ≠ ""
  ∧ Plugins.cmd_agent_input_template spec ≠ Some "".

(** *** Servers and tools of MCP *)

(** A server entry as [_parse_mcp_config] accepts it: a command that is
    not empty, and a timeout between five seconds and five minutes. *)
Definition valid_server (server : Mcp.McpServerConfig) : Prop :=
  Mcp.server_command server ≠ ""
  ∧ trimmed (Mcp.server_command server)
  ∧ trimmed (Mcp.server_name server)
  ∧ (5 ≤ Mcp.server_timeout_sec server ≤ 300)%Z.

(** The command of an entry of [mcpServers], without the white space
    around it: empty when the entry is not an object, has no command, or
    has one made of white space only. *)
Definition entry_command {host : Platform} (item : json) : string :=
  match item with
  | JObj fields => Py.strip (py_str (default (JStr "") (dict_get "command" fields)))
  | _ => ""
  end.

(** The server that an entry with a command declares. *)
Definition declares {host : Platform} (server : Mcp.McpServerConfig) (entry : string * json)
    : Prop :=
  Mcp.server_name server = Py.strip entry.1
  ∧ Mcp.server_command server = entry_command entry.2.

(** The listed tools of a server that the loader registers under the
    name [n]: those with a name, whose namespaced name is [n]. *)
Definition registers_as (server : Mcp.McpServerConfig) (n : string) (raw_tool : Mcp.RawTool)
    : Prop :=
  Py.strip (Mcp.raw_name raw_tool) ≠ ""
  ∧ Mcp.namespaced_name server (Py.strip (Mcp.raw_name raw_tool)) = n.

Global Instance registers_as_dec server n raw_tool : Decision (registers_as server n raw_tool).
Proof. unfold registers_as. apply _. Defined.

(** What loading leaves of the registry [reg] when it reports [names]:
    the context, and every tool whose name is not reported; each reported
    name is registered, under itself, starts with [mcp__] and is made of
    name characters. *)
Definition mcp_loaded {W} (reg reg' : ToolRegistry W) (names : list string) : Prop :=
  context reg' = context reg
  ∧ (∀ n, n ∉ names → _tools reg' !! n = _tools reg !! n)
  ∧ (∀ n, n ∈ names →
       (∃ tool, _tools reg' !! n = Some tool ∧ tool_name tool = n)
       ∧ (∃ rest, n = "mcp__" +:+ rest)
       ∧ all_chars is_name_char n = true).

(** *** subagents.py: the runner *)

Record SubagentProfile : Type := mkSubagentProfile {
  profile_name : string;
  profile_description : string;
  profile_prompt : string
}.

Definition DEFAULT_SUBAGENT_PROFILES : list SubagentProfile :=
  [ mkSubagentProfile "general" "General-purpose delegate for focused task execution."
      "You are a delegated helper agent. Focus only on the assigned sub-task, keep answers concise, and report concrete results.";
    mkSubagentProfile "reviewer" "Review code changes and identify bugs/risks."
      "You are a code reviewer subagent. Prioritize correctness, regressions, and missing tests. Provide findings first, then a short summary.";
    mkSubagentProfile "researcher" "Inspect codebase context and summarize findings."
      "You are a research subagent. Gather high-signal facts from files/tools, state assumptions clearly, and return a structured summary." ].

(** [SubagentRunner]; [_parent_tools] is the parent registry as it is
    when [run] is called (the runner holds a reference to it). *)
Record SubagentRunner (W U : Type) : Type := mkSubagentRunner {
  _model : ChatModel W;
  _parent_tools : ToolRegistry W;
  _base_system_prompt : string;
  _max_steps : Z;
  _profiles : gmap string SubagentProfile;
  _callbacks : option (AgentCallbacks U)
}.
Arguments mkSubagentRunner {W U}.
Arguments _model {W U}.
Arguments _parent_tools {W U}.
Arguments _base_system_prompt {W U}.
Arguments _max_steps {W U}.
Arguments _profiles {W U}.
Arguments _callbacks {W U}.

Section Subagents.
Context {host : Platform} {W U : Type}.

(** [SubagentRunner.__init__] *)
Definition SubagentRunner_new (model : ChatModel W) (parent_tools : ToolRegistry W)
    (base_system_prompt : string) (max_steps : Z) (profiles : list SubagentProfile)
    (callbacks : option (AgentCallbacks U)) : SubagentRunner W U :=
  {| _model := model;
     _parent_tools := parent_tools;
     _base_system_prompt := base_system_prompt;
     _max_steps := Z.max 1 max_steps;
     _profiles := foldl (λ d profile, <[profile_name profile := profile]> d) ∅ profiles;
     _callbacks := callbacks |}.

(** [list_profiles]: [[self._profiles[name] for name in sorted(self._profiles)]] *)
Definition list_profiles (self : SubagentRunner W U) : list SubagentProfile :=
  omap (λ name, _profiles self !! name)
       (merge_sort (λ a b, String.leb a b) (map_to_list (_profiles self)).*1).

(** The system prompt of the delegated agent. *)
Definition subagent_system_prompt (self : SubagentRunner W U) (profile_obj : SubagentProfile)
    : string :=
  _base_system_prompt self +:+ nl +:+ nl +:+ "# Subagent profile: "
  +:+ profile_name profile_obj +:+ nl +:+ profile_prompt profile_obj +:+ nl.

(** The [NanoCodeAgent] that [run] builds: the derived registry, a
    conversation of its own, the runner's hooks or none. *)
Definition subagent_agent (self : SubagentRunner W U) (profile_obj : SubagentProfile)
    (w : W) (u : U) (log : list Event) : State W U :=
  NanoCodeAgent_init (_build_subagent_tools (_parent_tools self))
                     (subagent_system_prompt self profile_obj) w u log.

Definition subagent_hooks (self : SubagentRunner W U) : AgentCallbacks U :=
  default no_hooks (_callbacks self).

(** [SubagentRunner.run].  The agent it builds is dropped on return:
    what is left of the call is the world, the display and the calls
    made. *)
Definition SubagentRunner_run (self : SubagentRunner W U) (task profile : string)
    (w : W) (u : U) (log : list Event) : outcome string * (W * U * list Event) :=
  match _profiles self !! profile with
  | None => (Raise (ValueError ("unknown subagent profile: " +:+ profile)), (w, u, log))
  | Some profile_obj =>
      if bool_decide (Py.strip task = "") then
        (Raise (ValueError "task cannot be empty"), (w, u, log))
      else
        let agent := subagent_agent self profile_obj w u log in
        let '(r, st') :=
          run (_model self) (mkAgentConfig (_max_steps self)) (subagent_hooks self) task agent in
        (r, (st_world st', st_ui st', st_log st'))
  end.

End Subagents.


(** *** skills.py: the catalog *)

Module Skills.

Record Skill : Type := mkSkill {
  name : string;
  description : string;
  path : option Path;
  inline_content : option string;
  source : string
}.

(** [name.strip().lower().replace(" ", "-")] *)
Fixpoint dash_blanks (s : string) : string :=
  match s with
  | EmptyString => EmptyString
  | String c s' => String (if Ascii.eqb c " " then "-"%char else c) (dash_blanks s')
  end.

(** [SkillCatalog]: the dict [_skills]. *)
Abbreviation SkillCatalog := (gmap string Skill).

Section Catalog.
Context {host : Platform}.

Definition _normalize_name (name : string) : string :=
  dash_blanks (py_lower (Py.strip name)).

(** One turn of the loop of [with_additional]. *)
Definition add_skill (indexed : SkillCatalog) (skill : Skill) : SkillCatalog :=
  let normalized := _normalize_name (name skill) in
  if bool_decide (normalized = "") || bool_decide (is_Some (indexed !! normalized))
  then indexed
  else <[normalized := mkSkill normalized (description skill) (path skill)
                               (inline_content skill) (source skill)]> indexed.

(** [SkillCatalog.with_additional] *)
Definition with_additional (self : SkillCatalog) (skills : list Skill) : SkillCatalog :=
  foldl add_skill self skills.

(** [list_skills]: [[self._skills[name] for name in sorted(self._skills)]] *)
Definition list_skills (self : SkillCatalog) : list Skill :=
  omap (λ name, self !! name)
       (merge_sort (λ a b, String.leb a b) (map_to_list self).*1).

(** [SkillCatalog.get] *)
Definition get (self : SkillCatalog) (name : string) : option Skill :=
  self !! _normalize_name name.

End Catalog.

Section Read.
Context {W : Type}.

(** [path.read_text(encoding="utf-8", errors="replace")]: the text of
    the file, or what opening it raised. *)
Variable fs_read_text : Path → W → outcome string * W.

(** [Skill.read_text] *)
Definition read_text (self : Skill) (w : W) : outcome string * W :=
  match inline_content self with
  | Some text => (Ret (Py.strip text), w)
  | None =>
      match path self with
      | None => (Ret "", w)
      | Some p =>
          let '(r, w') := fs_read_text p w in
          (outcome_bind r (λ text, Ret (Py.strip text)), w')
      end
  end.

End Read.

End Skills.

(** *** commands.py *)

Module Commands.

Record CommandResult : Type := mkCommandResult {
  output : string;
  agent_input : option string;
  should_exit : bool
}.

(** [CommandResult(output=text)] *)
Definition say (text : string) : CommandResult := mkCommandResult text None false.

(** What [/help] shows of a command: name, description, usage. *)
Abbreviation CommandInfo := (string * string * string)%type.

(** [text.split(sep, 1)] for a separator that is not empty: the text
    before the first [sep] and the text after it, or [None] when [sep] does
    not occur ([sep in text] is false). *)
Fixpoint split_once (sep s : string) : option (string * string) :=
  match Py.after sep s with
  | Some rest => Some ("", rest)
  | None =>
      match s with
      | EmptyString => None
      | String c s' =>
          match split_once sep s' with
          | Some (before, rest) => Some (String c before, rest)
          | None => None
          end
      end
  end.

(** [text.replace(old, new)] for [old] that is not empty; [skip] counts
    the characters of a match that remain to be dropped. *)
Fixpoint replace_from (skip : nat) (old new s : string) : string :=
  match s with
  | EmptyString => EmptyString
  | String c s' =>
      match skip with
      | S skip' => replace_from skip' old new s'
      | 0 =>
          match Py.after old s with
          | Some _ => new +:+ replace_from (String.length old - 1) old new s'
          | None => String c (replace_from 0 old new s')
          end
      end
  end.

Definition replace (old new s : string) : string := replace_from 0 old new s.

Section Session.
Context {host : Platform} {W U : Type}.

(** A handler is called with its arguments; it reads and changes the
    session (the state of the agent, with its registry, its world and its
    display), and [/help] reads the commands registered when it is called. *)
Definition CommandHandler : Type :=
  list CommandInfo → string → State W U → outcome CommandResult * State W U.

Record SlashCommand : Type := mkSlashCommand {
  name : string;
  description : string;
  usage : string;
  handler : CommandHandler
}.

(** [CommandRegistry]: the dict [_commands]. *)
Abbreviation CommandRegistry := (gmap string SlashCommand).

(** [CommandRegistry.register] *)
Definition register (self : CommandRegistry) (command : SlashCommand) (replace : bool)
    : outcome CommandRegistry :=
  if negb replace && bool_decide (is_Some (self !! name command))
  then Raise (ValueError ("command already registered: /" +:+ name command))
  else Ret (<[name command := command]> self).

(** [list_commands]: [[self._commands[name] for name in sorted(self._commands)]] *)
Definition list_commands (self : CommandRegistry) : list SlashCommand :=
  omap (λ name, self !! name)
       (merge_sort (λ a b, String.leb a b) (map_to_list self).*1).

Definition command_infos (self : CommandRegistry) : list CommandInfo :=
  (λ command, (name command, description command, usage command)) <$> list_commands self.

(** [CommandRegistry.run] *)
Definition run (self : CommandRegistry) (raw_input : string) (st : State W U)
    : outcome (option CommandResult) * State W U :=
  match raw_input with
  | String "/" rest =>
      let payload := Py.strip rest in
      if bool_decide (payload = "") then (Ret (Some (say "Empty slash command. Use /help.")), st)
      else
        let '(name, args) :=
          match split_once " " payload with
          | Some (name, args) => (name, Py.strip args)
          | None => (payload, "")
          end in
        match self !! name with
        | None => (Ret (Some (say ("Unknown command: /" +:+ name +:+ ". Use /help."))), st)
        | Some command =>
            let '(r, st') := handler command (command_infos self) args st in
            (outcome_bind r (λ result, Ret (Some result)), st')
        end
  | _ => (Ret None, st)
  end.

(** [create_template_command] *)
Definition create_template_command (name description usage output : string)
    (agent_input_template : option string) : SlashCommand :=
  mkSlashCommand name description usage (λ _ args st,
    (Ret (mkCommandResult output
            ((λ template, replace "{args}" (Py.strip args) template) <$> agent_input_template)
            false), st)).

(** [cli._register_plugin_commands]: the registry, the count of the
    commands loaded and the errors. *)
Definition register_plugin_command (acc : CommandRegistry * nat * list string)
    (spec : Plugins.PluginCommandSpec) : CommandRegistry * nat * list string :=
  let '(runtime_commands, loaded, errors) := acc in
  match register runtime_commands
          (create_template_command (Plugins.cmd_name spec)
             ("[plugin:" +:+ Plugins.cmd_plugin_name spec +:+ "] "
              +:+ Plugins.cmd_description spec)
             (Plugins.cmd_usage spec) (Plugins.cmd_output spec)
             (Plugins.cmd_agent_input_template spec))
          false with
  | Ret registered => (registered, S loaded, errors)
  | Raise (ValueError message) => (runtime_commands, loaded, errors ++ [message])
  | Raise _ => acc                          (* [register] raises ValueError only *)
  end.

Definition _register_plugin_commands (runtime_commands : CommandRegistry)
    (plugin_commands : list Plugins.PluginCommandSpec) : CommandRegistry * nat * list string :=
  foldl register_plugin_command (runtime_commands, 0, []) plugin_commands.

(** The handlers of [create_default_commands] that read the session. *)

(** [_tools] *)
Definition _tools_handler : CommandHandler := λ _ _args st,
  match list_tool_names (st_tools st) with
  | [] => (Ret (say "No tools registered."), st)
  | names => (Ret (say ("Tools:" +:+ nl +:+ Py.join nl ((λ name, "- " +:+ name) <$> names))), st)
  end.

(** [_plan] *)
Definition _plan_handler : CommandHandler := λ _ _args st,
  match plan (context (st_tools st)) with
  | [] => (Ret (say "Plan is empty."), st)
  | items =>
      (Ret (say (Py.join nl ("Current plan:"
                             :: ((λ item, "- [" +:+ status item +:+ "] " +:+ step item)
                                   <$> items)))), st)
  end.

(** [_help] *)
Definition _help_handler : CommandHandler := λ commands _args st,
  (Ret (say (Py.join nl ("Available commands:"
                         :: ((λ '(name, description, usage),
                                "- /" +:+ name +:+ ": " +:+ description
                                +:+ " (" +:+ usage +:+ ")") <$> commands)))), st).

(** [_exit] *)
Definition _exit_handler : CommandHandler := λ _ _args st,
  (Ret (mkCommandResult "Bye." None true), st).

(** [_subagents]; [subagents] is the proxy of the runner, or [None]. *)
Definition _subagents_handler (subagents : option (SubagentRunner W U)) : CommandHandler :=
  λ _ _args st,
    match subagents with
    | None => (Ret (say "Subagents are disabled."), st)
    | Some runner =>
        (Ret (say (Py.join nl ("Subagent profiles:"
                               :: ((λ profile, "- " +:+ profile_name profile +:+ ": "
                                               +:+ profile_description profile)
                                     <$> list_profiles runner)))), st)
    end.

(** The runner as it is when a command runs: its parent registry is the
    registry of the session ([cli._build_runtime] hands the same object to
    the agent and to the runner). *)
Definition runner_of_session (runner : SubagentRunner W U) (st : State W U)
    : SubagentRunner W U :=
  mkSubagentRunner (_model runner) (st_tools st) (_base_system_prompt runner)
                   (_max_steps runner) (_profiles runner) (_callbacks runner).

(** [_delegate] *)
Definition _delegate_handler (subagents : option (SubagentRunner W U)) : CommandHandler :=
  λ _ args st,
    match subagents with
    | None => (Ret (say "Subagents are disabled."), st)
    | Some runner =>
        if bool_decide (Py.strip args = "") then
          (Ret (say "Usage: /delegate [profile::] <task>"), st)
        else
          let '(profile, task) :=
            match split_once "::" args with
            | Some (profile, task) => (py_lower (Py.strip profile), Py.strip task)
            | None => ("general", Py.strip args)
            end in
          if bool_decide (task = "") then
            (Ret (say "Usage: /delegate [profile::] <task>"), st)
          else
            let '(r, (w, u, log)) :=
              SubagentRunner_run (runner_of_session runner st) task profile
                                 (st_world st) (st_ui st) (st_log st) in
            let st' := with_world w (with_ui u (with_log log st)) in
            match r with
            | Ret output =>
                (Ret (say ("Subagent `" +:+ profile +:+ "`:" +:+ nl +:+ output)), st')
            | Raise (ValueError message) => (Ret (say message), st')
            | Raise (RuntimeError message) =>
                (Ret (say ("Subagent execution failed: " +:+ message)), st')
            | Raise exc => (Raise exc, st')
            end
    end.

(** [_skills] *)
Definition _skills_handler (skills : Skills.SkillCatalog) : CommandHandler := λ _ _args st,
  match Skills.list_skills skills with
  | [] => (Ret (say "No skills found."), st)
  | records =>
      (Ret (say (Py.join nl ("Skills:"
                             :: ((λ skill, "- " +:+ Skills.name skill +:+ ": "
                                           +:+ Skills.description skill) <$> records)))), st)
  end.

(** [path.read_text(encoding="utf-8", errors="replace")] on the world. *)
Variable fs_read_text : Path → W → outcome string * W.

(** [_skill] *)
Definition _skill_handler (skills : Skills.SkillCatalog) : CommandHandler := λ _ args st,
  if bool_decide (args = "") then (Ret (say "Usage: /skill <name> [extra request]"), st)
  else
    let '(name, extra) :=
      match split_once " " args with
      | Some (name, extra) => (py_lower (Py.strip name), Py.strip extra)
      | None => (py_lower (Py.strip args), "")
      end in
    match Skills.get skills name with
    | None => (Ret (say ("Skill not found: " +:+ name)), st)
    | Some skill =>
        let '(r, w) := Skills.read_text fs_read_text skill (st_world st) in
        (outcome_bind r (λ body,
           let body :=
             if bool_decide (extra = "") then body
             else body +:+ nl +:+ nl +:+ "User request:" +:+ nl +:+ extra in
           Ret (mkCommandResult ("Running skill `" +:+ name +:+ "`...") (Some body) false)),
         with_world w st)
    end.

(** [registry.register(command)] for each command in turn. *)
Fixpoint register_all (self : CommandRegistry) (commands : list SlashCommand)
    : outcome CommandRegistry :=
  match commands with
  | [] => Ret self
  | command :: rest =>
      outcome_bind (register self command false) (λ self', register_all self' rest)
  end.

(** [create_default_commands] *)
Definition create_default_commands (skills : Skills.SkillCatalog)
    (subagents : option (SubagentRunner W U)) : outcome CommandRegistry :=
  register_all ∅
    [ mkSlashCommand "help" "Show available slash commands." "/help" _help_handler;
      mkSlashCommand "tools" "List currently registered tools." "/tools" _tools_handler;
      mkSlashCommand "skills" "List discovered skills." "/skills" (_skills_handler skills);
      mkSlashCommand "skill" "Run one skill as a prompt template."
                     "/skill <name> [extra request]" (_skill_handler skills);
      mkSlashCommand "plan" "Print the latest in-memory plan." "/plan" _plan_handler;
      mkSlashCommand "subagents" "List available subagent profiles." "/subagents"
                     (_subagents_handler subagents);
      mkSlashCommand "delegate" "Delegate a focused sub-task to a subagent."
                     "/delegate [profile::] <task>" (_delegate_handler subagents);
      mkSlashCommand "exit" "Exit current session." "/exit" _exit_handler ].

End Session.

End Commands.


(** The model answers every request. *)
Definition model_answers {W} (model : ChatModel W) : Prop :=
  ∀ msgs schemas w, ∃ a w', complete model msgs schemas w = (Ret a, w').

(** The faults that [/delegate] catches: a [ValueError] or a
    [RuntimeError]. *)
Definition delegate_catches {A} (r : outcome A) : Prop :=
  (∃ message, r = Raise (ValueError message)) ∨ (∃ message, r = Raise (RuntimeError message)).

(** No tool of the registry is mutating. *)
Definition read_only_registry {W} (reg : ToolRegistry W) : Prop :=
  ∀ k t, _tools reg !! k = Some t → tool_mutating t = false.


(** *** The stored plan *)

(** The plan of the context as the JSON value it is: a list of
    [{"step": ..., "status": ...}]. *)
Definition plan_item_json (item : PlanItem) : json :=
  JObj [("step", JStr (step item)); ("status", JStr (status item))].

Definition plan_json (p : list PlanItem) : json := JArr (plan_item_json <$> p).

(** A plan item as the plan tool stores it. *)
Definition normalized_plan_item (item : PlanItem) : Prop :=
  step item ≠ "" ∧ trimmed (step item) ∧ status item ∈ plan_statuses.


(** *** tools.py: the built-in tools *)

(** [args[key]]: the value, or the [KeyError] whose text is the key in
    quotes. *)
Definition KeyError (key : string) : exn := OtherError "KeyError" ("'" +:+ key +:+ "'").

Section BuiltinTools.
Context {host : Platform} {W : Type}.

(** What the handlers ask of the file system and of the shell:
    [path.mkdir(parents=True, exist_ok=True)], [path.write_text(content)],
    [open(path, "a").write(content)], and [subprocess.run(command,
    shell=True, cwd=..., capture_output=True, text=True, timeout=...,
    check=False)].  Each acts on the world and may raise. *)
Variable fs_mkdir : Path → W → outcome unit * W.
Variable fs_write_text : Path → string → W → outcome unit * W.
Variable fs_append_text : Path → string → W → outcome unit * W.
Variable shell_run : string → Path → Z → W → outcome Plugins.CompletedProcess * W.

(** [_write_file] *)
Definition _write_file : ToolHandler W := λ ctx args w,
  match dict_get "path" args with
  | None => (Raise (KeyError "path"), plan ctx, w)
  | Some raw =>
      let raw_path := py_str raw in
      let content := py_str (default (JStr "") (dict_get "content" args)) in
      let mode := py_str (default (JStr "overwrite") (dict_get "mode" args)) in
      if negb (bool_decide (mode ∈ ["overwrite"; "append"])) then
        (Ret "mode must be one of: overwrite, append", plan ctx, w)
      else
        match resolve_path ctx raw_path with
        | Raise exc => (Raise exc, plan ctx, w)
        | Ret path =>
            let '(made, w1) := fs_mkdir (Path_parent path) w in
            match made with
            | Raise exc => (Raise exc, plan ctx, w1)
            | Ret _ =>
                let '(written, w2) :=
                  if bool_decide (mode = "overwrite") then fs_write_text path content w1
                  else fs_append_text path content w1 in
                match written with
                | Raise exc => (Raise exc, plan ctx, w2)
                | Ret _ =>
                    match relative_to path (cwd ctx) with
                    | Raise exc => (Raise exc, plan ctx, w2)
                    | Ret rel =>
                        (Ret ("wrote " +:+ pretty (Py.len content) +:+ " bytes to "
                              +:+ Path_str rel +:+ " (" +:+ mode +:+ ")"), plan ctx, w2)
                    end
                end
            end
        end
  end.

(** [_exec_command] *)
Definition _exec_command : ToolHandler W := λ ctx args w,
  match dict_get "command" args with
  | None => (Raise (KeyError "command"), plan ctx, w)
  | Some raw =>
      let command := py_str raw in
      match py_int (default (JInt 120) (dict_get "timeout_sec" args)) with
      | Raise exc => (Raise exc, plan ctx, w)
      | Ret timeout =>
          let timeout := Z.max 1 (Z.min timeout 1800) in
          let '(r, w') := shell_run command (cwd ctx) timeout w in
          match r with
          | Raise exc => (Raise exc, plan ctx, w')
          | Ret proc =>
              let output := Py.strip (Plugins.stdout proc +:+ Plugins.stderr proc) in
              (Ret ("exit_code=" +:+ pretty (Plugins.returncode proc) +:+ nl
                    +:+ Plugins.truncated (6 * 1000) output), plan ctx, w')
          end
      end
  end.

(** The handlers that only read ([_list_files], [_read_file],
    [_grep_files]) and [_replace_in_file], and the description and the
    JSON schema that the source writes out for each tool. *)
Variables _list_files _read_file _grep_files _replace_in_file : ToolHandler W.
Variable description_of : string → string.
Variable parameters_of : string → json.

(** [create_default_registry] *)
Definition create_default_registry (context : ToolContext W) : ToolRegistry W :=
  let tool name handler mutating :=
    mkTool name (description_of name) (parameters_of name) handler mutating in
  foldl register (ToolRegistry_new context)
    [ tool "list_files" _list_files false;
      tool "read_file" _read_file false;
      tool "grep_files" _grep_files false;
      tool "write_file" _write_file true;
      tool "replace_in_file" _replace_in_file true;
      tool "exec_command" _exec_command true;
      tool "update_plan" _update_plan false ].

End BuiltinTools.


(** ** Fixtures, after the test suite *)

Module Demo.

(** [Path.resolve] where no component is a symbolic link: [..] drops the
    component before it, and the one above the root is the root. *)
Fixpoint collapse (done : list string) (ps : list string) : list string :=
  match ps with
  | [] => rev done
  | ".." :: rest => collapse (tail done) rest
  | p :: rest => collapse (p :: done) rest
  end.

Definition resolve (p : Path) : Path := mkPath (root p) (collapse [] (parts p)).

(** A JSON decoder that knows the argument texts of the tests, and
    refuses to convert [digits], an integer of five thousand digits. *)
Definition digits : string := String.concat "" (replicate 5000 "7").

Definition digit_limit_text : string :=
  "Exceeds the limit (4300 digits) for integer string conversion: value has 5000 digits; use sys.set_int_max_str_digits() to increase the limit".

Definition loads (text : string) : Loaded :=
  if String.eqb text "{}" then Parsed (JObj [])
  else if String.eqb text ("{" +:+ dq +:+ "path" +:+ dq +:+ ": " +:+ dq +:+ "a.txt" +:+ dq +:+ "}")
  then Parsed (JObj [("path", JStr "a.txt")])
  else if String.eqb text "[]" then Parsed (JArr [])
  else if String.eqb text digits then LoadsRaised (DigitLimitError digit_limit_text)
  else JSONDecodeError "Expecting value: line 1 column 1 (char 0)".

(** [str.lower] on the letters of Latin-1: the capitals U+00C0..U+00DE
    but the multiplication sign, which are the bytes [C3 80]..[C3 9E] but
    [C3 97], lie thirty-two code points under their small letters. *)
Definition is_latin_capital (c : ascii) : bool :=
  let n := N_of_ascii c in
  (0x80 <=? n)%N && (n <=? 0x9E)%N && negb (n =? 0x97)%N.

Fixpoint lower_latin (s : string) : string :=
  match s with
  | EmptyString => EmptyString
  | String c rest =>
      match rest with
      | String d rest' =>
          if Ascii.eqb c (Py.byte 0xC3) && is_latin_capital d
          then String c (String (Py.byte (N_of_ascii d + 0x20)) (lower_latin rest'))
          else String (Py.lower_char c) (lower_latin rest)
      | EmptyString => String (Py.lower_char c) EmptyString
      end
  end.

#[local] Instance platform : Platform := {|
  fs_expanduser := id;
  fs_resolve := resolve;
  json_loads := loads;
  json_dumps_indent := λ v, match v with JObj [] => "{}" | _ => "{ ... }" end;
  py_repr := λ v, match v with JStr s => "'" +:+ s +:+ "'" | _ => "[...]" end;
  int_of_str := λ s,
    Raise (ValueError ("invalid literal for int() with base 10: '" +:+ s +:+ "'"));
  int_of_float := λ r, Raise (ValueError ("cannot convert float " +:+ r));
  str_lower := lower_latin
|}.

(** The world: the files written so far.  The display: the lines shown. *)
Definition World : Type := list string.
Definition Display : Type := list string.

Definition approve : string → string → World → outcome bool * World :=
  λ _ _ w, (Ret true, w).
Definition reject : string → string → World → outcome bool * World :=
  λ _ _ w, (Ret false, w).

Definition workspace : Path := mkPath "/" ["ws"].

Definition ctx (ask : string → string → World → outcome bool * World)
    (mode : SandboxMode) (policy : ApprovalPolicy) : ToolContext World :=
  ToolContext_new workspace ask mode policy [].

(** [list_files] reads, [write_file] creates the file it is given,
    [broken] raises. *)
Definition list_files_tool : Tool World :=
  mkTool "list_files" "List files." (JObj []) (λ c _ w, (Ret "(empty directory)", plan c, w)) false.

Definition write_file_tool : Tool World :=
  mkTool "write_file" "Write a file." (JObj [])
         (λ c args w, (Ret "wrote", plan c, w ++ [py_str (default (JStr "") (dict_get "path" args))]))
         true.

Definition broken_tool : Tool World :=
  mkTool "broken" "Always fails." (JObj [])
         (λ c _ w, (Raise (OtherError "OSError" "disk full"), plan c, w)) false.

Definition registry (c : ToolContext World) : ToolRegistry World :=
  register (register (register (register (ToolRegistry_new c) list_files_tool) write_file_tool)
                     broken_tool) update_plan_tool.

(** [LoopingModel]: every answer asks for [list_files]. *)
Definition LoopingModel : ChatModel World :=
  mkChatModel (λ _ _ w, (Ret (mkAssistant (CText "") None [mkToolCall "call_loop" "list_files" "{}"]), w)).




(** A model that answers at once, without tools. *)
Definition DoneModel : ChatModel World :=
  mkChatModel (λ _ _ w, (Ret (mkAssistant (CText "Done: file inspected.") None []), w)).

Definition no_callbacks : AgentCallbacks Display := mkAgentCallbacks None None None None.

(** Hooks that print. *)
Definition printing_callbacks : AgentCallbacks Display :=
  mkAgentCallbacks (Some (λ text u, (Ret (), u ++ [text]))) None
                   (Some (λ '(name, _) u, (Ret (), u ++ [name]))) None.

(** A status hook that raises. *)
Definition failing_callbacks : AgentCallbacks Display :=
  mkAgentCallbacks (Some (λ _ u, (Raise (OtherError "OSError" "display closed"), u))) None None None.

Definition start (c : ToolContext World) : State World Display :=
  NanoCodeAgent_init (registry c) "system prompt" [] [] [].

(** The manifest of the plugin test: one tool, given by [argv], with no
    [mutating] key. *)
Definition echo_manifest : json :=
  JObj [("name", JStr "EchoPlugin");
        ("tools", JArr [JObj [("name", JStr "echo_text");
                              ("description", JStr "Echo input text");
                              ("argv", JArr [JStr "python3"; JStr "tool.py"])]])].

Definition echo_manifest_path : Path :=
  mkPath "/" ["ws"; "plugins"; "echo"; "apecode_plugin.json"].

(** A plugin process, as far as the world shows: it leaves its mark. *)
Definition echo_handler (spec : Plugins.PluginToolSpec) : ToolHandler World :=
  λ c _ w, (Ret "echo:hello", plan c, w ++ ["ran " +:+ Plugins.name spec]).

(** [load_plugins] where every manifest file found is the echo manifest
    and manifests declare no commands and no skills. *)
Definition load (reg : ToolRegistry World) (manifests : list Path)
    : ToolRegistry World * Plugins.PluginLoadResult unit unit :=
  Plugins.load_plugins unit unit (λ _ _, Ret []) (λ _ _ _, Ret []) (λ _, manifests)
                       (λ _, Ret echo_manifest) echo_handler reg [].


(** The runner of the command line, over the registry of the tests, with
    the default profiles and no hooks. *)
Definition runner (model : ChatModel World) (max_steps : Z) : SubagentRunner World Display :=
  SubagentRunner_new model (registry (ctx approve DANGER_FULL_ACCESS ALWAYS)) "base prompt"
                     max_steps DEFAULT_SUBAGENT_PROFILES None.

(** An approval callback that fails: the terminal is gone. *)
Definition broken_prompt : string → string → World → outcome bool * World :=
  λ _ _ w, (Raise (OtherError "EOFError" "EOF when reading a line"), w).


(** The commands of the manifest of the plugin test. *)
Definition review_commands : dict :=
  [("name", JStr "EchoPlugin");
   ("commands", JArr [JObj [("name", JStr "quick-review");
                            ("description", JStr "Review with plugin template");
                            ("usage", JStr "/quick-review <task>");
                            ("output", JStr "Running quick review...")]])].

(** The manifest of the second plugin test: a tool with no way to run. *)
Definition broken_manifest : json :=
  JObj [("name", JStr "Broken"); ("tools", JArr [JObj [("name", JStr "missing-command")]])].



(** The config file of the MCP test: one server, [demo]. *)
Definition mcp_config : json :=
  JObj [("mcpServers",
         JObj [("demo", JObj [("command", JStr "python3"); ("args", JArr [JStr "server.py"])])])].

Definition demo_server : Mcp.McpServerConfig :=
  Mcp.mkMcpServerConfig "demo" "python3" ["server.py"] 30.

(** The server of the test answers a call with one text item. *)
Definition echo_call : Mcp.McpServerConfig → string → dict → World
                       → outcome Mcp.CallToolResult * World :=
  λ _ _ args w,
    (Ret (Mcp.mkCallToolResult false
            [Mcp.TextContent ("mcp:" +:+ py_str (default (JStr "") (dict_get "text" args)))]),
     w ++ ["called"]).

(** A server that lists two tools whose names differ only in
    punctuation, and one whose name is a blank and a no-break space. *)
Definition listed_tools : list Mcp.RawTool :=
  [ Mcp.mkRawTool "read-file" "Read (first)" None None;
    Mcp.mkRawTool (" " +:+ Py.utf8 0xA0) "No name" None None;
    Mcp.mkRawTool "read.file" "Read (second)" None
                  (Some (Mcp.mkToolAnnotations (Some true))) ].


(** The built-in commands, without skills, with the runner of the
    tests. *)
Definition default_commands (model : ChatModel World)
    : gmap string (Commands.SlashCommand (W := World) (U := Display)) :=
  match Commands.create_default_commands
          (λ p w, (Raise (OtherError "FileNotFoundError" (Path_str p)), w))
          ∅ (Some (runner model 8)) with
  | Ret commands => commands
  | Raise _ => ∅
  end.

(** Two plugin commands: the one of the plugin test, and one that
    claims the name of a built-in command. *)
Definition plugin_commands : list Plugins.PluginCommandSpec :=
  [ Plugins.mkPluginCommandSpec "EchoPlugin" "quick_review" "Review with plugin template"
      "/quick-review <task>" "Running quick review..." (Some "Review task: {args}");
    Plugins.mkPluginCommandSpec "EchoPlugin" "help" "Plugin command `help`" "/help [args]"
      "Running plugin command `/help`..." None ].


(** A file system that notes the files written, and a shell that notes
    the commands run. *)
Definition mkdir : Path → World → outcome unit * World := λ _ w, (Ret (), w).
Definition write_text : Path → string → World → outcome unit * World :=
  λ p _ w, (Ret (), w ++ [Path_str p]).
Definition shell : string → Path → Z → World → outcome Plugins.CompletedProcess * World :=
  λ command _ _ w, (Ret (Plugins.mkCompletedProcess 0 ("ok" +:+ nl) ""), w ++ [command]).

(** An output of five thousand characters of two bytes each, and a
    shell that prints it. *)
Definition accents : string := String.concat "" (replicate 5000 (Py.utf8 0xE9)).

Definition accent_shell : string → Path → Z → World
                          → outcome Plugins.CompletedProcess * World :=
  λ command _ _ w, (Ret (Plugins.mkCompletedProcess 0 (accents +:+ nl) ""), w ++ [command]).

End Demo.

(** * Properties *)

(** ** Path containment *)

Section PathProperties.
Context {host : Platform} {W : Type}.

Lemma is_within_iff (base target : Path) :
  _is_within base target = true ↔ within_root base target.
Proof.
  unfold _is_within, relative_to, within_root.
  case_bool_decide as Hd; split; try done.
  - intros _. destruct Hd as [Hr [k Hk]]. split; [done | by exists k].
  - intros [Hr [k Hk]]. exfalso. apply Hd. split; [done | by exists k].
Qed.

Lemma is_within_false (base target : Path) :
  _is_within base target = false ↔ ¬ within_root base target.
Proof.
  rewrite <- is_within_iff. destruct (_is_within base target); naive_solver.
Qed.

Lemma strictly_inside_within (base p : Path) :
  strictly_inside base p → within_root base p.
Proof. intros [Hr (c & rest & Hp)]. split; [done | by exists (c :: rest)]. Qed.

(** The workspace root itself counts as inside. *)
Lemma within_root_refl (base : Path) : within_root base base.
Proof. split; [done | exists []; by rewrite app_nil_r]. Qed.

(** C1.  In every sandbox mode but full access, [resolve_path] raises
    the path-escape error when the resolved path is not under the
    workspace root; for a resolved path under the root (strictly inside it
    or the root itself) it returns that path in every mode; and with full
    access it returns the resolved path without any check. *)
Theorem resolve_path_containment (ctx : ToolContext W) (raw_path : string) :
  let resolved := resolved_candidate ctx raw_path in
  (sandbox_mode ctx ≠ DANGER_FULL_ACCESS → ¬ within_root (cwd ctx) resolved →
     resolve_path ctx raw_path = Raise (ValueError ("path escapes workspace: " +:+ raw_path)))
  ∧ (within_root (cwd ctx) resolved → resolve_path ctx raw_path = Ret resolved)
  ∧ (strictly_inside (cwd ctx) resolved → resolve_path ctx raw_path = Ret resolved)
  ∧ (sandbox_mode ctx = DANGER_FULL_ACCESS → resolve_path ctx raw_path = Ret resolved).
Proof.
  intros resolved. unfold resolve_path. fold resolved.
  assert (Hin : within_root (cwd ctx) resolved → resolve_path ctx raw_path = Ret resolved).
  { intros Hw. apply is_within_iff in Hw. unfold resolve_path. fold resolved.
    rewrite Hw. by rewrite andb_false_r. }
  unfold resolve_path in Hin. fold resolved in Hin.
  split; [| split; [| split]].
  - intros Hmode Hout. apply is_within_false in Hout. rewrite Hout.
    by rewrite bool_decide_eq_true_2.
  - exact Hin.
  - intros Hs. apply Hin. by apply strictly_inside_within.
  - intros Hmode. rewrite bool_decide_eq_false_2; [done |]. intros Hne. by apply Hne.
Qed.

End PathProperties.

(** With no symbolic links, a [..] that climbs out of [/ws] is refused
    in the two confined modes, and a path that stays inside resolves. *)
Lemma resolve_path_containment_witness :
  resolve_path (host := Demo.platform) (Demo.ctx Demo.approve WORKSPACE_WRITE ON_REQUEST)
      "../outside.txt"
    = Raise (ValueError "path escapes workspace: ../outside.txt")
  ∧ resolve_path (host := Demo.platform) (Demo.ctx Demo.approve READ_ONLY ON_REQUEST)
      "src/../notes/a.txt"
    = Ret (mkPath "/" ["ws"; "notes"; "a.txt"])
  ∧ resolve_path (host := Demo.platform) (Demo.ctx Demo.approve DANGER_FULL_ACCESS ON_REQUEST)
      "../outside.txt"
    = Ret (mkPath "/" ["outside.txt"]).
Proof.
  split; [| split].
  - apply (proj1 (resolve_path_containment (host := Demo.platform)
                    (Demo.ctx Demo.approve WORKSPACE_WRITE ON_REQUEST) "../outside.txt")).
    + discriminate.
    + intros [_ [rest Hrest]]. vm_compute in Hrest. discriminate.
  - apply (proj1 (proj2 (resolve_path_containment (host := Demo.platform)
                    (Demo.ctx Demo.approve READ_ONLY ON_REQUEST) "src/../notes/a.txt"))).
    split; [reflexivity | by exists ["notes"; "a.txt"]].
  - apply (proj2 (proj2 (proj2 (resolve_path_containment (host := Demo.platform)
                    (Demo.ctx Demo.approve DANGER_FULL_ACCESS ON_REQUEST) "../outside.txt")))).
    reflexivity.
Defined.

(** ** The registry and its safety gate *)

Section ExecuteProperties.
Context {host : Platform} {W U : Type}.
Implicit Types (st : State W U) (tool : Tool W) (log : list Event).


Lemma approval_calls_app log1 log2 :
  approval_calls (log1 ++ log2) = approval_calls log1 ++ approval_calls log2.
Proof. unfold approval_calls. apply omap_app. Qed.

Lemma model_requests_app log1 log2 :
  model_requests (log1 ++ log2) = model_requests log1 ++ model_requests log2.
Proof. unfold model_requests. apply omap_app. Qed.

(** What the handler call leaves behind, whichever way the handler ends. *)
Lemma try_handler_spec name tool arguments st :
  ∃ text p w r,
    tool_handler tool (context (st_tools st)) arguments (st_world st) = (r, p, w)
    ∧ try_handler (U := U) name tool arguments st
        = (Ret text,
           with_plan p (with_world w (with_log (st_log st ++ [EvHandler name arguments r]) st)))
    ∧ text = handler_text r.
Proof.
  unfold try_handler.
  destruct (tool_handler tool (context (st_tools st)) arguments (st_world st)) as [[r p] w].
  destruct r as [t | exc]; eauto 10.
Qed.

(** The gate either refuses, leaving at most a call of the approval
    callback behind, or lets the call through; it faults only when the
    callback does. *)
Lemma gate_spec name arguments st :
  let ctx := context (st_tools st) in
  let preview := approval_preview arguments in
  let asked w := with_world w (with_log (st_log st ++ [EvApproval name preview]) st) in
  if bool_decide (sandbox_mode ctx = READ_ONLY) then
    gate name arguments st = (Ret (Some "blocked by sandbox policy: read-only"), st)
  else if bool_decide (approval_policy ctx = NEVER) then
    gate name arguments st = (Ret (Some "blocked by approval policy: never"), st)
  else if bool_decide (approval_policy ctx = ON_REQUEST) then
    match ask_approval ctx name preview (st_world st) with
    | (Ret true, w) => gate name arguments st = (Ret None, asked w)
    | (Ret false, w) => gate name arguments st = (Ret (Some "Rejected by user."), asked w)
    | (Raise e, w) => gate name arguments st = (Raise e, asked w)
    end
  else gate name arguments st = (Ret None, st).
Proof.
  intros ctx preview asked. unfold gate, mbind, M_bind, gets, mret, M_ret. simpl.
  fold ctx. repeat case_bool_decide; try done.
  unfold call_ask_approval. fold ctx preview.
  destruct (ask_approval ctx name preview (st_world st)) as [[[] | e] w]; done.
Qed.

(** [execute] on a registered tool whose arguments parse to an object. *)
Lemma execute_registered name args_json tool arguments st :
  _tools (st_tools st) !! name = Some tool →
  json_loads (Py.str_or args_json "{}") = Parsed (JObj arguments) →
  execute name args_json st =
    (if tool_mutating tool then
       match gate name arguments st with
       | (Ret (Some refusal), st') => (Ret refusal, st')
       | (Ret None, st') => try_handler name tool arguments st'
       | (Raise e, st') => (Raise e, st')
       end
     else try_handler name tool arguments st).
Proof.
  intros Hlook Hargs. unfold execute, mbind, M_bind, gets, mret, M_ret. simpl.
  rewrite Hlook, Hargs. destruct (tool_mutating tool); [| done].
  destruct (gate name arguments st) as [[[refusal |] | e] st']; done.
Qed.

(** [execute] before the gate: the name is not registered, or the
    argument text does not give an object. *)
Lemma execute_unknown name args_json st :
  _tools (st_tools st) !! name = None →
  execute name args_json st = (Ret ("Unknown tool: " +:+ name), st).
Proof.
  intros Hlook. unfold execute, mbind, M_bind, gets, mret, M_ret. simpl. by rewrite Hlook.
Qed.

Lemma execute_invalid name args_json tool msg st :
  _tools (st_tools st) !! name = Some tool →
  json_loads (Py.str_or args_json "{}") = JSONDecodeError msg →
  execute name args_json st = (Ret ("Invalid tool arguments JSON: " +:+ msg), st).
Proof.
  intros Hlook Hargs. unfold execute, mbind, M_bind, gets, mret, M_ret. simpl.
  by rewrite Hlook, Hargs.
Qed.

Lemma execute_not_object name args_json tool value st :
  _tools (st_tools st) !! name = Some tool →
  json_loads (Py.str_or args_json "{}") = Parsed value →
  is_dict value = false →
  execute name args_json st = (Ret "Tool arguments must be a JSON object.", st).
Proof.
  intros Hlook Hargs Hdict. unfold execute, mbind, M_bind, gets, mret, M_ret. simpl.
  rewrite Hlook, Hargs. by destruct value.
Qed.

Lemma execute_loads_fault name args_json tool fault st :
  _tools (st_tools st) !! name = Some tool →
  json_loads (Py.str_or args_json "{}") = LoadsRaised fault →
  execute name args_json st = (Raise (loads_exn fault), st).
Proof.
  intros Hlook Hargs. unfold execute, mbind, M_bind, gets, mret, M_ret. simpl.
  by rewrite Hlook, Hargs.
Qed.

(** The ways [execute] can go, one for each way the lookup, the decoding
    and the gate can go. *)
Lemma execute_cases name args_json st :
  (_tools (st_tools st) !! name = None)
  ∨ (∃ tool msg, _tools (st_tools st) !! name = Some tool
                  ∧ json_loads (Py.str_or args_json "{}") = JSONDecodeError msg)
  ∨ (∃ tool fault, _tools (st_tools st) !! name = Some tool
                    ∧ json_loads (Py.str_or args_json "{}") = LoadsRaised fault)
  ∨ (∃ tool value, _tools (st_tools st) !! name = Some tool
                    ∧ json_loads (Py.str_or args_json "{}") = Parsed value
                    ∧ is_dict value = false)
  ∨ (∃ tool arguments, _tools (st_tools st) !! name = Some tool
                        ∧ json_loads (Py.str_or args_json "{}") = Parsed (JObj arguments)).
Proof.
  destruct (_tools (st_tools st) !! name) as [tool |]; [| by left].
  destruct (json_loads (Py.str_or args_json "{}")) as [value | msg | fault].
  - destruct value; eauto 10.
  - eauto 10.
  - eauto 10.
Qed.




(** A fault leaves [execute] only when [json.loads] raised it on the
    argument text of a registered tool, or when the approval callback
    raised it: on a registered mutating tool, with policy [on-request]. *)
Lemma execute_fault_sources name args_json st e st' :
  execute name args_json st = (Raise e, st') →
  (∃ tool fault,
     _tools (st_tools st) !! name = Some tool
     ∧ json_loads (Py.str_or args_json "{}") = LoadsRaised fault
     ∧ e = loads_exn fault ∧ st' = st)
  ∨ (∃ tool arguments w,
       _tools (st_tools st) !! name = Some tool
       ∧ tool_mutating tool = true
       ∧ json_loads (Py.str_or args_json "{}") = Parsed (JObj arguments)
       ∧ sandbox_mode (context (st_tools st)) ≠ READ_ONLY
       ∧ approval_policy (context (st_tools st)) = ON_REQUEST
       ∧ ask_approval (context (st_tools st)) name (approval_preview arguments) (st_world st)
         = (Raise e, w)
       ∧ st' = with_world w
                 (with_log (st_log st ++ [EvApproval name (approval_preview arguments)]) st)).
Proof.
  intros Hex.
  destruct (execute_cases name args_json st)
    as [Hlook | [(tool & msg & Hlook & Hargs) | [(tool & fault & Hlook & Hargs)
        | [(tool & value & Hlook & Hargs & Hdict) | (tool & arguments & Hlook & Hargs)]]]].
  - rewrite (execute_unknown _ _ _ Hlook) in Hex. discriminate Hex.
  - rewrite (execute_invalid _ _ _ _ _ Hlook Hargs) in Hex. discriminate Hex.
  - rewrite (execute_loads_fault _ _ _ _ _ Hlook Hargs) in Hex. simplify_eq.
    left. by exists tool, fault.
  - rewrite (execute_not_object _ _ _ _ _ Hlook Hargs Hdict) in Hex. discriminate Hex.
  - right. rewrite (execute_registered name args_json tool arguments st Hlook Hargs) in Hex.
    assert (Hcall : ∀ st1, try_handler name tool arguments st1 ≠ (Raise e, st')).
    { intros st1 Heq.
      destruct (try_handler_spec name tool arguments st1) as (text & p & w & r & _ & Hth & _).
      rewrite Hth in Heq. discriminate Heq. }
    destruct (tool_mutating tool) eqn:Hmut; [| by apply Hcall in Hex].
    pose proof (gate_spec name arguments st) as Hg. simpl in Hg.
    repeat case_bool_decide; rewrite ?Hg in Hex; try discriminate Hex;
      try (by apply Hcall in Hex).
    destruct (ask_approval (context (st_tools st)) name (approval_preview arguments)
                (st_world st)) as [[[] | e0] w] eqn:Hans; rewrite Hg in Hex.
    + by apply Hcall in Hex.
    + discriminate Hex.
    + simplify_eq. by exists tool, arguments, w.
Qed.




End ExecuteProperties.




(** ** The plan tool *)

Section PlanProperties.
Context {host : Platform} {W : Type}.

Lemma status_allowed (s : string) :
  s ∈ plan_statuses ↔ s = "pending" ∨ s = "in_progress" ∨ s = "completed".
Proof. unfold plan_statuses. rewrite !elem_of_cons, elem_of_nil. naive_solver. Qed.

(** The loop ends normally exactly on lists of valid items, with the
    normalized items after what was collected before. *)
Lemma normalize_plan_inr (items : list json) (acc result : list PlanItem) :
  normalize_plan items acc = inr result →
  Forall valid_plan_item items ∧ result = acc ++ (normalized_item <$> items).
Proof.
  revert acc. induction items as [| item items IH]; intros acc Hn; simpl in Hn.
  - simplify_eq. by rewrite app_nil_r.
  - destruct item as [| | | | | | fields]; try discriminate Hn.
    fold (item_step fields) in Hn. fold (item_status fields) in Hn.
    case_bool_decide as Hstep; [discriminate Hn |].
    case_bool_decide as Hstatus; simpl in Hn; [| discriminate Hn].
    apply IH in Hn as [Hall ->]. split.
    + constructor; [| done]. split; [done | by apply status_allowed].
    + by rewrite <- app_assoc.
Qed.

Lemma normalize_plan_inl (items : list json) (acc : list PlanItem) (message : string) :
  normalize_plan items acc = inl message →
  ¬ Forall valid_plan_item items ∧ message ∈ plan_errors.
Proof.
  revert acc. induction items as [| item items IH]; intros acc Hn; simpl in Hn.
  - discriminate Hn.
  - assert (Hbad : ¬ valid_plan_item item → ¬ Forall valid_plan_item (item :: items)).
    { intros Hv Hall. by inversion Hall. }
    unfold plan_errors.
    destruct item as [| | | | | | fields];
      try (simplify_eq; split; [apply Hbad; simpl; tauto | solve_elem]).
    fold (item_step fields) in Hn. fold (item_status fields) in Hn.
    case_bool_decide as Hstep.
    { simplify_eq. split; [| solve_elem]. apply Hbad. simpl. naive_solver. }
    case_bool_decide as Hstatus; simpl in Hn.
    + apply IH in Hn as [Hall Hin]. split; [| done].
      intros Hall'. inversion Hall'. by apply Hall.
    + simplify_eq. split; [| solve_elem]. apply Hbad. simpl.
      rewrite <- status_allowed. naive_solver.
Qed.

(** C10.  The plan tool never touches the world and never raises.  When
    the payload is a list of objects that each have a non-empty step and a
    status among pending, in_progress and completed (both read after
    [str(...).strip()]), the plan becomes the normalized list and the
    success text is returned; in every other case the plan handed back is
    the plan of the context, unchanged, and the text is one of the four
    errors. *)
Theorem update_plan_atomic (ctx : ToolContext W) (args : dict) (w : W) :
  ∃ text new_plan,
    _update_plan ctx args w = (Ret text, new_plan, w)
    ∧ ((∃ items, dict_get "plan" args = Some (JArr items)
                 ∧ Forall valid_plan_item items
                 ∧ new_plan = normalized_item <$> items
                 ∧ text = plan_ok_text (length items))
       ∨ ((∀ items, dict_get "plan" args = Some (JArr items) → ¬ Forall valid_plan_item items)
          ∧ new_plan = plan ctx
          ∧ text ∈ plan_errors)).
Proof.
  unfold _update_plan.
  destruct (dict_get "plan" args) as [v |] eqn:Hget.
  2:{ eexists _, _. split; [done |]. right. split_and!; [done | done |].
      solve_elem. }
  destruct v as [| | | | | items |];
    try (eexists _, _; split; [done |]; right; split_and!; [done | done |];
         solve_elem).
  destruct (normalize_plan items []) as [message | normalized] eqn:Hn.
  - apply normalize_plan_inl in Hn as [Hbad Hin].
    eexists _, _. split; [done |]. right. split_and!; [| done | done].
    intros items' Heq. by simplify_eq.
  - apply normalize_plan_inr in Hn as [Hall ->]. simpl.
    eexists _, _. split; [done |]. left. exists items. split_and!; try done.
    by rewrite length_fmap.
Qed.

(** Through the registry: a refused plan leaves the plan of the context
    as it was. *)
Lemma try_update_plan_refused {U} (st : State W U) (args : dict) (text : string)
    (st' : State W U) :
  try_handler "update_plan" update_plan_tool args st = (Ret text, st') →
  text ∈ plan_errors →
  plan (context (st_tools st')) = plan (context (st_tools st)).
Proof.
  intros Hth Hin. unfold try_handler in Hth. simpl in Hth. unfold _update_plan in Hth.
  destruct (dict_get "plan" args) as [v |]; [| by simplify_eq].
  destruct v as [| | | | | items |]; try by simplify_eq.
  destruct (normalize_plan items []) as [message | normalized]; [by simplify_eq |].
  simplify_eq. exfalso. unfold plan_errors, plan_ok_text in Hin.
  rewrite !elem_of_cons, elem_of_nil in Hin.
  destruct Hin as [Hin | [Hin | [Hin | [Hin | []]]]]; discriminate Hin.
Qed.

End PlanProperties.

(** ** Subagent isolation *)

Section SubagentProperties.
Context {host : Platform} {W : Type}.
Implicit Types (reg parent : ToolRegistry W) (t : Tool W).

(** [list_tools] lists exactly the tools the registry holds. *)
Lemma elem_of_list_tools reg t :
  t ∈ list_tools reg ↔ ∃ k, _tools reg !! k = Some t.
Proof.
  unfold list_tools. rewrite list_elem_of_omap. split.
  - intros (k & _ & Hk). by exists k.
  - intros (k & Hk). exists k. split; [| done].
    unfold sorted_names. rewrite merge_sort_Permutation.
    apply list_elem_of_fmap. exists (k, t). split; [done |].
    by apply elem_of_map_to_list.
Qed.

Lemma register_context reg t : context (register reg t) = context reg.
Proof. done. Qed.

Lemma register_wf reg t : registry_wf reg → registry_wf (register reg t).
Proof.
  intros Hwf k t' Hk. unfold register in Hk. simpl in Hk.
  destruct (decide (tool_name t = k)) as [<- | Hne].
  - rewrite lookup_insert_eq in Hk. by simplify_eq.
  - rewrite lookup_insert_ne in Hk by done. by apply Hwf.
Qed.

Lemma ToolRegistry_new_wf (c : ToolContext W) : registry_wf (ToolRegistry_new c).
Proof. intros k t Hk. unfold ToolRegistry_new in Hk. simpl in Hk. by rewrite lookup_empty in Hk. Qed.

Lemma subagent_loop_invariant (tools : list (Tool W)) reg :
  only_read_only reg →
  let child :=
    foldl (λ registry tool,
             if tool_mutating tool then registry
             else if bool_decide (tool_name tool ∈ ["update_plan"]) then registry
             else register registry tool) reg tools in
  only_read_only child ∧ context child = context reg.
Proof.
  revert reg. induction tools as [| tool tools IH]; intros reg Hinv; simpl; [done |].
  destruct (tool_mutating tool) eqn:Hmut; [by apply IH |].
  case_bool_decide as Hname; [by apply IH |].
  destruct (IH (register reg tool)) as [Hinv' Hctx]; [| done].
  intros k t Hk. unfold register in Hk. simpl in Hk.
  destruct (decide (tool_name tool = k)) as [<- | Hne].
  - rewrite lookup_insert_eq in Hk. simplify_eq. split_and!; [done | done |].
    intros Heq. apply Hname. rewrite Heq. apply list_elem_of_here.
  - rewrite lookup_insert_ne in Hk by done. by apply Hinv.
Qed.

(** C4.  Whatever the parent registry holds and whatever its context
    allows, the registry derived for a subagent holds no mutating tool and
    no [update_plan], under any key and in its listing, and its context is
    read-only with approval policy [never]. *)
Theorem subagent_registry_isolated parent :
  let child := _build_subagent_tools parent in
  (∀ k t, _tools child !! k = Some t → tool_mutating t = false ∧ tool_name t ≠ "update_plan")
  ∧ (∀ t, t ∈ list_tools child → tool_mutating t = false ∧ tool_name t ≠ "update_plan")
  ∧ _tools child !! "update_plan" = None
  ∧ ("update_plan" ∉ list_tool_names child)
  ∧ sandbox_mode (context child) = READ_ONLY
  ∧ approval_policy (context child) = NEVER.
Proof.
  intros child. unfold child, _build_subagent_tools.
  set (sub := ToolContext_new _ _ _ _ _).
  destruct (subagent_loop_invariant (list_tools parent) (ToolRegistry_new sub)) as [Hinv Hctx].
  { intros k t Hk. unfold ToolRegistry_new in Hk. simpl in Hk. by rewrite lookup_empty in Hk. }
  set (reg := foldl _ _ _) in *.
  assert (Hlist : ∀ t, t ∈ list_tools reg → tool_mutating t = false ∧ tool_name t ≠ "update_plan").
  { intros t Hin. apply elem_of_list_tools in Hin as [k Hk]. by apply Hinv in Hk as (_ & ? & ?). }
  split_and!.
  - intros k t Hk. by apply Hinv in Hk as (_ & ? & ?).
  - done.
  - destruct (_tools reg !! "update_plan") as [t |] eqn:Hk; [| done].
    apply Hinv in Hk as (Hname & _ & Hne). by rewrite Hname in Hne.
  - unfold list_tool_names. intros Hin. apply list_elem_of_fmap in Hin as (t & Hname & Hin).
    apply Hlist in Hin as [_ Hne]. by rewrite <- Hname in Hne.
  - by rewrite Hctx.
  - by rewrite Hctx.
Qed.

(** What the loop leaves under a key: the last tool of that name that
    passes the two tests, or else what was there before. *)
Lemma subagent_loop_lookup (tools : list (Tool W)) reg (k : string) :
  let passes t := tool_name t = k ∧ tool_mutating t = false ∧ tool_name t ≠ "update_plan" in
  _tools (foldl (λ registry tool,
                   if tool_mutating tool then registry
                   else if bool_decide (tool_name tool ∈ ["update_plan"]) then registry
                   else register registry tool) reg tools) !! k
  = match last (filter passes tools) with
    | Some t => Some t
    | None => _tools reg !! k
    end.
Proof.
  intros passes. revert reg. induction tools as [| tool tools IH]; intros reg; [done |].
  simpl. rewrite filter_cons.
  assert (Hplan : tool_name tool ∈ ["update_plan"] ↔ tool_name tool = "update_plan").
  { rewrite elem_of_cons, elem_of_nil. naive_solver. }
  destruct (decide (passes tool)) as [(Hk & Hmut & Hne) | Hno].
  - rewrite Hmut. rewrite bool_decide_eq_false_2 by (by rewrite Hplan).
    rewrite IH, last_cons. unfold register. simpl. rewrite Hk, lookup_insert_eq.
    by destruct (last (filter passes tools)).
  - destruct (tool_mutating tool) eqn:Hmut; [by rewrite IH |].
    case_bool_decide as Hname; [by rewrite IH |].
    rewrite IH. unfold register. simpl. rewrite lookup_insert_ne; [done |].
    intros Hk. apply Hno. unfold passes. rewrite Hplan in Hname. by rewrite Hmut.
Qed.

(** From a registry built by [register], the subagent gets exactly the
    tools that are not mutating and not [update_plan]. *)
Lemma subagent_registry_keeps_read_only parent (k : string) t :
  registry_wf parent →
  _tools (_build_subagent_tools parent) !! k = Some t
  ↔ _tools parent !! k = Some t ∧ tool_mutating t = false ∧ k ≠ "update_plan".
Proof.
  intros Hwf. unfold _build_subagent_tools. rewrite subagent_loop_lookup. simpl.
  rewrite lookup_empty.
  set (passes := λ t0 : Tool W, tool_name t0 = k ∧ tool_mutating t0 = false
                                ∧ tool_name t0 ≠ "update_plan").
  assert (Hin : ∀ t0, t0 ∈ filter passes (list_tools parent)
                      ↔ _tools parent !! k = Some t0 ∧ tool_mutating t0 = false
                        ∧ k ≠ "update_plan").
  { intros t0. rewrite list_elem_of_filter, elem_of_list_tools. unfold passes. split.
    - intros ((Hk & Hmut & Hne) & k0 & Hk0). pose proof (Hwf k0 t0 Hk0) as Hname.
      subst k. rewrite Hname. by rewrite Hname in Hne.
    - intros (Hk & Hmut & Hne). pose proof (Hwf k t0 Hk) as Hname.
      split; [by rewrite Hname | by exists k]. }
  destruct (last (filter passes (list_tools parent))) as [t1 |] eqn:Hlast.
  - assert (Ht1 : t1 ∈ filter passes (list_tools parent)).
    { apply last_Some in Hlast as [l' ->]. apply elem_of_app. right. apply list_elem_of_here. }
    apply Hin in Ht1 as (Hk1 & Hmut1 & Hne1). split.
    + intros Heq. by simplify_eq.
    + intros (Hk & _). by simplify_eq.
  - apply last_None in Hlast. split; [done |].
    intros Hpass. apply Hin in Hpass. rewrite Hlast in Hpass. by apply elem_of_nil in Hpass.
Qed.

End SubagentProperties.

(** ** The agent loop *)

Section AgentProperties.
Context {host : Platform} {W U : Type}.
Implicit Types (st : State W U) (cb : AgentCallbacks U) (model : ChatModel W).
Implicit Types (calls : list ToolCall) (ms : list Message).

Local Abbreviation M := (M W U).
Local Abbreviation ui_blind := (ui_blind (W := W) (U := U)).

(** *** How computations compose *)

Lemma bind_run {A B} (m : M A) (k : A → M B) st :
  (m ≫= k) st = match m st with
                | (Ret a, st1) => k a st1
                | (Raise e, st1) => (Raise e, st1)
                end.
Proof. done. Qed.

Lemma bind_inv {A B} (m : M A) (k : A → M B) st r st' :
  (m ≫= k) st = (r, st') →
  (∃ a st1, m st = (Ret a, st1) ∧ k a st1 = (r, st'))
  ∨ (∃ e, m st = (Raise e, st') ∧ r = Raise e).
Proof.
  rewrite bind_run. destruct (m st) as [[a | e] st1]; intros Heq.
  - left. by exists a, st1.
  - right. exists e. by simplify_eq.
Qed.

(** *** What each call can change *)

Lemma same_setup_refl st : same_setup st st.
Proof. by repeat split. Qed.

Lemma same_setup_trans st1 st2 st3 :
  same_setup st1 st2 → same_setup st2 st3 → same_setup st1 st3.
Proof.
  intros (? & ? & ? & ? & ?) (? & ? & ? & ? & ?). repeat split; congruence.
Qed.

Lemma fire_frame {A} (fn : option (A → U → outcome unit * U)) (a : A) st r st' :
  _fire fn a st = (r, st') → ∃ u, st' = with_ui u st.
Proof.
  unfold _fire. destruct fn as [f |].
  - destruct (f a (st_ui st)) as [r0 u]. intros Heq. exists u. by simplify_eq.
  - intros Heq. exists (st_ui st). simplify_eq. by destruct st'.
Qed.

Lemma fire_returns {A} (fn : option (A → U → outcome unit * U)) (a : A) st :
  hook_returns fn → ∃ u, _fire fn a st = (Ret (), with_ui u st).
Proof.
  intros Hret. unfold _fire. destruct fn as [f |].
  - destruct (Hret f eq_refl a (st_ui st)) as [u Hu]. rewrite Hu. by exists u.
  - exists (st_ui st). by destruct st.
Qed.

(** A tool call leaves the conversation, the display and the setup as
    they were, and asks nothing of the model. *)
Lemma execute_frame name args_json st r st' :
  execute name args_json st = (r, st') →
  st_messages st' = st_messages st
  ∧ st_ui st' = st_ui st
  ∧ same_setup st st'
  ∧ model_requests (st_log st') = model_requests (st_log st).
Proof.
  unfold execute, gate, try_handler, call_ask_approval, raise, mbind, M_bind, gets, mret,
    M_ret.
  simpl. intros Hex.
  repeat (case_match; simplify_eq; simpl in *);
    rewrite ?model_requests_app; simpl; rewrite ?app_nil_r;
    by repeat split.
Qed.

Lemma ui_blind_ret {A} (a : A) : ui_blind (mret a).
Proof. done. Qed.

Lemma ui_blind_bind {A B} (m : M A) (k : A → M B) :
  ui_blind m → (∀ a, ui_blind (k a)) → ui_blind (m ≫= k).
Proof.
  intros Hm Hk u st. rewrite !bind_run, Hm.
  destruct (m st) as [[a | e] st1]; [apply Hk | done].
Qed.

Lemma ui_blind_gets {A} (f : State W U → A) :
  (∀ u st, f (with_ui u st) = f st) → ui_blind (gets f).
Proof. intros Hf u st. unfold gets. by rewrite Hf. Qed.

Lemma ui_blind_call_ask_approval action preview : ui_blind (call_ask_approval action preview).
Proof. intros u st. unfold call_ask_approval. simpl. by case_match. Qed.

Lemma ui_blind_try_handler name (tool : Tool W) arguments :
  ui_blind (try_handler name tool arguments).
Proof.
  intros u st. unfold try_handler. simpl.
  destruct (tool_handler tool _ arguments _) as [[[t | e] p] w]; done.
Qed.

Lemma ui_blind_gate name arguments : ui_blind (gate name arguments).
Proof.
  unfold gate. apply ui_blind_bind; [by apply ui_blind_gets |]. intros ctx.
  repeat case_bool_decide; try apply ui_blind_ret.
  apply ui_blind_bind; [apply ui_blind_call_ask_approval |].
  intros []; apply ui_blind_ret.
Qed.

(** A tool call does not look at the display. *)
Lemma ui_blind_execute name args_json : ui_blind (execute name args_json).
Proof.
  unfold execute. apply ui_blind_bind; [by apply ui_blind_gets |]. intros tools.
  destruct (tools !! name) as [tool |]; [| apply ui_blind_ret].
  destruct (json_loads _) as [v | exc | fault]; [| apply ui_blind_ret | done].
  destruct v; try apply ui_blind_ret.
  apply ui_blind_bind.
  - destruct (tool_mutating tool); [apply ui_blind_gate | apply ui_blind_ret].
  - intros [refusal |]; [apply ui_blind_ret | apply ui_blind_try_handler].
Qed.

Lemma ui_blind_call_model model : ui_blind (call_model model).
Proof. intros u st. unfold call_model. simpl. by case_match. Qed.

Lemma ui_blind_append_message (m : Message) : ui_blind (append_message m).
Proof. done. Qed.

Lemma with_ui_with_ui u u' st : with_ui u (with_ui u' st) = with_ui u st.
Proof. done. Qed.

Lemma with_ui_same st : with_ui (st_ui st) st = st.
Proof. by destruct st. Qed.

(** *** Reading conversations *)

Lemma pending_after_app (p : list string) ms1 ms2 :
  pending_after p (ms1 ++ ms2) = pending_after p ms1 ≫= λ q, pending_after q ms2.
Proof.
  revert p. induction ms1 as [| m ms1 IH]; intros p; [done |].
  destruct m as [s | s | c r calls | id text]; simpl; try done.
  - destruct p; [apply IH | done].
  - destruct p; [apply IH | done].
  - destruct p as [| q p]; [done |]. case_bool_decide; [apply IH | done].
Qed.

Lemma pending_calls_app ms1 ms2 (p : list string) :
  pending_calls ms1 = Some p → pending_calls (ms1 ++ ms2) = pending_after p ms2.
Proof.
  destruct ms1 as [| m ms1]; [done |]. destruct m; try done. simpl.
  intros Hp. by rewrite pending_after_app, Hp.
Qed.

(** Answering the first calls, in order, leaves the other calls pending. *)
Lemma pending_after_tool_messages calls (results : list string) :
  length results ≤ length calls →
  pending_after (tc_id <$> calls) (tool_messages calls results)
  = Some (drop (length results) (tc_id <$> calls)).
Proof.
  revert results. induction calls as [| call calls IH]; intros results Hlen.
  - destruct results; [done | simpl in Hlen; lia].
  - destruct results as [| result results]; [done |]. simpl in *.
    rewrite bool_decide_eq_true_2 by done. apply IH. lia.
Qed.

(** An assistant message after a settled conversation, then the answers
    to its first calls. *)
Lemma pending_calls_block ms content reasoning calls (results : list string) :
  pending_calls ms = Some [] →
  length results ≤ length calls →
  pending_calls (ms ++ AssistantMessage content reasoning calls :: tool_messages calls results)
  = Some (drop (length results) (tc_id <$> calls)).
Proof.
  intros Hok Hlen. rewrite (pending_calls_app _ _ [] Hok).
  change (pending_after [] (AssistantMessage content reasoning calls :: ?l))
    with (pending_after (tc_id <$> calls) l).
  by apply pending_after_tool_messages.
Qed.

Lemma conversation_ok_open ms : conversation_ok ms → conversation_open ms.
Proof. unfold conversation_ok, conversation_open. intros ->. by eexists. Qed.

(** *** The loop over the tool calls *)









(** *** The loop over the steps *)

Lemma call_model_frame model st r st' :
  call_model model st = (r, st') →
  st_messages st' = st_messages st
  ∧ same_setup st st'
  ∧ model_requests (st_log st') = model_requests (st_log st) ++ [st_messages st].
Proof.
  unfold call_model. destruct (complete model _ _ _) as [r0 w]. intros Heq. simplify_eq.
  simpl. rewrite model_requests_app. by repeat split.
Qed.





(** *** What the reading of a conversation guarantees *)

Lemma pending_after_no_system (p q : list string) ms system_prompt :
  pending_after p ms = Some q → SystemMessage system_prompt ∉ ms.
Proof.
  revert p. induction ms as [| m ms IH]; intros p Hp Hin.
  - by apply elem_of_nil in Hin.
  - apply elem_of_cons in Hin as [<- | Hin]; [done |].
    destruct m as [s | s | c r calls | id text]; simpl in Hp; try done.
    + destruct p; [by eapply IH | done].
    + destruct p; [by eapply IH | done].
    + destruct p as [| p0 p]; [done |]. case_bool_decide; [by eapply IH | done].
Qed.

Lemma answers_call_cons m ms i id :
  answers_call ms i id → answers_call (m :: ms) (S i) id.
Proof.
  intros (j & c & r & calls & Hlt & Hj & Hbetween & Hid).
  exists (S j), c, r, calls. split_and!; [lia | done | | done].
  intros k [Hk1 Hk2]. destruct k as [| k]; [lia |]. simpl. apply Hbetween. lia.
Qed.

Lemma pending_after_tool_lookup (p q : list string) ms i id text :
  pending_after p ms = Some q →
  ms !! i = Some (ToolMessage id text) →
  ((∀ k, k < i → ∃ id' text', ms !! k = Some (ToolMessage id' text')) ∧ p !! i = Some id)
  ∨ answers_call ms i id.
Proof.
  revert p i. induction ms as [| m ms IH]; intros p i Hp Hi; [done |].
  destruct m as [s | s | c r calls | id0 text0]; simpl in Hp; try done.
  - (* a user message *)
    destruct p; [| done]. destruct i as [| i]; [done |]. simpl in Hi.
    destruct (IH [] i Hp Hi) as [[_ Hnil] | Hans]; [done |].
    right. by apply answers_call_cons.
  - (* an assistant message *)
    destruct p; [| done]. destruct i as [| i]; [done |]. simpl in Hi.
    destruct (IH _ i Hp Hi) as [[Hbefore Hid] | Hans].
    + right. exists 0, c, r, calls. split_and!; [lia | done | |].
      * intros k [Hk1 Hk2]. destruct k as [| k]; [lia |]. simpl. apply Hbefore. lia.
      * by replace (S i - 0 - 1) with i by lia.
    + right. by apply answers_call_cons.
  - (* a tool message *)
    destruct p as [| p0 p]; [done |]. case_bool_decide as Heq; [| done]. subst id0.
    destruct i as [| i]; simpl in Hi.
    + simplify_eq. left. split; [intros k Hk; lia | done].
    + destruct (IH p i Hp Hi) as [[Hbefore Hid] | Hans].
      * left. split; [| done]. intros k Hk. destruct k as [| k]; [by eexists _, _ |].
        simpl. apply Hbefore. lia.
      * right. by apply answers_call_cons.
Qed.

(** In a conversation that reads well, the system message is the first
    message and the only one, and every tool message answers a call of the
    assistant message just before it. *)
Lemma conversation_open_meaning ms :
  conversation_open ms →
  (∃ system_prompt rest,
      ms = SystemMessage system_prompt :: rest ∧ ∀ s, SystemMessage s ∉ rest)
  ∧ (∀ i id text, ms !! i = Some (ToolMessage id text) → answers_call ms i id).
Proof.
  unfold conversation_open, pending_calls.
  destruct ms as [| m rest]; [by intros [? ?] |].
  destruct m as [s | | |]; try by intros [? ?].
  intros [q Hq]. split.
  - exists s, rest. split; [done |]. intros s'. by eapply pending_after_no_system.
  - intros i id text Hi. destruct i as [| i]; [done |]. simpl in Hi.
    destruct (pending_after_tool_lookup [] q rest i id text Hq Hi) as [[_ Hnil] | Hans];
      [done |].
    by apply answers_call_cons.
Qed.

(** *** The conversation invariant *)

Lemma init_conversation_ok (tools : ToolRegistry W) system_prompt (w : W) (u : U) log :
  conversation_ok (st_messages (NanoCodeAgent_init tools system_prompt w u log)).
Proof. done. Qed.

Lemma conversation_ok_user ms user_input :
  conversation_ok ms → conversation_ok (ms ++ [UserMessage user_input]).
Proof. intros Hok. unfold conversation_ok. by rewrite (pending_calls_app _ _ [] Hok). Qed.





(** *** Running out of steps *)




(** *** Hooks *)

Lemma fire_none {A} (a : A) st : _fire None a st = (Ret (), st).
Proof. done. Qed.

(** With hooks that return, the loop over the tool calls does what it
    does without hooks, whatever the display holds. *)
Lemma run_tool_calls_hooks cb calls :
  hooks_return cb →
  ∀ u0 st, ∃ u,
    run_tool_calls cb calls (with_ui u0 st)
    = let '(r, st') := run_tool_calls no_hooks calls st in (r, with_ui u st').
Proof.
  intros (_ & _ & Hcall & Hresult).
  induction calls as [| call calls IH]; intros u0 st; simpl; [by exists u0 |].
  rewrite !bind_run, fire_none.
  destruct (fire_returns (on_tool_call cb) (tc_name call, tc_arguments call)
              (with_ui u0 st) Hcall) as [u1 ->].
  rewrite !bind_run, with_ui_with_ui, ui_blind_execute.
  destruct (execute (tc_name call) (tc_arguments call) st) as [[text | e] st2];
    [| by exists u1].
  rewrite !bind_run, fire_none.
  destruct (fire_returns (on_tool_result cb) (tc_name call, text) (with_ui u1 st2) Hresult)
    as [u2 ->].
  rewrite !bind_run. unfold append_message, modify.
  apply (IH u2 (with_messages (st_messages st2 ++ [ToolMessage (tc_id call) text]) st2)).
Qed.

Lemma run_steps_hooks model cb limit n :
  hooks_return cb →
  ∀ u0 st, ∃ u,
    run_steps model cb limit n (with_ui u0 st)
    = let '(r, st') := run_steps model no_hooks limit n st in (r, with_ui u st').
Proof.
  intros Hhooks. pose proof Hhooks as (Hstatus & Hthinking & _ & _).
  induction n as [| n IH]; intros u0 st; simpl; [by exists u0 |].
  rewrite !bind_run.
  destruct (fire_returns (on_status cb) "Thinking..." (with_ui u0 st) Hstatus) as [u1 ->].
  rewrite fire_none, !bind_run, with_ui_with_ui, ui_blind_call_model.
  destruct (call_model model st) as [[assistant | e] st2]; [| by exists u1].
  rewrite !bind_run.
  destruct (fire_returns (on_status cb) "" (with_ui u1 st2) Hstatus) as [u3 ->].
  rewrite fire_none, !bind_run, with_ui_with_ui.
  assert (Hreason : ∃ u4,
            match kept_reasoning assistant with
            | Some reasoning => _fire (on_thinking cb) reasoning
            | None => mret ()
            end (with_ui u3 st2) = (Ret (), with_ui u4 st2)).
  { destruct (kept_reasoning assistant) as [reasoning |]; [| by exists u3].
    destruct (fire_returns (on_thinking cb) reasoning (with_ui u3 st2) Hthinking) as [u4 ->].
    by exists u4. }
  destruct Hreason as [u4 ->].
  assert (Hnone : match kept_reasoning assistant with
                  | Some reasoning => _fire (A := string) (U := U) None reasoning
                  | None => mret ()
                  end st2 = (Ret (), st2)).
  { by destruct (kept_reasoning assistant). }
  rewrite Hnone. rewrite !bind_run. unfold append_message, modify.
  set (st5 := with_messages _ st2).
  change (with_messages _ (with_ui u4 st2)) with (with_ui u4 st5).
  destruct (a_tool_calls assistant) as [| call calls]; [by exists u4 |].
  rewrite !bind_run.
  destruct (run_tool_calls_hooks cb (call :: calls) Hhooks u4 st5) as [u5 ->].
  destruct (run_tool_calls no_hooks (call :: calls) st5) as [[[] | e] st6]; [| by exists u5].
  apply IH.
Qed.

(** C9, as the code has it.  Hooks that return steer nothing: with any
    two sets of such hooks, [run] ends the same way and leaves the same
    conversation, log of outside calls, world and tools.  A fault raised by
    a hook is not caught: raised by the status hook at the start of a turn,
    it leaves [run] right after the user message was appended. *)
Theorem hooks_only_notify model config cb cb' user_input st :
  (hooks_return cb → hooks_return cb' →
   let out := run model config cb user_input st in
   let out' := run model config cb' user_input st in
   out.1 = out'.1
   ∧ st_messages out.2 = st_messages out'.2
   ∧ st_log out.2 = st_log out'.2
   ∧ st_world out.2 = st_world out'.2
   ∧ st_tools out.2 = st_tools out'.2)
  ∧ (∀ f e u, on_status cb = Some f →
              f "Thinking..." (st_ui st) = (Raise e, u) →
              (0 < max_steps config)%Z →
              run model config cb user_input st
              = (Raise e,
                 with_ui u (with_messages (st_messages st ++ [UserMessage user_input]) st))).
Proof.
  split.
  - intros Hcb Hcb' out out'.
    assert (Herase : ∀ c, hooks_return c → ∃ u,
              run model config c user_input st
              = let '(r, st') := run model config no_hooks user_input st in (r, with_ui u st')).
    { intros c Hc. unfold run. rewrite !bind_run.
      unfold append_message, modify.
      set (st1 := with_messages _ st).
      destruct (run_steps_hooks model c (max_steps config) (Z.to_nat (max_steps config))
                  Hc (st_ui st1) st1) as [u Hu].
      exists u. by rewrite <- Hu, with_ui_same. }
    destruct (Herase cb Hcb) as [u Hu]. destruct (Herase cb' Hcb') as [u' Hu'].
    unfold out, out'. rewrite Hu, Hu'.
    by destruct (run model config no_hooks user_input st) as [r0 st0].
  - intros f e u Hf Hraise Hpos. unfold run. rewrite bind_run.
    unfold append_message at 1, modify at 1.
    destruct (Z.to_nat (max_steps config)) as [| n] eqn:Hn; [lia |].
    simpl. rewrite bind_run. unfold _fire at 1. rewrite Hf. simpl. by rewrite Hraise.
Qed.

End AgentProperties.




(** Printing hooks against no hooks: the same end of the run. *)
Lemma hooks_only_notify_witness :
  let st0 := Demo.start (Demo.ctx Demo.approve WORKSPACE_WRITE ON_REQUEST) in
  (run (host := Demo.platform) Demo.LoopingModel (mkAgentConfig 2) Demo.printing_callbacks
       "loop forever" st0).1
  = (run (host := Demo.platform) Demo.LoopingModel (mkAgentConfig 2) Demo.no_callbacks
         "loop forever" st0).1.
Proof.
  intros st0.
  destruct (hooks_only_notify (host := Demo.platform) Demo.LoopingModel (mkAgentConfig 2)
              Demo.printing_callbacks Demo.no_callbacks "loop forever" st0) as [Hsame _].
  apply Hsame.
  - repeat split; intros f Hf a u; simpl in Hf; simplify_eq; try destruct a; by eexists.
  - repeat split; intros f Hf; simpl in Hf; discriminate Hf.
Defined.

(** C9 as stated fails: put a status hook that raises in the place of no
    hook, and the run that returned its text now ends with the fault of the
    hook, with a shorter conversation. *)
Lemma hook_fault_leaves_run :
  let st0 := Demo.start (Demo.ctx Demo.approve WORKSPACE_WRITE ON_REQUEST) in
  let quiet_run := run (host := Demo.platform) Demo.DoneModel (mkAgentConfig 5)
                       Demo.no_callbacks "read note" st0 in
  let faulty_run := run (host := Demo.platform) Demo.DoneModel (mkAgentConfig 5)
                        Demo.failing_callbacks "read note" st0 in
  quiet_run.1 = Ret "Done: file inspected."
  ∧ faulty_run.1 = Raise (OtherError "OSError" "display closed")
  ∧ length (st_messages quiet_run.2) = 3
  ∧ length (st_messages faulty_run.2) = 2.
Proof. by vm_compute. Qed.

(** The plan of the tool test: two valid steps replace the plan, the
    second one stored without the no-break space and the em space around
    it; a step made of those two alone is refused and the plan kept. *)
Lemma update_plan_atomic_witness :
  let ctx := Demo.ctx Demo.approve WORKSPACE_WRITE ON_REQUEST in
  let spaced := Py.utf8 0xA0 +:+ "implement" +:+ Py.utf8 0x2003 in
  (∃ text,
     _update_plan (host := Demo.platform) ctx
       [("plan", JArr [JObj [("step", JStr "inspect"); ("status", JStr "completed")];
                       JObj [("step", JStr spaced); ("status", JStr "in_progress")]])]
       []
     = (Ret text, [mkPlanItem "inspect" "completed"; mkPlanItem "implement" "in_progress"], []))
  ∧ _update_plan (host := Demo.platform) ctx
      [("plan", JArr [JObj [("step", JStr (Py.utf8 0xA0 +:+ Py.utf8 0x2003));
                            ("status", JStr "pending")]])] []
    = (Ret "plan step cannot be empty", [], []).
Proof.
  intros ctx spaced. split; [| vm_compute; reflexivity].
  destruct (update_plan_atomic (host := Demo.platform) ctx
              [("plan", JArr [JObj [("step", JStr "inspect"); ("status", JStr "completed")];
                              JObj [("step", JStr spaced); ("status", JStr "in_progress")]])]
              ([] : Demo.World))
    as (text & new_plan & Hrun & [(items & Hitems & _ & -> & _) | (Hbad & _)]).
  - exists text. rewrite Hrun. vm_compute in Hitems. injection Hitems as <-.
    vm_compute. reflexivity.
  - exfalso. eapply Hbad; [reflexivity |].
    apply Forall_cons_2; [| apply Forall_cons_2; [| constructor]];
      vm_compute; (split; [discriminate | auto]).
Defined.

(** C10 as worded fails in both directions.  An item whose step is
    [null] and whose status is [" pending "] has neither a step nor a
    status among the three, yet the handler reads both through
    [str(...).strip()], accepts the item and replaces the plan; and an item
    whose step is a blank has a step that is not empty and a status among
    the three, yet the handler answers that the step cannot be empty and
    keeps the plan. *)
Lemma update_plan_not_as_worded :
  let ctx := ToolContext_new (host := Demo.platform) Demo.workspace Demo.approve
               WORKSPACE_WRITE ON_REQUEST [mkPlanItem "inspect" "completed"] in
  let loose := JObj [("step", JNull); ("status", JStr " pending ")] in
  let blank := JObj [("step", JStr " "); ("status", JStr "pending")] in
  (¬ item_as_worded loose
   ∧ _update_plan (host := Demo.platform) ctx [("plan", JArr [loose])] ([] : Demo.World)
     = (Ret (plan_ok_text 1), [mkPlanItem "None" "pending"], []))
  ∧ (item_as_worded blank
     ∧ _update_plan (host := Demo.platform) ctx [("plan", JArr [blank])] ([] : Demo.World)
       = (Ret "plan step cannot be empty", [mkPlanItem "inspect" "completed"], [])).
Proof.
  intros ctx loose blank. split_and!.
  - intros [[s [Hstep _]] _]. discriminate Hstep.
  - vm_compute. reflexivity.
  - split; eexists; (split; [reflexivity |]); [discriminate | unfold plan_statuses; solve_elem].
  - vm_compute. reflexivity.
Qed.

(** The registry of the tests: the subagent keeps the two read-only
    tools and loses [write_file] and [update_plan]. *)
Lemma subagent_registry_isolated_witness :
  let child := _build_subagent_tools (host := Demo.platform)
                 (Demo.registry (Demo.ctx Demo.approve DANGER_FULL_ACCESS ALWAYS)) in
  list_tool_names child = ["broken"; "list_files"]
  ∧ _tools child !! "update_plan" = None
  ∧ sandbox_mode (context child) = READ_ONLY
  ∧ approval_policy (context child) = NEVER.
Proof.
  intros child.
  destruct (subagent_registry_isolated (host := Demo.platform)
              (Demo.registry (Demo.ctx Demo.approve DANGER_FULL_ACCESS ALWAYS)))
    as (_ & _ & Hplan & _ & Hmode & Hpolicy).
  split_and!; [by vm_compute | exact Hplan | exact Hmode | exact Hpolicy].
Defined.

(** ** Loading plugins *)

Section PluginProperties.
Context {host : Platform} {W : Type}.
Variables PluginCommandSpec Skill : Type.
Variable _parse_commands : dict → string → outcome (list PluginCommandSpec).
Variable _parse_skills : dict → Path → string → outcome (list Skill).
Variable _iter_manifest_files : list Path → list Path.
Variable read_manifest : Path → outcome json.
Variable _build_tool_handler : Plugins.PluginToolSpec → ToolHandler W.

Local Abbreviation LoadState := (Plugins.LoadState (W := W) PluginCommandSpec Skill).
Local Abbreviation load_spec := (Plugins.load_spec PluginCommandSpec Skill _build_tool_handler).
Local Abbreviation load_manifest :=
  (Plugins.load_manifest PluginCommandSpec Skill _parse_commands _parse_skills read_manifest
                         _build_tool_handler).
Local Abbreviation load_plugins :=
  (Plugins.load_plugins PluginCommandSpec Skill _parse_commands _parse_skills
                        _iter_manifest_files read_manifest _build_tool_handler).
Local Abbreviation declared_tools :=
  (Plugins.declared_tools PluginCommandSpec Skill _parse_commands _parse_skills read_manifest).
Local Abbreviation _parse_manifest :=
  (Plugins._parse_manifest PluginCommandSpec Skill _parse_commands _parse_skills read_manifest).
Local Abbreviation plugin_tool := (Plugins.plugin_tool _build_tool_handler).
Local Abbreviation collisions := (Plugins.collisions PluginCommandSpec Skill).
Local Abbreviation registrations := (Plugins.registrations PluginCommandSpec Skill).
Local Abbreviation ls_registry := (Plugins.ls_registry PluginCommandSpec Skill).
Local Abbreviation ls_existing := (Plugins.ls_existing PluginCommandSpec Skill).
Local Abbreviation ls_result := (Plugins.ls_result PluginCommandSpec Skill).
Local Abbreviation add_error := (Plugins.add_error PluginCommandSpec Skill).
Local Abbreviation tracked := (Plugins.tracked (W := W) PluginCommandSpec Skill).
Local Abbreviation agree := (Plugins.agree (W := W) PluginCommandSpec Skill).

Implicit Types (s : LoadState) (spec : Plugins.PluginToolSpec) (n : string).

(** In a registry built by [register], the names listed are the keys. *)
Lemma list_tool_names_dom (reg : ToolRegistry W) :
  registry_wf reg →
  list_to_set (list_tool_names reg) =@{gset string} dom (_tools reg).
Proof.
  intros Hwf. apply set_eq. intros x.
  rewrite elem_of_list_to_set, elem_of_dom. unfold list_tool_names.
  rewrite list_elem_of_fmap. split.
  - intros (t & -> & Hin). apply elem_of_list_tools in Hin as [k Hk].
    rewrite (Hwf k t Hk). by exists t.
  - intros [t Ht]. exists t. split; [by rewrite (Hwf x t Ht) |].
    apply elem_of_list_tools. by exists x.
Qed.

Lemma duplicate_error_inj n1 n2 :
  Plugins.duplicate_error n1 = Plugins.duplicate_error n2 → n1 = n2.
Proof. unfold Plugins.duplicate_error. simpl. intros Heq. by simplify_eq. Qed.

Lemma collisions_add_error n msg (r : Plugins.PluginLoadResult PluginCommandSpec Skill) :
  collisions n (add_error msg r)
  = collisions n r + (if decide (msg = Plugins.duplicate_error n) then 1 else 0).
Proof.
  unfold Plugins.collisions, Plugins.add_error. simpl.
  rewrite filter_app, length_app. f_equal.
  rewrite filter_cons, filter_nil. by case_decide.
Qed.

(** The loop over declarations: a name taken before the loop keeps its
    tool and every declaration of it is reported; a free name goes to its
    first declaration and every later one is reported. *)
Lemma load_specs_spec (specs : list Plugins.PluginToolSpec) s n :
  tracked s →
  let s' := foldl load_spec s specs in
  let same_name := filter (λ spec, Plugins.namespaced_name spec = n) specs in
  tracked s'
  ∧ _tools (ls_registry s') !! n
    = match _tools (ls_registry s) !! n with
      | Some t => Some t
      | None => plugin_tool <$> head same_name
      end
  ∧ collisions n (ls_result s')
    = collisions n (ls_result s)
      + match _tools (ls_registry s) !! n with
        | Some _ => length same_name
        | None => pred (length same_name)
        end
  ∧ registrations n (ls_result s')
    = registrations n (ls_result s)
      + match _tools (ls_registry s) !! n with
        | Some _ => 0
        | None => min 1 (length same_name)
        end.
Proof.
  revert s. induction specs as [| spec specs IH]; intros s Htr; simpl.
  { split_and!; [done | by destruct (_ !! n) | by destruct (_ !! n); lia
                 | by destruct (_ !! n); lia]. }
  set (m := Plugins.namespaced_name spec).
  unfold Plugins.load_spec at 2 4 6 8. fold m.
  case_bool_decide as Hin.
  - (* the name is taken: an error, nothing registered *)
    set (s1 := Plugins.mkLoadState _ _ _ _ _).
    destruct (IH s1) as (Htr' & Hlook & Hcol & Hreg); [done |].
    split; [done |]. simpl in Hlook, Hcol, Hreg.
    rewrite collisions_add_error in Hcol.
    rewrite Htr in Hin. apply elem_of_dom in Hin as [t Ht].
    rewrite filter_cons. fold m. destruct (decide (m = n)) as [<- | Hne].
    + rewrite Ht in *. rewrite decide_True in Hcol by done. simpl.
      split_and!; [done | lia | done].
    + rewrite decide_False in Hcol by (intros Heq; by apply duplicate_error_inj in Heq).
      split_and!; [done | lia | done].
  - (* the name is free: the tool is registered *)
    set (s1 := Plugins.mkLoadState _ _ _ _ _).
    assert (Hnone : _tools (ls_registry s) !! m = None).
    { apply not_elem_of_dom. by rewrite <- Htr. }
    destruct (IH s1) as (Htr' & Hlook & Hcol & Hreg).
    { unfold Plugins.tracked, s1. simpl. rewrite dom_insert_L. fold m. by rewrite Htr. }
    split; [done |]. simpl in Hlook, Hcol, Hreg. fold m in Hlook, Hcol, Hreg.
    unfold Plugins.registrations in Hreg at 2. simpl in Hreg.
    rewrite filter_app, length_app, filter_cons, filter_nil in Hreg.
    fold (registrations n (ls_result s)) in Hreg.
    unfold Plugins.collisions in Hcol at 2. simpl in Hcol.
    fold (collisions n (ls_result s)) in Hcol.
    rewrite filter_cons. fold m. destruct (decide (m = n)) as [<- | Hne].
    + rewrite lookup_insert_eq in Hlook, Hcol, Hreg. rewrite Hnone. simpl in *.
      split_and!; [done | lia | lia].
    + rewrite lookup_insert_ne in Hlook, Hcol, Hreg by done. simpl in *.
      split_and!; [done | done | lia].
Qed.

Lemma agree_refl s : agree s s.
Proof. by repeat split. Qed.

Lemma agree_trans s1 s2 s3 : agree s1 s2 → agree s2 s3 → agree s1 s3.
Proof.
  intros (? & ? & ? & Hc) (? & ? & ? & Hc').
  split_and!; [congruence | congruence | congruence |].
  intros n. by rewrite Hc, Hc'.
Qed.

Lemma agree_load_spec s1 s2 spec :
  agree s1 s2 → agree (load_spec s1 spec) (load_spec s2 spec).
Proof.
  intros (Hr & He & Hn & Hc). unfold Plugins.load_spec. rewrite He.
  case_bool_decide; unfold Plugins.agree; simpl.
  - split_and!; try done. intros n. rewrite !collisions_add_error. by rewrite Hc.
  - split_and!; [by rewrite Hr | done | by rewrite Hn | done].
Qed.

Lemma agree_foldl (specs : list Plugins.PluginToolSpec) s1 s2 :
  agree s1 s2 → agree (foldl load_spec s1 specs) (foldl load_spec s2 specs).
Proof.
  revert s1 s2. induction specs as [| spec specs IH]; intros s1 s2 Hag; [done |].
  simpl. apply IH. by apply agree_load_spec.
Qed.

(** As far as tools go, a manifest is the loop over its declarations;
    one that does not parse declares nothing, and the error it leaves is
    not a collision. *)
Lemma agree_load_manifest s (manifest : Path) :
  agree (load_manifest s manifest)
        (foldl load_spec s
           match _parse_manifest manifest with
           | Ret parsed => Plugins.pm_tools _ _ parsed
           | Raise _ => []
           end).
Proof.
  unfold Plugins.load_manifest.
  destruct (_parse_manifest manifest) as [parsed | exc]; unfold Plugins.agree; simpl.
  - by repeat split.
  - split_and!; try done. intros n. rewrite collisions_add_error.
    rewrite decide_False; [lia |]. unfold Plugins.duplicate_error. simpl. discriminate.
Qed.

Lemma agree_load_manifests (manifests : list Path) s :
  agree (foldl load_manifest s manifests) (foldl load_spec s (declared_tools manifests)).
Proof.
  revert s. induction manifests as [| manifest manifests IH]; intros s; [apply agree_refl |].
  simpl. unfold Plugins.declared_tools. rewrite foldl_app.
  eapply agree_trans; [apply IH |]. apply agree_foldl, agree_load_manifest.
Qed.

(** C8.  Loading plugins into a registry built by [register]: a name
    the registry already held keeps its tool, and every plugin declaration
    of that name is reported as a collision; a free name goes to the first
    declaration that claims it, is registered once, and each later
    declaration of it is reported once and dropped. *)
Theorem load_plugins_collisions (registry : ToolRegistry W) (plugin_dirs : list Path) n :
  registry_wf registry →
  let out := load_plugins registry plugin_dirs in
  let same_name :=
    filter (λ spec, Plugins.namespaced_name spec = n)
           (declared_tools (_iter_manifest_files plugin_dirs)) in
  _tools out.1 !! n
  = match _tools registry !! n with
    | Some earlier => Some earlier
    | None => plugin_tool <$> head same_name
    end
  ∧ collisions n out.2
    = match _tools registry !! n with
      | Some _ => length same_name
      | None => pred (length same_name)
      end
  ∧ registrations n out.2
    = match _tools registry !! n with
      | Some _ => 0
      | None => min 1 (length same_name)
      end.
Proof.
  intros Hwf out same_name. unfold out, Plugins.load_plugins. simpl.
  set (s0 := Plugins.mkLoadState _ _ _ _ _).
  destruct (agree_load_manifests (_iter_manifest_files plugin_dirs) s0)
    as (Hreg & _ & Hnames & Hcol).
  destruct (load_specs_spec (declared_tools (_iter_manifest_files plugin_dirs)) s0 n)
    as (_ & Hlook & Hcol' & Hreg').
  { unfold Plugins.tracked, s0. simpl. by apply list_tool_names_dom. }
  fold same_name in Hlook, Hcol', Hreg'. simpl in Hlook, Hcol', Hreg'.
  unfold Plugins.registrations in *. rewrite Hreg, Hnames, Hcol.
  split_and!; [exact Hlook | exact Hcol' | exact Hreg'].
Qed.

(** The default of a plugin declaration: an entry that parses and has
    no [mutating] key is declared, and then registered, as not mutating. *)
Lemma parse_tool_default_not_mutating (manifest_path : Path) (plugin : string) (item : dict)
    (spec : Plugins.PluginToolSpec) :
  dict_get "mutating" item = None →
  Plugins.parse_tool manifest_path plugin (JObj item) = Ret spec →
  Plugins.mutating spec = false ∧ tool_mutating (plugin_tool spec) = false.
Proof.
  intros Hnone Hparse. unfold Plugins.parse_tool in Hparse. rewrite Hnone in Hparse.
  repeat (case_match; try discriminate Hparse);
    unfold outcome_bind in Hparse; repeat (case_match; try discriminate Hparse);
    by simplify_eq.
Qed.

End PluginProperties.

(** The default of an MCP tool: it is registered as mutating unless its
    annotations carry [readOnlyHint = True]. *)
Lemma mcp_tool_mutating_unless_read_only {W}
    (handler : Mcp.McpServerConfig → string → ToolHandler W)
    (server : Mcp.McpServerConfig) (raw_tool : Mcp.RawTool) (name : string) :
  tool_mutating (Mcp.mcp_tool handler server raw_tool name) = false
  ↔ ∃ a, Mcp.annotations raw_tool = Some a ∧ Mcp.readOnlyHint a = Some true.
Proof.
  unfold Mcp.mcp_tool, Mcp.read_only_of. simpl.
  destruct (Mcp.annotations raw_tool) as [[[[] |]] |]; simpl; split; try done.
  - intros _. by eexists.
  - by intros (a & Ha & Hhint); simplify_eq.
  - by intros (a & Ha & Hhint); simplify_eq.
  - by intros (a & Ha & Hhint).
Qed.

(** The same manifest found twice: one registration, one collision. *)
Lemma load_plugins_collisions_witness :
  let out := Demo.load (Demo.registry (Demo.ctx Demo.approve WORKSPACE_WRITE ON_REQUEST))
                       [Demo.echo_manifest_path; Demo.echo_manifest_path] in
  Plugins.registrations unit unit "echoplugin__echo_text" out.2 = 1
  ∧ Plugins.collisions unit unit "echoplugin__echo_text" out.2 = 1.
Proof.
  intros out.
  pose proof (load_plugins_collisions (host := Demo.platform) unit unit
                (λ _ _, Ret []) (λ _ _ _, Ret [])
                (λ _, [Demo.echo_manifest_path; Demo.echo_manifest_path])
                (λ _, Ret Demo.echo_manifest) Demo.echo_handler
                (Demo.registry (Demo.ctx Demo.approve WORKSPACE_WRITE ON_REQUEST)) []
                "echoplugin__echo_text") as Hthm.
  assert (Hwf : registry_wf (Demo.registry (Demo.ctx Demo.approve WORKSPACE_WRITE ON_REQUEST))).
  { repeat apply register_wf. apply ToolRegistry_new_wf. }
  destruct (Hthm Hwf) as (_ & Hcol & Hreg).
  split.
  - etrans; [exact Hreg |]. vm_compute. reflexivity.
  - etrans; [exact Hcol |]. vm_compute. reflexivity.
Defined.

(** C5 at a plugin tool that omits the flag: it is registered as not
    mutating; so in a read-only sandbox its process runs all the same, and
    a subagent inherits it. *)
Theorem plugin_tool_without_flag_not_mutating :
  let registry :=
    (Demo.load (Demo.registry (Demo.ctx Demo.reject READ_ONLY NEVER))
               [Demo.echo_manifest_path]).1 in
  let st0 : State Demo.World Demo.Display :=
    NanoCodeAgent_init registry "system prompt" [] [] [] in
  let out := execute (host := Demo.platform) "echoplugin__echo_text" "{}" st0 in
  tool_mutating <$> _tools registry !! "echoplugin__echo_text" = Some false
  ∧ out.1 = Ret "echo:hello"
  ∧ st_world out.2 = ["ran echo_text"]
  ∧ list_tool_names (_build_subagent_tools (host := Demo.platform) registry)
    = ["broken"; "echoplugin__echo_text"; "list_files"].
Proof. by vm_compute. Qed.

(** ** Text and names *)

Section TextProperties.
Implicit Types (s t : string) (p : ascii → bool) (c : ascii).

Lemma append_cons c s t : String c s +:+ t = String c (s +:+ t).
Proof. done. Qed.

Lemma append_nil_r s : s +:+ "" = s.
Proof. induction s as [| c s IH]; [done |]. by rewrite append_cons, IH. Qed.

Lemma append_assoc s t u : s +:+ (t +:+ u) = (s +:+ t) +:+ u.
Proof. induction s as [| c s IH]; [done |]. by rewrite !append_cons, IH. Qed.

Lemma rev_app_app s t : String.rev_app s t = String.rev s +:+ t.
Proof.
  unfold String.rev. revert t. induction s as [| c s IH]; intros t; [done |].
  cbn [String.rev_app]. rewrite (IH (String c "")), IH, <- append_assoc. done.
Qed.

Lemma rev_cons c s : String.rev (String c s) = String.rev s +:+ String c "".
Proof. unfold String.rev at 1. cbn [String.rev_app]. apply rev_app_app. Qed.

Lemma rev_append s t : String.rev (s +:+ t) = String.rev t +:+ String.rev s.
Proof.
  induction s as [| c s IH].
  - by rewrite append_nil_r.
  - rewrite append_cons, !rev_cons, IH. by rewrite append_assoc.
Qed.

Lemma rev_rev s : String.rev (String.rev s) = s.
Proof.
  induction s as [| c s IH]; [done |].
  rewrite rev_cons, rev_append, IH. done.
Qed.

Lemma rev_empty s : String.rev s = "" → s = "".
Proof. intros H. apply (f_equal String.rev) in H. by rewrite rev_rev in H. Qed.

Lemma all_chars_app p s t : all_chars p (s +:+ t) = all_chars p s && all_chars p t.
Proof.
  induction s as [| c s IH]; [done |].
  rewrite append_cons. simpl. by rewrite IH, andb_assoc.
Qed.

Lemma all_chars_rev p s : all_chars p (String.rev s) = all_chars p s.
Proof.
  induction s as [| c s IH]; [done |].
  rewrite rev_cons, all_chars_app, IH. simpl. rewrite andb_true_r. apply andb_comm.
Qed.

Lemma all_chars_impl p q s :
  (∀ c, p c = true → q c = true) → all_chars p s = true → all_chars q s = true.
Proof.
  intros Hpq. induction s as [| c s IH]; simpl; [done |].
  rewrite !andb_true_iff. intros [? ?]. split; [by apply Hpq | by apply IH].
Qed.

(** [lstrip] takes a run of [p] off the front and stops at the first
    other character. *)
Lemma lstrip_with_split p s :
  ∃ pre, s = pre +:+ Py.lstrip_with p s
         ∧ all_chars p pre = true
         ∧ ∀ c, first_char (Py.lstrip_with p s) = Some c → p c = false.
Proof.
  induction s as [| c s (pre & Hs & Hpre & Hfirst)]; simpl.
  - exists "". by split_and!.
  - destruct (p c) eqn:Hc.
    + exists (String c pre). rewrite append_cons, <- Hs. simpl. rewrite Hc. by split_and!.
    + exists "". split_and!; [done | done |]. intros c' [= <-]. done.
Qed.

Lemma lstrip_with_fixed p s :
  (∀ c, first_char s = Some c → p c = false) → Py.lstrip_with p s = s.
Proof. destruct s as [| c s]; simpl; [done |]. intros H. by rewrite (H c eq_refl). Qed.

Lemma first_char_app s t : s ≠ "" → first_char (s +:+ t) = first_char s.
Proof. by destruct s. Qed.

Lemma all_chars_lstrip p q s : all_chars q s = true → all_chars q (Py.lstrip_with p s) = true.
Proof.
  destruct (lstrip_with_split p s) as (pre & Hs & _). intros H.
  rewrite Hs, all_chars_app, andb_true_iff in H. apply H.
Qed.

Lemma all_chars_strip p q s : all_chars q s = true → all_chars q (Py.strip_with p s) = true.
Proof.
  intros H. unfold Py.strip_with, Py.rstrip_with.
  rewrite all_chars_rev. apply all_chars_lstrip. rewrite all_chars_rev.
  by apply all_chars_lstrip.
Qed.

(** What [strip] returns is stripped. *)
Lemma strip_with_stripped p s : stripped p (Py.strip_with p s).
Proof.
  unfold Py.strip_with, Py.rstrip_with.
  destruct (lstrip_with_split p s) as (_ & _ & _ & Hfirst).
  set (u := Py.lstrip_with p s) in *.
  destruct (lstrip_with_split p (String.rev u)) as (pre & Hu & _ & Hlast).
  set (r := Py.lstrip_with p (String.rev u)) in *.
  split.
  - intros c Hc. apply Hfirst.
    apply (f_equal String.rev) in Hu. rewrite rev_rev, rev_append in Hu.
    rewrite Hu, first_char_app; [done |]. intros Hr. by rewrite Hr in Hc.
  - intros c Hc. unfold last_char in Hc. rewrite rev_rev in Hc. by apply Hlast.
Qed.

(** [strip] leaves stripped text as it is. *)
Lemma strip_with_fixed p s : stripped p s → Py.strip_with p s = s.
Proof.
  intros [Hfirst Hlast]. unfold Py.strip_with, Py.rstrip_with.
  rewrite (lstrip_with_fixed p s Hfirst).
  rewrite (lstrip_with_fixed p (String.rev s)); [apply rev_rev |]. exact Hlast.
Qed.

Lemma strip_with_idemp p s : Py.strip_with p (Py.strip_with p s) = Py.strip_with p s.
Proof. apply strip_with_fixed, strip_with_stripped. Qed.

Lemma length_append s t : String.length (s +:+ t) = String.length s + String.length t.
Proof. induction s as [| c s IH]; [done |]. rewrite append_cons. simpl. by rewrite IH. Qed.

Lemma length_rev s : String.length (String.rev s) = String.length s.
Proof.
  induction s as [| c s IH]; [done |].
  rewrite rev_cons, length_append, IH. simpl. lia.
Qed.

Lemma append_inj_l s t u : s +:+ t = s +:+ u → t = u.
Proof. induction s as [| c s IH]; [done |]. rewrite !append_cons. intros [= H]. by apply IH. Qed.

(** [after] reads a prefix. *)
Lemma after_Some w s rest : Py.after w s = Some rest ↔ s = w +:+ rest.
Proof.
  revert s. induction w as [| a w IH]; intros s; simpl.
  - split; [by intros [= ->] | by intros ->].
  - destruct s as [| b s]; [by split |].
    destruct (Ascii.eqb_spec a b) as [<- | Hne].
    + rewrite IH. rewrite append_cons. split; [by intros -> | by intros [= ->]].
    + rewrite append_cons. split; [done | intros [= ? ?]; by subst].
Qed.

Lemma after_any_Some (chars : list string) s rest :
  Py.after_any chars s = Some rest → ∃ w, w ∈ chars ∧ s = w +:+ rest.
Proof.
  induction chars as [| w chars IH]; simpl; [done |].
  destruct (Py.after w s) as [rest0 |] eqn:Hw.
  - intros [= <-]. exists w. split; [apply list_elem_of_here | by apply after_Some].
  - intros H. destruct (IH H) as (w' & Hin & Hs). exists w'.
    split; [by apply list_elem_of_further | done].
Qed.

Lemma after_any_None (chars : list string) s :
  Py.after_any chars s = None ↔ ∀ w rest, w ∈ chars → s ≠ w +:+ rest.
Proof.
  induction chars as [| w chars IH]; simpl.
  - split; [| done]. intros _ w rest Hin. by apply elem_of_nil in Hin.
  - destruct (Py.after w s) as [rest0 |] eqn:Hw.
    + split; [done |]. intros H. exfalso. apply after_Some in Hw.
      by apply (H w rest0); [apply list_elem_of_here |].
    + rewrite IH. split.
      * intros H w' rest Hin. apply elem_of_cons in Hin as [-> | Hin]; [| by apply H].
        intros Hs. apply after_Some in Hs. congruence.
      * intros H w' rest Hin. apply H. by apply list_elem_of_further.
Qed.

(** Dropping characters from the front leaves a text that starts with
    none of them, when no character is the empty text and the fuel covers
    the text. *)
Lemma lstrip_chars_split (chars : list string) fuel s :
  Forall (λ w, w ≠ "") chars → String.length s ≤ fuel →
  ∃ pre, s = pre +:+ Py.lstrip_chars chars fuel s
         ∧ Py.after_any chars (Py.lstrip_chars chars fuel s) = None.
Proof.
  intros Hne. revert s. induction fuel as [| fuel IH]; intros s Hlen; simpl.
  - destruct s; [| simpl in Hlen; lia]. exists "". split; [done |].
    apply after_any_None. intros w rest Hin Hs.
    rewrite Forall_forall in Hne. apply (Hne w Hin). by destruct w.
  - destruct (Py.after_any chars s) as [rest |] eqn:Hs; [| by exists ""].
    apply after_any_Some in Hs as (w & Hin & ->).
    rewrite Forall_forall in Hne. pose proof (Hne w Hin) as Hw.
    destruct (IH rest) as (pre & Hrest & Hnone).
    { rewrite length_append in Hlen. destruct w; [done |]. simpl in Hlen. lia. }
    exists (w +:+ pre). split; [| done]. by rewrite <- append_assoc, <- Hrest.
Qed.

Lemma lstrip_chars_fixed (chars : list string) fuel s :
  Py.after_any chars s = None → Py.lstrip_chars chars fuel s = s.
Proof. intros H. destruct fuel; [done |]. simpl. by rewrite H. Qed.

Lemma whitespace_nonempty : Forall (λ w, w ≠ "") Py.whitespace.
Proof. apply Forall_forall. intros w Hin Hw. subst w. vm_compute in Hin.
  repeat (apply elem_of_cons in Hin as [Hin | Hin]; [discriminate Hin |]).
  by apply elem_of_nil in Hin. Qed.

Lemma whitespace_rev_nonempty : Forall (λ w, w ≠ "") (String.rev <$> Py.whitespace).
Proof.
  apply Forall_fmap. eapply Forall_impl; [apply whitespace_nonempty |].
  intros w Hw Hrev. simpl in Hrev. by apply rev_empty in Hrev.
Qed.

Lemma starts_with_space_after s :
  ¬ starts_with_space s ↔ Py.after_any Py.whitespace s = None.
Proof.
  rewrite after_any_None. unfold starts_with_space. split.
  - intros H w rest Hin Hs. apply H. by exists w, rest.
  - intros H (w & rest & Hin & Hs). by apply (H w rest).
Qed.

Lemma ends_with_space_after s :
  ¬ ends_with_space s ↔ Py.after_any (String.rev <$> Py.whitespace) (String.rev s) = None.
Proof.
  rewrite after_any_None. unfold ends_with_space. split.
  - intros H w rest Hin Hs. apply list_elem_of_fmap in Hin as (w0 & -> & Hin).
    apply H. exists w0, (String.rev rest). split; [done |].
    apply (f_equal String.rev) in Hs. by rewrite rev_rev, rev_append, rev_rev in Hs.
  - intros H (w & front & Hin & ->). apply (H (String.rev w) (String.rev front)).
    + apply list_elem_of_fmap. by exists w.
    + apply rev_append.
Qed.

(** What [lstrip] and [rstrip] return, and what they cut off. *)
Lemma lstrip_split s :
  ∃ pre, s = pre +:+ Py.lstrip s ∧ ¬ starts_with_space (Py.lstrip s).
Proof.
  destruct (lstrip_chars_split Py.whitespace (String.length s) s whitespace_nonempty)
    as (pre & Hs & Hnone); [done |].
  exists pre. split; [done |]. by apply starts_with_space_after.
Qed.

Lemma rstrip_split s :
  ∃ post, s = Py.rstrip s +:+ post ∧ ¬ ends_with_space (Py.rstrip s).
Proof.
  destruct (lstrip_chars_split (String.rev <$> Py.whitespace) (String.length s) (String.rev s)
              whitespace_rev_nonempty) as (pre & Hs & Hnone); [by rewrite length_rev |].
  exists (String.rev pre). unfold Py.rstrip. split.
  - apply (f_equal String.rev) in Hs. by rewrite rev_rev, rev_append in Hs.
  - apply ends_with_space_after. by rewrite rev_rev.
Qed.

Lemma lstrip_fixed s : ¬ starts_with_space s → Py.lstrip s = s.
Proof. intros H. apply lstrip_chars_fixed. by apply starts_with_space_after. Qed.

Lemma rstrip_fixed s : ¬ ends_with_space s → Py.rstrip s = s.
Proof.
  intros H. unfold Py.rstrip. rewrite lstrip_chars_fixed; [apply rev_rev |].
  by apply ends_with_space_after.
Qed.

(** What [strip] returns has no white space at either end. *)
Lemma strip_trimmed s : trimmed (Py.strip s).
Proof.
  unfold Py.strip. destruct (lstrip_split s) as (_ & _ & Hstart).
  set (u := Py.lstrip s) in *.
  destruct (rstrip_split u) as (post & Hu & Hend). split; [| done].
  intros (w & rest & Hin & Hr). apply Hstart. exists w, (rest +:+ post). split; [done |].
  rewrite Hu, Hr. by rewrite append_assoc.
Qed.

(** [strip] leaves such a text as it is. *)
Lemma strip_fixed s : trimmed s → Py.strip s = s.
Proof.
  intros [Hstart Hend]. unfold Py.strip. rewrite (lstrip_fixed s Hstart).
  by apply rstrip_fixed.
Qed.

Lemma strip_idemp s : Py.strip (Py.strip s) = Py.strip s.
Proof. apply strip_fixed, strip_trimmed. Qed.

Lemma trimmed_strip s : Py.strip s = s → trimmed s.
Proof. intros <-. apply strip_trimmed. Qed.

(** A text whose bytes are all outside the bytes of white space has no
    white space at either end. *)
Lemma whitespace_bytes w :
  w ∈ Py.whitespace → ∃ c w', w = String c w' ∧ all_chars space_byte w = true.
Proof.
  intros Hin. vm_compute in Hin.
  repeat (apply elem_of_cons in Hin as [-> | Hin];
          [eexists _, _; split; [reflexivity | vm_compute; reflexivity] |]).
  by apply elem_of_nil in Hin.
Qed.

Lemma no_space_bytes_trimmed s :
  all_chars (λ c, negb (space_byte c)) s = true → trimmed s.
Proof.
  intros Hs. split.
  - intros (w & rest & Hin & ->). apply whitespace_bytes in Hin as (c & w' & -> & Hw).
    rewrite append_cons in Hs. simpl in Hs, Hw.
    apply andb_true_iff in Hs as [Hs _]. apply andb_true_iff in Hw as [Hw _].
    by rewrite Hw in Hs.
  - intros (w & front & Hin & ->). apply whitespace_bytes in Hin as (c & w' & -> & Hw).
    rewrite all_chars_app in Hs. apply andb_true_iff in Hs as [_ Hs].
    simpl in Hs, Hw.
    apply andb_true_iff in Hs as [Hs _]. apply andb_true_iff in Hw as [Hw _].
    by rewrite Hw in Hs.
Qed.

Lemma name_char_no_space c : is_name_char c = true → negb (space_byte c) = true.
Proof. destruct c as [[] [] [] [] [] [] [] []]; by vm_compute. Qed.

Lemma name_chars_trimmed n : all_chars is_name_char n = true → trimmed n.
Proof.
  intros H. apply no_space_bytes_trimmed. revert H. apply all_chars_impl.
  apply name_char_no_space.
Qed.

(** Counting and cutting characters. *)
Lemma len_append s t : Py.len (s +:+ t) = Py.len s + Py.len t.
Proof.
  induction s as [| c s IH]; [done |]. rewrite append_cons. simpl.
  destruct (Py.is_continuation c); rewrite IH; lia.
Qed.

Lemma len_take (n : nat) s : Py.len (Py.take n s) ≤ n.
Proof.
  revert n. induction s as [| c s IH]; intros n; simpl; [lia |].
  destruct (Py.is_continuation c) eqn:Hc; simpl.
  - rewrite Hc. apply IH.
  - destruct n as [| n]; simpl; [lia |]. rewrite Hc. specialize (IH n). lia.
Qed.

Lemma len_take_long (n : nat) s : n ≤ Py.len s → Py.len (Py.take n s) = n.
Proof.
  revert n. induction s as [| c s IH]; intros n; simpl; [lia |].
  destruct (Py.is_continuation c) eqn:Hc; simpl.
  - rewrite Hc. apply IH.
  - destruct n as [| n]; simpl; [done |]. rewrite Hc. intros Hn. rewrite IH; lia.
Qed.

Lemma take_all (n : nat) s : Py.len s ≤ n → Py.take n s = s.
Proof.
  revert n. induction s as [| c s IH]; intros n; simpl; [done |].
  destruct (Py.is_continuation c).
  - intros H. by rewrite IH.
  - destruct n as [| n]; [lia |]. intros H. rewrite IH; [done | lia].
Qed.

Lemma len_ascii s : Py.isascii s = true → Py.len s = String.length s.
Proof.
  induction s as [| c s IH]; simpl; [done |].
  rewrite andb_true_iff. intros [Hc Hs].
  assert (Py.is_continuation c = false) as ->.
  { unfold Py.is_continuation. apply Nat.ltb_lt in Hc.
    apply andb_false_iff. left. apply Nat.leb_gt. lia. }
  by rewrite IH.
Qed.

End TextProperties.

(** ** Names of external tools *)

Section NameProperties.
Implicit Types (s v fallback : string) (c : ascii).

Lemma word_char_lower c : is_word_char c = true → is_name_char (Py.lower_char c) = true.
Proof. destruct c as [[] [] [] [] [] [] [] []]; by vm_compute. Qed.

Lemma name_char_word c : is_name_char c = true → is_word_char c = true.
Proof. destruct c as [[] [] [] [] [] [] [] []]; by vm_compute. Qed.

Lemma name_char_lower c : is_name_char c = true → Py.lower_char c = c.
Proof. destruct c as [[] [] [] [] [] [] [] []]; by vm_compute. Qed.

Lemma lower_char_underscore c : Ascii.eqb "_" (Py.lower_char c) = Ascii.eqb "_" c.
Proof. destruct c as [[] [] [] [] [] [] [] []]; by vm_compute. Qed.

Lemma sub_non_word_chars (in_run : bool) v :
  all_chars is_word_char (sub_non_word in_run v) = true.
Proof.
  revert in_run. induction v as [| c v IH]; intros in_run; simpl; [done |].
  destruct (is_word_char c) eqn:Hc; simpl.
  - by rewrite Hc, IH.
  - destruct in_run; simpl; by rewrite IH.
Qed.

Lemma sub_non_word_fixed (in_run : bool) s :
  all_chars is_word_char s = true → sub_non_word in_run s = s.
Proof.
  revert in_run. induction s as [| c s IH]; intros in_run; simpl; [done |].
  rewrite andb_true_iff. intros [-> Hs]. by rewrite IH.
Qed.

Lemma lower_app s t : Py.lower (s +:+ t) = Py.lower s +:+ Py.lower t.
Proof. induction s as [| c s IH]; [done |]. rewrite append_cons. simpl. by rewrite IH. Qed.

Lemma lower_rev s : Py.lower (String.rev s) = String.rev (Py.lower s).
Proof.
  induction s as [| c s IH]; [done |].
  simpl. rewrite !rev_cons, lower_app, IH. done.
Qed.

Lemma lower_chars s :
  all_chars is_word_char s = true → all_chars is_name_char (Py.lower s) = true.
Proof.
  induction s as [| c s IH]; simpl; [done |].
  rewrite !andb_true_iff. intros [Hc Hs]. split; [by apply word_char_lower | by apply IH].
Qed.

Lemma lower_fixed s : all_chars is_name_char s = true → Py.lower s = s.
Proof.
  induction s as [| c s IH]; simpl; [done |].
  rewrite andb_true_iff. intros [Hc Hs]. by rewrite name_char_lower, IH.
Qed.

Lemma lower_first_char s c :
  first_char (Py.lower s) = Some c → ∃ c0, first_char s = Some c0 ∧ c = Py.lower_char c0.
Proof. destruct s as [| c0 s]; simpl; [done |]. intros [= <-]. by exists c0. Qed.

Lemma lower_stripped s :
  stripped (Ascii.eqb "_") s → stripped (Ascii.eqb "_") (Py.lower s).
Proof.
  intros [Hfirst Hlast]. split.
  - intros c Hc. apply lower_first_char in Hc as (c0 & Hc0 & ->).
    rewrite lower_char_underscore. by apply Hfirst.
  - intros c Hc. unfold last_char in Hc. rewrite <- lower_rev in Hc.
    apply lower_first_char in Hc as (c0 & Hc0 & ->).
    rewrite lower_char_underscore. by apply Hlast.
Qed.

(** The name a sanitizer returns is sanitized, when its fallback is. *)
Lemma sanitize_with_sanitized fallback v :
  sanitized fallback → sanitized (sanitize_with fallback v).
Proof.
  intros Hfb. unfold sanitize_with.
  set (t := Py.lower (Py.strip_with (Ascii.eqb "_") (sub_non_word false v))).
  destruct t as [| c t'] eqn:Ht; [exact Hfb |].
  simpl. rewrite <- Ht. split_and!.
  - by rewrite Ht.
  - apply lower_chars, all_chars_strip, sub_non_word_chars.
  - apply lower_stripped, strip_with_stripped.
Qed.

(** A sanitizer returns a sanitized name as it is. *)
Lemma sanitize_with_fixed fallback s : sanitized s → sanitize_with fallback s = s.
Proof.
  intros (Hne & Hchars & Hstrip). unfold sanitize_with.
  rewrite sub_non_word_fixed by (eapply all_chars_impl; [apply name_char_word | done]).
  rewrite strip_with_fixed by done. rewrite lower_fixed by done.
  by destruct s.
Qed.

Lemma sanitized_item : sanitized "item".
Proof. split_and!; [done | done | split; intros c [= <-]; done]. Qed.

Lemma sanitized_tool : sanitized "tool".
Proof. split_and!; [done | done | split; intros c [= <-]; done]. Qed.

(** Whatever the name of a plugin, of a server or of a tool, the
    sanitizers of [plugins.py] and [mcp.py] return a name that is not
    empty, made of lower-case letters, digits and underscores only, and
    that neither starts nor ends with an underscore; sanitizing twice is
    sanitizing once. *)
Theorem sanitize_name_sanitized v :
  sanitized (Plugins._sanitize_name v) ∧ sanitized (Mcp._sanitize_name v)
  ∧ Plugins._sanitize_name (Plugins._sanitize_name v) = Plugins._sanitize_name v
  ∧ Mcp._sanitize_name (Mcp._sanitize_name v) = Mcp._sanitize_name v.
Proof.
  split_and!.
  - apply sanitize_with_sanitized, sanitized_item.
  - apply sanitize_with_sanitized, sanitized_tool.
  - apply sanitize_with_fixed, sanitize_with_sanitized, sanitized_item.
  - apply sanitize_with_fixed, sanitize_with_sanitized, sanitized_tool.
Qed.

(** A name that is already sanitized is kept as it is by both
    sanitizers. *)
Theorem sanitize_name_keeps_sanitized s :
  sanitized s → Plugins._sanitize_name s = s ∧ Mcp._sanitize_name s = s.
Proof. intros Hs. split; by apply sanitize_with_fixed. Qed.

End NameProperties.

Lemma sanitize_name_keeps_sanitized_witness :
  Plugins._sanitize_name "echo_text" = "echo_text"
  ∧ Mcp._sanitize_name "echo_text" = "echo_text".
Proof.
  apply (sanitize_name_keeps_sanitized "echo_text").
  split_and!; [done | done | split; intros c [= <-]; done].
Defined.

(** ** Listing the registry *)

Section ListingProperties.
Context {host : Platform} {W U : Type}.
Implicit Types (reg : ToolRegistry W) (st : State W U).

Lemma sorted_names_sorted (tools : gmap string (Tool W)) :
  StronglySorted (λ a b, String.leb a b = true) (sorted_names tools).
Proof.
  unfold sorted_names.
  assert (Hsorted : StronglySorted (λ a b : string, Is_true (String.leb a b))
                      (merge_sort (λ a b : string, String.leb a b)
                                  (map_to_list tools).*1)).
  2:{ induction Hsorted as [| a l Hl IH Hall]; constructor; [done |].
      eapply Forall_impl; [exact Hall |]. intros b Hab. by apply Is_true_true. }
  apply (StronglySorted_merge_sort (λ a b : string, String.leb a b)).
Qed.

Lemma sorted_names_NoDup (tools : gmap string (Tool W)) : NoDup (sorted_names tools).
Proof.
  unfold sorted_names. rewrite merge_sort_Permutation. apply NoDup_fst_map_to_list.
Qed.

Lemma list_tool_names_sorted_names reg :
  registry_wf reg → list_tool_names reg = sorted_names (_tools reg).
Proof.
  intros Hwf. unfold list_tool_names, list_tools.
  assert (Hkeys : ∀ k, k ∈ sorted_names (_tools reg) → is_Some (_tools reg !! k)).
  { intros k. unfold sorted_names. rewrite merge_sort_Permutation.
    intros Hk. apply list_elem_of_fmap in Hk as ([k' t] & -> & Hin).
    apply elem_of_map_to_list in Hin. by exists t. }
  induction (sorted_names (_tools reg)) as [| k ks IH]; [done |].
  simpl. destruct (Hkeys k) as [t Ht]; [apply list_elem_of_here |].
  rewrite Ht. simpl. rewrite (Hwf k t Ht). f_equal. apply IH.
  intros k' Hk'. apply Hkeys. by apply list_elem_of_further.
Qed.

(** In a registry built by [register], the listing of the names is in
    ascending order, names no name twice, and names exactly the keys under
    which a tool is registered; [list_tools] and [as_openai_tools] follow
    that order. *)
Theorem list_tool_names_sorted reg :
  registry_wf reg →
  StronglySorted (λ a b, String.leb a b = true) (list_tool_names reg)
  ∧ NoDup (list_tool_names reg)
  ∧ (∀ name, name ∈ list_tool_names reg ↔ is_Some (_tools reg !! name))
  ∧ (λ schema : ToolSchema, schema.1.1) <$> as_openai_tools reg = list_tool_names reg
  ∧ length (list_tools reg) = size (_tools reg).
Proof.
  intros Hwf. rewrite (list_tool_names_sorted_names reg Hwf). split_and!.
  - apply sorted_names_sorted.
  - apply sorted_names_NoDup.
  - intros name. unfold sorted_names. rewrite merge_sort_Permutation.
    rewrite list_elem_of_fmap. split.
    + intros ([k t] & -> & Hin). apply elem_of_map_to_list in Hin. by exists t.
    + intros [t Ht]. exists (name, t). split; [done |]. by apply elem_of_map_to_list.
  - rewrite <- (list_tool_names_sorted_names reg Hwf).
    unfold as_openai_tools, list_tool_names. rewrite <- list_fmap_compose. done.
  - rewrite <- (length_fmap tool_name). change (tool_name <$> list_tools reg)
      with (list_tool_names reg). rewrite (list_tool_names_sorted_names reg Hwf).
    unfold sorted_names. rewrite merge_sort_Permutation, length_fmap.
    apply length_map_to_list.
Qed.

(** A tool that is not mutating is not gated: under every sandbox mode
    and every approval policy, a call with arguments that parse to an
    object is the handler call; the approval callback is not called, the
    handler is called once, and a fault of the handler comes back as
    text. *)
Theorem execute_read_only_tool_not_gated name args_json tool arguments st :
  _tools (st_tools st) !! name = Some tool →
  tool_mutating tool = false →
  json_loads (Py.str_or args_json "{}") = Parsed (JObj arguments) →
  ∃ text r p w,
    tool_handler tool (context (st_tools st)) arguments (st_world st) = (r, p, w)
    ∧ execute name args_json st
      = (Ret text,
         with_plan p (with_world w (with_log (st_log st ++ [EvHandler name arguments r]) st)))
    ∧ text = match r with
             | Ret t => t
             | Raise exc => "Tool execution failed: " +:+ exn_str exc
             end.
Proof.
  intros Hlook Hmut Hargs.
  rewrite (execute_registered name args_json tool arguments st Hlook Hargs), Hmut.
  destruct (try_handler_spec (U := U) name tool arguments st) as (text & p & w & r & Hh & Hth & Ht).
  by exists text, r, p, w.
Qed.

End ListingProperties.

Lemma list_tool_names_sorted_witness :
  list_tool_names (Demo.registry (Demo.ctx Demo.approve WORKSPACE_WRITE ON_REQUEST))
  = ["broken"; "list_files"; "update_plan"; "write_file"]
  ∧ NoDup (list_tool_names (Demo.registry (Demo.ctx Demo.approve WORKSPACE_WRITE ON_REQUEST))).
Proof.
  split; [by vm_compute |].
  apply (list_tool_names_sorted
           (Demo.registry (Demo.ctx Demo.approve WORKSPACE_WRITE ON_REQUEST))).
  repeat apply register_wf. apply ToolRegistry_new_wf.
Defined.

Lemma execute_read_only_tool_not_gated_witness :
  ∃ st', execute (host := Demo.platform) "list_files" "{}"
           (Demo.start (Demo.ctx Demo.reject READ_ONLY NEVER))
         = (Ret "(empty directory)", st')
         ∧ approval_calls (st_log st') = [].
Proof.
  destruct (execute_read_only_tool_not_gated (host := Demo.platform) (U := Demo.Display)
              "list_files" "{}" Demo.list_files_tool []
              (Demo.start (Demo.ctx Demo.reject READ_ONLY NEVER)))
    as (text & r & p & w & Hh & Hex & Ht); [done | done | done |].
  vm_compute in Hh. simplify_eq. eexists. split; [exact Hex | done].
Defined.

(** ** The calls of a whole run *)

Section RunProperties.
Context {host : Platform} {W U : Type}.
Implicit Types (st : State W U) (cb : AgentCallbacks U) (model : ChatModel W).
Implicit Types (reg : ToolRegistry W) (events : list Event).

Local Abbreviation M := (M W U).

Lemma gate_respected_nil reg : gate_respected reg [].
Proof.
  split.
  - intros pre ? ? ? ? Heq. by destruct pre.
  - intros ? ? Hin. by apply elem_of_nil in Hin.
Qed.

Lemma gate_respected_complete reg ms : gate_respected reg [EvComplete ms].
Proof.
  split.
  - intros [| ? [| ? ?]] ? ? ? ? Heq; simpl in Heq; simplify_eq.
  - intros ? ? Hin. apply list_elem_of_singleton in Hin. discriminate Hin.
Qed.

Lemma gate_respected_app reg events1 events2 :
  gate_respected reg events1 → gate_respected reg events2 →
  gate_respected reg (events1 ++ events2).
Proof.
  intros [Hh1 Ha1] [Hh2 Ha2]. split.
  - intros pre name arguments result post Heq.
    apply app_eq_inv in Heq as [(k & -> & Hk) | (k & -> & Hk)].
    + destruct k as [| e k]; simpl in Hk.
      * destruct (Hh2 [] name arguments result post) as (tool & Hlook & Hgate); [done |].
        exists tool. split; [done |]. intros Hmut.
        destruct (Hgate Hmut) as (? & ? & Hreq). split_and!; [done | done |].
        intros Hpol. destruct (Hreq Hpol) as (pre' & Hpre'). by destruct pre'.
      * simplify_eq. by apply (Hh1 pre name arguments result k).
    + destruct (Hh2 k name arguments result post) as (tool & Hlook & Hgate); [done |].
      exists tool. split; [done |]. intros Hmut.
      destruct (Hgate Hmut) as (? & ? & Hreq). split_and!; [done | done |].
      intros Hpol. destruct (Hreq Hpol) as (pre' & ->).
      exists (events1 ++ pre'). by rewrite <- app_assoc.
  - intros action preview Hin. apply elem_of_app in Hin as [Hin | Hin]; eauto.
Qed.

Lemma gate_respected_same_setup st st' events :
  same_setup st st' → gate_respected (st_tools st') events → gate_respected (st_tools st) events.
Proof.
  intros (Htools & _ & Hmode & Hpolicy & _). unfold gate_respected.
  by rewrite Htools, Hmode, Hpolicy.
Qed.

Lemma leaves_refl st : leaves st st [].
Proof.
  split_and!; [by rewrite app_nil_r | apply same_setup_refl | apply gate_respected_nil].
Qed.

Lemma leaves_trans st1 st2 st3 events1 events2 :
  leaves st1 st2 events1 → leaves st2 st3 events2 → leaves st1 st3 (events1 ++ events2).
Proof.
  intros (Hlog1 & Hs1 & Hg1) (Hlog2 & Hs2 & Hg2). split_and!.
  - by rewrite Hlog2, Hlog1, <- app_assoc.
  - by eapply same_setup_trans.
  - apply gate_respected_app; [done |]. by eapply gate_respected_same_setup.
Qed.

Lemma within_steps_refl n st : within_steps n st st.
Proof. exists []. split; [apply leaves_refl | simpl; lia]. Qed.

Lemma within_steps_trans n m st1 st2 st3 :
  within_steps n st1 st2 → within_steps m st2 st3 → within_steps (n + m) st1 st3.
Proof.
  intros (events1 & Hl1 & Hn) (events2 & Hl2 & Hm). exists (events1 ++ events2).
  split; [by eapply leaves_trans |]. rewrite model_requests_app, length_app. lia.
Qed.

Lemma within_steps_mono n m st st' : n ≤ m → within_steps n st st' → within_steps m st st'.
Proof. intros Hnm (events & Hl & Hn). exists events. split; [done | lia]. Qed.

(** Computations compose: what each part respects, the whole respects. *)
Lemma respects_ret {A} (I : State W U → State W U → Prop) (a : A) :
  (∀ st, I st st) → respects I (mret a : M A).
Proof. intros Hrefl st r st' Heq. unfold mret, M_ret in Heq. by simplify_eq. Qed.

Lemma respects_bind {A B} (I1 I2 I : State W U → State W U → Prop) (m : M A) (k : A → M B) :
  (∀ st1 st2, I1 st1 st2 → I st1 st2) →
  (∀ st1 st2 st3, I1 st1 st2 → I2 st2 st3 → I st1 st3) →
  respects I1 m → (∀ a, respects I2 (k a)) → respects I (m ≫= k).
Proof.
  intros Hstop Hseq Hm Hk st r st' Hrun.
  apply bind_inv in Hrun as [(a & st1 & Hm1 & Hk1) | (e & Hm1 & _)].
  - eapply Hseq; [by eapply Hm | by eapply Hk].
  - eapply Hstop. by eapply Hm.
Qed.

Lemma respects_within {A B} n m (f : M A) (k : A → M B) :
  respects (within_steps n) f → (∀ a, respects (within_steps m) (k a)) →
  respects (within_steps (n + m)) (f ≫= k).
Proof.
  apply respects_bind.
  - intros st1 st2. apply within_steps_mono. lia.
  - intros st1 st2 st3. apply within_steps_trans.
Qed.

Lemma within_steps_quiet st st' :
  st_log st' = st_log st → same_setup st st' → within_steps 0 st st'.
Proof.
  intros Hlog Hs. exists []. split; [| simpl; lia].
  split_and!; [by rewrite app_nil_r | done | apply gate_respected_nil].
Qed.

Lemma fire_within {A} (fn : option (A → U → outcome unit * U)) (a : A) :
  respects (within_steps 0) (_fire fn a : M unit).
Proof.
  intros st r st' Hf. apply fire_frame in Hf as [u ->].
  apply within_steps_quiet; [done | by repeat split].
Qed.

Lemma append_message_within (m : Message) :
  respects (within_steps 0) (append_message m : M unit).
Proof.
  intros st r st' Heq. unfold append_message, modify in Heq. simplify_eq.
  apply within_steps_quiet; [done | by repeat split].
Qed.

Lemma call_model_within model : respects (within_steps 1) (call_model model : M Assistant).
Proof.
  intros st r st' Hm. exists [EvComplete (st_messages st)].
  pose proof (call_model_frame _ _ _ _ Hm) as (_ & Hs & _).
  unfold call_model in Hm. destruct (complete model _ _ _) as [r0 w]. simplify_eq.
  split; [| simpl; lia]. split_and!; [done | done | apply gate_respected_complete].
Qed.

Lemma gate_respected_handler reg name arguments result tool :
  _tools reg !! name = Some tool →
  (tool_mutating tool = true →
   sandbox_mode (context reg) ≠ READ_ONLY ∧ approval_policy (context reg) ≠ NEVER
   ∧ approval_policy (context reg) ≠ ON_REQUEST) →
  gate_respected reg [EvHandler name arguments result].
Proof.
  intros Hlook Hgate. split.
  - intros [| ? [| ? ?]] ? ? ? ? Heq; simpl in Heq; simplify_eq. exists tool. split; [done |].
    intros Hmut. destruct (Hgate Hmut) as (? & ? & ?). split_and!; [done | done | by intros ?].
  - intros ? ? Hin. apply list_elem_of_singleton in Hin. discriminate Hin.
Qed.

Lemma gate_respected_approval reg name preview tool :
  _tools reg !! name = Some tool → tool_mutating tool = true →
  sandbox_mode (context reg) ≠ READ_ONLY → approval_policy (context reg) = ON_REQUEST →
  gate_respected reg [EvApproval name preview].
Proof.
  intros Hlook Hmut Hmode Hpolicy. split.
  - intros [| ? [| ? ?]] ? ? ? ? Heq; simpl in Heq; simplify_eq.
  - intros ? ? Hin. apply list_elem_of_singleton in Hin. simplify_eq. by exists tool.
Qed.

Lemma gate_respected_approved reg name arguments result tool :
  _tools reg !! name = Some tool → tool_mutating tool = true →
  sandbox_mode (context reg) ≠ READ_ONLY → approval_policy (context reg) = ON_REQUEST →
  gate_respected reg [EvApproval name (approval_preview arguments);
                      EvHandler name arguments result].
Proof.
  intros Hlook Hmut Hmode Hpolicy. split.
  - intros [| ? [| ? [| ? ?]]] ? ? ? ? Heq; simpl in Heq; simplify_eq. exists tool. split; [done |].
    intros _. split_and!; [done | by rewrite Hpolicy |]. intros _. by exists [].
  - intros ? ? Hin. apply elem_of_cons in Hin as [Hin | Hin]; [simplify_eq; by exists tool |].
    apply list_elem_of_singleton in Hin. discriminate Hin.
Qed.

(** The events one tool call leaves respect the gate. *)
Lemma execute_within name args_json : respects (within_steps 0) (execute name args_json : M string).
Proof.
  intros st r st' Hex. pose proof (execute_frame _ _ _ _ _ Hex) as (_ & _ & Hs & _).
  assert (Hnone : st' = st → within_steps 0 st st') by (intros ->; apply within_steps_refl).
  assert (Hsome : ∀ events,
            st_log st' = st_log st ++ events → model_requests events = [] →
            gate_respected (st_tools st) events → within_steps 0 st st').
  { intros events Hlog Hreq Hgate. exists events. by rewrite Hreq. }
  destruct (execute_cases name args_json st)
    as [Hlook | [(tool & msg & Hlook & Hargs) | [(tool & fault & Hlook & Hargs)
        | [(tool & value & Hlook & Hargs & Hdict) | (tool & arguments & Hlook & Hargs)]]]].
  { rewrite (execute_unknown _ _ _ Hlook) in Hex. apply Hnone. by simplify_eq. }
  { rewrite (execute_invalid _ _ _ _ _ Hlook Hargs) in Hex. apply Hnone. by simplify_eq. }
  { rewrite (execute_loads_fault _ _ _ _ _ Hlook Hargs) in Hex. apply Hnone.
    by simplify_eq. }
  { rewrite (execute_not_object _ _ _ _ _ Hlook Hargs Hdict) in Hex. apply Hnone.
    by simplify_eq. }
  rewrite (execute_registered name args_json tool arguments st Hlook Hargs) in Hex.
  destruct (tool_mutating tool) eqn:Hmut.
  2:{ destruct (try_handler_spec name tool arguments st) as (text & p & w & r1 & _ & Hth & _).
      rewrite Hth in Hex. simplify_eq.
      apply (Hsome [EvHandler name arguments r1]); [done | done |].
      eapply gate_respected_handler; [done |]. by rewrite Hmut. }
  pose proof (gate_spec name arguments st) as Hg. simpl in Hg.
  case_bool_decide as Hmode; [rewrite Hg in Hex; apply Hnone; by simplify_eq |].
  case_bool_decide as Hnever; [rewrite Hg in Hex; apply Hnone; by simplify_eq |].
  case_bool_decide as Hpolicy.
  - destruct (ask_approval (context (st_tools st)) name (approval_preview arguments)
                (st_world st)) as [[[] | e] w] eqn:Hans; rewrite Hg in Hex.
    + match type of Hex with try_handler _ _ _ ?st1 = _ =>
        destruct (try_handler_spec name tool arguments st1) as (text & p & w1 & r1 & _ & Hth & _)
      end.
      rewrite Hth in Hex. simplify_eq.
      apply (Hsome [EvApproval name (approval_preview arguments);
                    EvHandler name arguments r1]); [| done |].
      * simpl. by rewrite <- app_assoc.
      * by eapply gate_respected_approved.
    + simplify_eq. apply (Hsome [EvApproval name (approval_preview arguments)]);
        [done | done | by eapply gate_respected_approval].
    + simplify_eq. apply (Hsome [EvApproval name (approval_preview arguments)]);
        [done | done | by eapply gate_respected_approval].
  - rewrite Hg in Hex.
    destruct (try_handler_spec name tool arguments st) as (text & p & w & r1 & _ & Hth & _).
    rewrite Hth in Hex. simplify_eq.
    apply (Hsome [EvHandler name arguments r1]); [done | done |].
    eapply gate_respected_handler; [done |]. by intros _.
Qed.

(** The loop over the tool calls asks nothing of the model. *)
Lemma run_tool_calls_within cb (calls : list ToolCall) :
  respects (within_steps 0) (run_tool_calls cb calls : M unit).
Proof.
  induction calls as [| call calls IH]; simpl.
  - apply respects_ret, within_steps_refl.
  - apply (respects_within 0 0); [apply fire_within |]. intros _.
    apply (respects_within 0 0); [apply execute_within |]. intros result.
    apply (respects_within 0 0); [apply fire_within |]. intros _.
    apply (respects_within 0 0); [apply append_message_within |]. intros _. exact IH.
Qed.

(** [n] turns of the loop ask the model at most [n] times. *)
Lemma run_steps_within model cb limit n :
  respects (within_steps n) (run_steps model cb limit n : M string).
Proof.
  induction n as [| n IH]; simpl.
  - intros st r st' Heq. unfold raise in Heq. simplify_eq. apply within_steps_refl.
  - apply (respects_within 0 (S n)); [apply fire_within |]. intros _.
    apply (respects_within 1 n); [apply call_model_within |]. intros assistant.
    apply (respects_within 0 n); [apply fire_within |]. intros _.
    apply (respects_within 0 n).
    { destruct (kept_reasoning assistant); [apply fire_within |].
      apply respects_ret, within_steps_refl. }
    intros _. apply (respects_within 0 n); [apply append_message_within |]. intros _.
    destruct (a_tool_calls assistant) as [| call calls].
    + intros st r st' Heq. unfold mret, M_ret in Heq. simplify_eq.
      apply (within_steps_mono 0); [lia | apply within_steps_refl].
    + apply (respects_within 0 n); [apply run_tool_calls_within |]. intros _. exact IH.
Qed.

Lemma gate_respected_handler_in reg events name arguments result :
  gate_respected reg events → EvHandler name arguments result ∈ events →
  ∃ tool, _tools reg !! name = Some tool
          ∧ (tool_mutating tool = true →
             sandbox_mode (context reg) ≠ READ_ONLY ∧ approval_policy (context reg) ≠ NEVER).
Proof.
  intros [Hh _] Hin. apply list_elem_of_split in Hin as (pre & post & ->).
  destruct (Hh pre name arguments result post eq_refl) as (tool & Hlook & Hgate).
  exists tool. split; [done |]. intros Hmut. destruct (Hgate Hmut) as (? & ? & _). done.
Qed.

(** Whatever the model asks for and whatever the hooks do, the calls a
    whole run makes respect the gate: every handler called is that of a
    registered tool, a mutating tool runs only outside a read-only sandbox
    and under a policy other than [never], and under [on-request] only
    right after the approval callback was asked about this tool and these
    arguments; the callback is asked about mutating tools only.  The tools
    and the settings of the context are the same after the run. *)
Theorem run_respects_gate model config cb user_input st :
  let st' := (run model config cb user_input st).2 in
  ∃ events,
    st_log st' = st_log st ++ events
    ∧ gate_respected (st_tools st) events
    ∧ same_setup st st'.
Proof.
  intros st'. destruct (run model config cb user_input st) as [r st1] eqn:Hrun.
  unfold st'. simpl. clear st'.
  assert (Hw : within_steps (0 + Z.to_nat (max_steps config)) st st1).
  { revert Hrun. apply (respects_within 0 _); [apply append_message_within |].
    intros _. apply run_steps_within. }
  destruct Hw as (events & (Hlog & Hs & Hgate) & _). by exists events.
Qed.

(** A run asks the model at most [max_steps] times, whatever the model
    answers and however the run ends; with a budget of zero or less it asks
    nothing, calls nothing, appends the user message and raises the
    step-budget fault. *)
Theorem run_requests_within_budget model config cb user_input st :
  let out := run model config cb user_input st in
  (∃ requests,
     model_requests (st_log out.2) = model_requests (st_log st) ++ requests
     ∧ (Z.of_nat (length requests) ≤ Z.max 0 (max_steps config))%Z)
  ∧ ((max_steps config ≤ 0)%Z →
     out = (Raise (StepBudgetExceeded (max_steps config)),
            with_messages (st_messages st ++ [UserMessage user_input]) st)).
Proof.
  intros out. split.
  - unfold out. destruct (run model config cb user_input st) as [r st1] eqn:Hrun. simpl.
    assert (Hw : within_steps (0 + Z.to_nat (max_steps config)) st st1).
    { revert Hrun. apply (respects_within 0 _); [apply append_message_within |].
      intros _. apply run_steps_within. }
    destruct Hw as (events & (Hlog & _ & _) & Hn). exists (model_requests events).
    split; [by rewrite Hlog, model_requests_app | lia].
  - intros Hle. unfold out, run. rewrite bind_run.
    unfold append_message at 1, modify at 1.
    replace (Z.to_nat (max_steps config)) with 0 by lia. done.
Qed.

(** When the steps return a text, the conversation ends with an
    assistant message that carries no tool call, the text is the content of
    that message, and the last request to the model was the conversation
    before that message. *)
Lemma run_steps_returns model cb limit n st text st' :
  run_steps model cb limit n st = (Ret text, st') →
  ∃ ms content reasoning,
    st_messages st' = ms ++ [AssistantMessage content reasoning []]
    ∧ text = _coerce_text content
    ∧ last (model_requests (st_log st')) = Some ms.
Proof.
  revert st. induction n as [| n IH]; intros st Hrun; simpl in Hrun; [discriminate Hrun |].
  apply bind_inv in Hrun as [(? & st1 & Hf1 & Hrun) | (? & _ & [=])].
  apply fire_frame in Hf1 as [u1 ->].
  apply bind_inv in Hrun as [(assistant & st2 & Hm & Hrun) | (? & _ & [=])].
  unfold call_model in Hm. destruct (complete model _ _ _) as [r0 w]. simplify_eq.
  apply bind_inv in Hrun as [(? & st3 & Hf3 & Hrun) | (? & _ & [=])].
  apply fire_frame in Hf3 as [u3 ->].
  apply bind_inv in Hrun as [(? & st4 & Hf4 & Hrun) | (? & _ & [=])].
  assert (∃ u4, st4 = with_ui u4 (with_ui u3
            (with_world w (with_log (st_log st ++ [EvComplete (st_messages st)])
                                    (with_ui u1 st))))) as [u4 ->].
  { destruct (kept_reasoning assistant).
    - apply fire_frame in Hf4 as [u4 ->]. by exists u4.
    - unfold mret, M_ret in Hf4. simplify_eq. by exists u3. }
  apply bind_inv in Hrun as [(? & st5 & Happ & Hrun) | (? & _ & [=])].
  unfold append_message, modify in Happ. simplify_eq.
  destruct (a_tool_calls assistant) as [| call calls] eqn:Hcalls.
  - unfold mret, M_ret in Hrun. simplify_eq.
    exists (st_messages st), (a_content assistant), (kept_reasoning assistant).
    simpl. split_and!; [done | done |].
    rewrite model_requests_app. simpl. by rewrite last_snoc.
  - apply bind_inv in Hrun as [(? & st6 & _ & Hrun) | (? & _ & [=])].
    by apply IH in Hrun.
Qed.

(** When a run returns a text, the conversation ends with an assistant
    message that carries no tool call, the text is the content of that
    message as text, and the last request to the model was the whole
    conversation before that message. *)
Theorem run_returns_last_answer model config cb user_input st text st' :
  run model config cb user_input st = (Ret text, st') →
  ∃ ms content reasoning,
    st_messages st' = ms ++ [AssistantMessage content reasoning []]
    ∧ text = _coerce_text content
    ∧ last (model_requests (st_log st')) = Some ms.
Proof.
  intros Hrun. unfold run in Hrun. rewrite bind_run in Hrun.
  unfold append_message at 1, modify at 1 in Hrun. by apply run_steps_returns in Hrun.
Qed.

End RunProperties.

Lemma run_returns_last_answer_witness :
  let out := run (host := Demo.platform) Demo.DoneModel (mkAgentConfig 3) Demo.no_callbacks
               "Inspect the file"
               (Demo.start (Demo.ctx Demo.approve WORKSPACE_WRITE ON_REQUEST)) in
  out.1 = Ret "Done: file inspected."
  ∧ ∃ ms content reasoning,
      st_messages out.2 = ms ++ [AssistantMessage content reasoning []]
      ∧ "Done: file inspected." = _coerce_text content
      ∧ last (model_requests (st_log out.2)) = Some ms.
Proof.
  intros out.
  assert (Htext : out.1 = Ret "Done: file inspected.") by (vm_compute; reflexivity).
  split; [exact Htext |].
  apply (run_returns_last_answer (host := Demo.platform) Demo.DoneModel (mkAgentConfig 3)
           Demo.no_callbacks "Inspect the file"
           (Demo.start (Demo.ctx Demo.approve WORKSPACE_WRITE ON_REQUEST))).
  etrans; [apply surjective_pairing |]. f_equal.
Defined.

(** ** Delegation to a subagent *)

Section SubagentRunProperties.
Context {host : Platform} {W U : Type}.
Implicit Types (self : SubagentRunner W U) (parent : ToolRegistry W) (t : Tool W).

(** Every tool of the derived registry is a tool of the parent's
    listing, under its own name, not mutating and not the plan tool. *)
Lemma subagent_tools_from_parent parent (k : string) t :
  _tools (_build_subagent_tools parent) !! k = Some t →
  t ∈ list_tools parent ∧ tool_name t = k ∧ tool_mutating t = false ∧ k ≠ "update_plan".
Proof.
  unfold _build_subagent_tools. rewrite subagent_loop_lookup. simpl. rewrite lookup_empty.
  destruct (last _) as [t1 |] eqn:Hlast; [| done]. intros [= ->].
  apply last_Some in Hlast as [l' Hl'].
  assert (Hin : t ∈ l' ++ [t]) by (apply elem_of_app; right; apply list_elem_of_here).
  rewrite <- Hl' in Hin. apply list_elem_of_filter in Hin as [(Hk & Hmut & Hne) Hin].
  split_and!; [done | done | done | by rewrite <- Hk].
Qed.

(** The calls of a delegated run, for any runner. *)
Lemma subagent_run_events self (task profile : string) (w : W) (u : U) (log : list Event) :
  ∃ events,
    (SubagentRunner_run self task profile w u log).2.2 = log ++ events
    ∧ approval_calls events = []
    ∧ (∀ name arguments result,
         EvHandler name arguments result ∈ events →
         ∃ t, t ∈ list_tools (_parent_tools self) ∧ tool_name t = name
              ∧ tool_mutating t = false ∧ name ≠ "update_plan")
    ∧ (Z.of_nat (length (model_requests events)) ≤ Z.max 0 (_max_steps self))%Z.
Proof.
  unfold SubagentRunner_run.
  assert (Hnone : ∃ events : list Event,
            log = log ++ events ∧ approval_calls events = []
            ∧ (∀ name arguments result,
                 EvHandler name arguments result ∈ events →
                 ∃ t, t ∈ list_tools (_parent_tools self) ∧ tool_name t = name
                      ∧ tool_mutating t = false ∧ name ≠ "update_plan")
            ∧ (Z.of_nat (length (model_requests events)) ≤ Z.max 0 (_max_steps self))%Z).
  { exists []. rewrite app_nil_r. split_and!; [done | done | | simpl; lia].
    intros ? ? ? Hin. by apply elem_of_nil in Hin. }
  destruct (_profiles self !! profile) as [profile_obj |]; [| exact Hnone].
  case_bool_decide; [exact Hnone |]. clear Hnone.
  set (agent := subagent_agent self profile_obj w u log).
  destruct (run _ _ _ task agent) as [r st'] eqn:Hrun. simpl.
  assert (Hw : within_steps (0 + Z.to_nat (_max_steps self)) agent st').
  { revert Hrun. unfold run. apply (respects_within 0 _); [apply append_message_within |].
    intros _. apply run_steps_within. }
  destruct Hw as (events & (Hlog & _ & Hgate) & Hn). exists events.
  split_and!; [exact Hlog | | | lia].
  - destruct (approval_calls events) as [| [action preview] l] eqn:Hcalls; [done |].
    assert (Hin : EvApproval action preview ∈ events).
    { assert (Hin : (action, preview) ∈ approval_calls events)
        by (rewrite Hcalls; apply list_elem_of_here).
      unfold approval_calls in Hin. apply list_elem_of_omap in Hin as (e & He & Heq).
      destruct e; simplify_eq. done. }
    destruct Hgate as [_ Ha]. destruct (Ha action preview Hin) as (tool & Hlook & Hmut & _).
    apply subagent_tools_from_parent in Hlook as (_ & _ & Hro & _). congruence.
  - intros name arguments result Hin.
    destruct (gate_respected_handler_in _ _ _ _ _ Hgate Hin) as (tool & Hlook & _).
    apply subagent_tools_from_parent in Hlook as (? & ? & ? & ?). by exists tool.
Qed.

(** Whatever the model asks for, a delegated run calls only handlers of
    tools of the parent's listing that are not mutating and not the plan
    tool, never calls the approval callback, and asks the model at most
    [max(1, max_steps)] times. *)
Theorem subagent_run_read_only model parent base (budget : Z) profiles callbacks
    (task profile : string) (w : W) (u : U) (log : list Event) :
  let self := SubagentRunner_new model parent base budget profiles callbacks in
  let out := SubagentRunner_run self task profile w u log in
  ∃ events,
    out.2.2 = log ++ events
    ∧ approval_calls events = []
    ∧ (∀ name arguments result,
         EvHandler name arguments result ∈ events →
         ∃ t, t ∈ list_tools parent ∧ tool_name t = name
              ∧ tool_mutating t = false ∧ name ≠ "update_plan")
    ∧ (Z.of_nat (length (model_requests events)) ≤ Z.max 1 budget)%Z.
Proof.
  intros self out.
  destruct (subagent_run_events self task profile w u log)
    as (events & Hlog & Hask & Hcalls & Hn).
  exists events. split_and!; [done | done | done |]. simpl in Hn. lia.
Qed.

Lemma fire_no_raise {A} (fn : option (A → U → outcome unit * U)) (a : A)
    (st : State W U) e st' :
  hook_returns fn → _fire fn a st ≠ (Raise e, st').
Proof.
  intros Hret Hf. destruct (fire_returns fn a st Hret) as [u1 Hu]. rewrite Hu in Hf.
  discriminate Hf.
Qed.

(** A delegated run checks the profile, then the task, before anything
    runs: a task that is empty once the white space around it is removed
    (a no-break space as much as a blank) is refused.  Otherwise, with a
    status hook that returns, its first request to
    the model is a conversation of its own: the base prompt with the
    profile, then the task.  This holds for every [max_steps], also zero
    and below. *)
Theorem subagent_run_starts_fresh model parent base (budget : Z) profiles callbacks
    (task profile : string) (w : W) (u : U) (log : list Event) :
  let self := SubagentRunner_new model parent base budget profiles callbacks in
  let out := SubagentRunner_run self task profile w u log in
  (_profiles self !! profile = None →
   out = (Raise (ValueError ("unknown subagent profile: " +:+ profile)), (w, u, log)))
  ∧ (is_Some (_profiles self !! profile) → Py.strip task = "" →
     out = (Raise (ValueError "task cannot be empty"), (w, u, log)))
  ∧ (∀ profile_obj,
       _profiles self !! profile = Some profile_obj → Py.strip task ≠ "" →
       hook_returns (on_status (subagent_hooks self)) →
       ∃ rest,
         model_requests out.2.2
         = model_requests log
           ++ [SystemMessage (subagent_system_prompt self profile_obj); UserMessage task]
              :: rest).
Proof.
  intros self out. unfold out, SubagentRunner_run. split_and!.
  - by intros ->.
  - intros [p ->] Htask. by rewrite bool_decide_eq_true_2.
  - intros profile_obj -> Htask Hstatus. rewrite bool_decide_eq_false_2 by done.
    set (agent := subagent_agent self profile_obj w u log).
    destruct (run _ _ _ task agent) as [r st'] eqn:Hrun. simpl.
    unfold run in Hrun. rewrite bind_run in Hrun.
    unfold append_message at 1, modify at 1 in Hrun.
    change (max_steps (mkAgentConfig (_max_steps self))) with (Z.max 1 budget) in Hrun.
    destruct (Z.to_nat (Z.max 1 budget)) as [| n] eqn:Hn; [lia |].
    cbn [run_steps] in Hrun.
    apply bind_inv in Hrun as [(? & st1 & Hf1 & Hrun) | (e & Hf1 & _)];
      [| by apply (fire_no_raise _ _ _ _ _ Hstatus) in Hf1].
    apply fire_frame in Hf1 as [u1 ->].
    apply bind_inv in Hrun as [(assistant & st2 & Hm & Hrun) | (e & Hm & _)].
    + pose proof (call_model_frame _ _ _ _ Hm) as (_ & _ & Hreq).
      assert (Hw : within_steps (0 + (0 + (0 + n))) st2 st').
      { revert Hrun. apply (respects_within 0 _); [apply fire_within |]. intros _.
        apply (respects_within 0 _).
        { destruct (kept_reasoning assistant); [apply fire_within |].
          apply respects_ret, within_steps_refl. }
        intros _. apply (respects_within 0 _); [apply append_message_within |]. intros _.
        destruct (a_tool_calls assistant) as [| call calls].
        - intros st0 r0 st0' Heq. unfold mret, M_ret in Heq. simplify_eq.
          apply (within_steps_mono 0); [lia | apply within_steps_refl].
        - apply (respects_within 0 n); [apply run_tool_calls_within |]. intros _.
          apply run_steps_within. }
      destruct Hw as (events & (Hlog & _ & _) & _).
      exists (model_requests events). rewrite Hlog, model_requests_app, Hreq. simpl.
      by rewrite <- app_assoc.
    + pose proof (call_model_frame _ _ _ _ Hm) as (_ & _ & Hreq).
      exists []. rewrite Hreq. done.
Qed.

End SubagentRunProperties.

Lemma subagent_run_starts_fresh_witness :
  let self := Demo.runner Demo.DoneModel 0 in
  let out := SubagentRunner_run (host := Demo.platform) self "check tests" "general" [] [] [] in
  out.1 = Ret "Done: file inspected."
  ∧ SubagentRunner_run (host := Demo.platform) self (Py.utf8 0xA0 +:+ " ") "general" [] [] []
    = (Raise (ValueError "task cannot be empty"), ([], [], []))
  ∧ ∃ profile_obj rest,
      profile_name profile_obj = "general"
      ∧ model_requests out.2.2
        = [SystemMessage (subagent_system_prompt self profile_obj); UserMessage "check tests"]
          :: rest.
Proof.
  intros self out. split; [vm_compute; reflexivity |]. split.
  { destruct (subagent_run_starts_fresh (host := Demo.platform) (U := Demo.Display)
                Demo.DoneModel (Demo.registry (Demo.ctx Demo.approve DANGER_FULL_ACCESS ALWAYS))
                "base prompt" 0 DEFAULT_SUBAGENT_PROFILES None (Py.utf8 0xA0 +:+ " ") "general"
                [] [] []) as (_ & Hblank & _).
    apply Hblank; [by eexists | vm_compute; reflexivity]. }
  destruct (subagent_run_starts_fresh (host := Demo.platform) (U := Demo.Display)
              Demo.DoneModel (Demo.registry (Demo.ctx Demo.approve DANGER_FULL_ACCESS ALWAYS))
              "base prompt" 0 DEFAULT_SUBAGENT_PROFILES None "check tests" "general" [] [] [])
    as (_ & _ & Hfresh).
  destruct (Hfresh (mkSubagentProfile "general"
                      "General-purpose delegate for focused task execution."
                      "You are a delegated helper agent. Focus only on the assigned sub-task, keep answers concise, and report concrete results."))
    as [rest Hrest].
  - vm_compute. reflexivity.
  - vm_compute. discriminate.
  - intros f Hf. discriminate Hf.
  - eexists _, rest. split; [| exact Hrest]. reflexivity.
Defined.

(** ** Declarations of plugins *)

Section DeclarationProperties.
Context {host : Platform}.
Implicit Types (s t : string) (item : json) (payload : dict).

Lemma str_or_nonempty s t : t ≠ "" → Py.str_or s t ≠ "".
Proof. by destruct s. Qed.

Lemma append_nonempty_l s t : s ≠ "" → s +:+ t ≠ "".
Proof. by destruct s. Qed.

Lemma append_nonempty_r s t : t ≠ "" → s +:+ t ≠ "".
Proof. destruct s; [done |]. by rewrite append_cons. Qed.

Lemma str_or_none_Some s t : Py.str_or_none s = Some t → t = s ∧ s ≠ "".
Proof. destruct s; [done |]. by intros [= <-]. Qed.

Lemma str_or_none_None s : Py.str_or_none s = None → s = "".
Proof. by destruct s. Qed.

Lemma parse_tool_valid (manifest_path : Path) (plugin : string) item spec :
  Plugins.parse_tool manifest_path plugin item = Ret spec →
  valid_tool_spec manifest_path plugin spec.
Proof.
  unfold Plugins.parse_tool. destruct item as [| | | | | | fields]; try done.
  set (name := Py.strip (py_str (default (JStr "") (dict_get "name" fields)))).
  case_bool_decide as Hname; [done |].
  destruct (default (JObj []) (dict_get "parameters" fields)) as [| | | | | | parameters];
    try done.
  set (line := Py.str_or_none _).
  set (argv := match dict_get "argv" fields with Some (JArr l) => Some (py_str <$> l) | _ => None end).
  set (no_argv := match argv with Some (_ :: _) => false | _ => true end).
  destruct (bool_decide (line = None) && no_argv) eqn:Hnone; [done |].
  destruct (negb (bool_decide (line = None)) && negb no_argv) eqn:Hboth; [done |].
  destruct (py_int _) as [t | e]; [| done]. simpl. intros [= <-].
  unfold valid_tool_spec, Plugins.plugin_command. simpl. split_and!.
  - done.
  - done.
  - apply strip_trimmed.
  - apply str_or_nonempty, append_nonempty_l. done.
  - lia.
  - lia.
  - done.
  - destruct line as [l |] eqn:Hline.
    + right. exists l. unfold line in Hline. apply str_or_none_Some in Hline as [-> Hne].
      rewrite bool_decide_eq_false_2 in Hboth by done. simpl in Hboth.
      split_and!; [done | done | apply strip_trimmed |].
      fold argv. unfold no_argv in Hboth. by destruct argv as [[|] |].
    + left. rewrite bool_decide_eq_true_2 in Hnone by done. simpl in Hnone.
      split; [done |]. fold argv. unfold no_argv in Hnone.
      destruct argv as [[| arg args] |]; try done. by exists arg, args.
Qed.

Lemma parse_tool_entries_valid (manifest_path : Path) (plugin : string) raw_tools specs :
  Plugins.parse_tool_entries manifest_path plugin raw_tools = Ret specs →
  Forall (valid_tool_spec manifest_path plugin) specs ∧ length specs = length raw_tools.
Proof.
  revert specs. induction raw_tools as [| item rest IH]; intros specs; simpl.
  - intros [= <-]. by split.
  - destruct (Plugins.parse_tool manifest_path plugin item) as [spec | e] eqn:Hitem; [| done].
    simpl. destruct (Plugins.parse_tool_entries manifest_path plugin rest) as [specs' | e];
      [| done].
    simpl. intros [= <-]. destruct (IH specs' eq_refl) as [Hall Hlen].
    split; [| by rewrite <- Hlen]. constructor; [by eapply parse_tool_valid | done].
Qed.

(** One entry that is refused makes the whole list refused. *)
Lemma parse_tool_entries_refused (manifest_path : Path) (plugin : string) raw_tools item :
  item ∈ raw_tools →
  is_Ret (Plugins.parse_tool manifest_path plugin item) = false →
  is_Ret (Plugins.parse_tool_entries manifest_path plugin raw_tools) = false.
Proof.
  intros Hin Hbad. induction raw_tools as [| item' rest IH]; [by apply elem_of_nil in Hin |].
  simpl. destruct (Plugins.parse_tool manifest_path plugin item') as [spec | e] eqn:Hitem;
    [| done].
  simpl. apply elem_of_cons in Hin as [-> | Hin]; [by rewrite Hitem in Hbad |].
  apply IH in Hin. by destruct (Plugins.parse_tool_entries manifest_path plugin rest).
Qed.

(** Every tool declaration that [_parse_tools] returns is valid: it has
    a name and a description, a timeout between 1 and 1800 seconds, the
    directory of its manifest as working directory and exactly one way to
    run, a shell line or an argument vector; and there is one declaration
    per entry of the manifest, in order. *)
Theorem parse_tools_valid payload (manifest_path : Path) (plugin : string) specs :
  Plugins._parse_tools payload manifest_path plugin = Ret specs →
  Forall (valid_tool_spec manifest_path plugin) specs
  ∧ ∃ raw_tools,
      default (JArr []) (dict_get "tools" payload) = JArr raw_tools
      ∧ length specs = length raw_tools.
Proof.
  unfold Plugins._parse_tools.
  destruct (default (JArr []) (dict_get "tools" payload)) as [| | | | | raw_tools |]; try done.
  intros Hparse. apply parse_tool_entries_valid in Hparse as [Hall Hlen].
  split; [done |]. by exists raw_tools.
Qed.

Lemma parse_command_valid (plugin : string) item spec :
  Plugins.parse_command plugin item = Ret spec → valid_command_spec plugin spec.
Proof.
  unfold Plugins.parse_command. destruct item as [| | | | | | fields]; try done.
  case_bool_decide as Hname; [done |]. intros [= <-].
  unfold valid_command_spec. simpl. split_and!.
  - done.
  - apply sanitize_with_sanitized, sanitized_item.
  - apply str_or_nonempty, append_nonempty_l. done.
  - apply str_or_nonempty, append_nonempty_l. done.
  - apply str_or_nonempty, append_nonempty_l. done.
  - intros Heq. by apply str_or_none_Some in Heq as [<- ?].
Qed.

(** Every command declaration that [_parse_commands] returns has a
    sanitized name (so no blank in it), a description, a usage line and an
    output text, and a template that is absent or not empty; there is one
    declaration per entry. *)
Theorem parse_commands_valid payload (plugin : string) specs :
  Plugins._parse_commands payload plugin = Ret specs →
  Forall (valid_command_spec plugin) specs
  ∧ ∃ raw_commands,
      default (JArr []) (dict_get "commands" payload) = JArr raw_commands
      ∧ length specs = length raw_commands.
Proof.
  unfold Plugins._parse_commands.
  destruct (default (JArr []) (dict_get "commands" payload)) as [| | | | | raw |]; try done.
  intros Hparse. split; [| exists raw; split; [done |]].
  - revert specs Hparse. induction raw as [| item rest IH]; intros specs; simpl.
    + by intros [= <-].
    + destruct (Plugins.parse_command plugin item) as [spec | e] eqn:Hitem; [| done].
      simpl. destruct (Plugins.parse_command_entries plugin rest) as [specs' | e]; [| done].
      simpl. intros [= <-]. constructor; [by eapply parse_command_valid | by apply IH].
  - revert specs Hparse. induction raw as [| item rest IH]; intros specs; simpl.
    + by intros [= <-].
    + destruct (Plugins.parse_command plugin item) as [spec | e]; [| done].
      simpl. destruct (Plugins.parse_command_entries plugin rest) as [specs' | e]; [| done].
      simpl. intros [= <-]. simpl. f_equal. by apply IH.
Qed.

End DeclarationProperties.

Lemma parse_tools_valid_witness :
  match Plugins._parse_tools (host := Demo.platform)
          [("tools", JArr [JObj [("name", JStr "echo_text"); ("argv", JArr [JStr "python3"])]])]
          Demo.echo_manifest_path "EchoPlugin" with
  | Ret specs => Forall (valid_tool_spec Demo.echo_manifest_path "EchoPlugin") specs
                 ∧ length specs = 1
  | Raise _ => False
  end.
Proof.
  destruct (Plugins._parse_tools _ _ _) as [specs | e] eqn:Hparse.
  - split; [exact (proj1 (parse_tools_valid (host := Demo.platform) _ _ _ _ Hparse)) |].
    vm_compute in Hparse. by simplify_eq.
  - vm_compute in Hparse. discriminate Hparse.
Defined.

Lemma parse_commands_valid_witness :
  match Plugins._parse_commands (host := Demo.platform) Demo.review_commands "EchoPlugin" with
  | Ret specs => Forall (valid_command_spec "EchoPlugin") specs
                 ∧ Plugins.cmd_name <$> specs = ["quick_review"]
  | Raise _ => False
  end.
Proof.
  destruct (Plugins._parse_commands _ _) as [specs | e] eqn:Hparse.
  - split; [exact (proj1 (parse_commands_valid (host := Demo.platform) _ _ _ Hparse)) |].
    vm_compute in Hparse. by simplify_eq.
  - vm_compute in Hparse. discriminate Hparse.
Defined.

(** ** The handler of a plugin tool *)

Section HandlerProperties.
Context {host : Platform} {W : Type}.
Variable subprocess_run : string + list string → option Path → string → Z → W
                          → outcome Plugins.CompletedProcess * W.
Variable json_dumps : json → string.
Implicit Types (s t : string) (spec : Plugins.PluginToolSpec) (proc : Plugins.CompletedProcess).

Local Abbreviation _build_tool_handler := (Plugins._build_tool_handler subprocess_run json_dumps).

(** Cutting leaves at most [limit] characters and the mark of sixteen
    characters; a text of at most [limit] characters is not cut. *)
Lemma truncated_length (limit : nat) s :
  Py.len (Plugins.truncated limit s) ≤ limit + 16
  ∧ (Py.len s ≤ limit → Plugins.truncated limit s = s)
  ∧ (s ≠ "" → Plugins.truncated limit s ≠ "").
Proof.
  unfold Plugins.truncated. destruct (Nat.ltb_spec limit (Py.len s)) as [Hlong | Hshort].
  - split_and!.
    + rewrite !len_append. pose proof (len_take limit s).
      change (Py.len nl) with 1. change (Py.len "... (truncated)") with 15. lia.
    + lia.
    + intros _. apply append_nonempty_r, append_nonempty_l. done.
  - split_and!; [lia | done | done].
Qed.

Lemma render_process_nonempty spec proc : Plugins.render_process spec proc ≠ "".
Proof.
  unfold Plugins.render_process.
  destruct (truncated_length (8 * 1000) (Py.strip (Plugins.stdout proc))) as (_ & _ & Hne).
  case_bool_decide; [by apply append_nonempty_l |].
  case_bool_decide; [by apply append_nonempty_l | by apply Hne].
Qed.

(** The text a plugin tool returns is never empty.  When the process
    succeeds with output, the text is that output without the white space
    around it, cut after 8000 characters and marked when it was longer:
    at most 8016 characters, whatever the number of bytes they take.  An
    output of white space only (a no-break space as much as a blank) is
    reported as empty.  When the process fails, the text names the plugin
    and the tool and carries the whole error output, which is not cut. *)
Theorem render_process_bounded spec proc :
  let text := Plugins.render_process spec proc in
  let output := Py.strip (Plugins.stdout proc) in
  let error_text := Py.strip (Plugins.stderr proc) in
  text ≠ ""
  ∧ (Plugins.returncode proc = 0%Z → output ≠ "" →
     Py.len text ≤ 8 * 1000 + 16
     ∧ trimmed output
     ∧ (Py.len output ≤ 8 * 1000 → text = output)
     ∧ (8 * 1000 < Py.len output →
        text = Py.take (8 * 1000) output +:+ nl +:+ "... (truncated)"
        ∧ Py.len (Py.take (8 * 1000) output) = 8 * 1000))
  ∧ (Plugins.returncode proc = 0%Z → output = "" →
     text = "plugin `" +:+ Plugins.plugin_name spec +:+ "` tool `" +:+ Plugins.name spec
            +:+ "` finished with empty output")
  ∧ (Plugins.returncode proc ≠ 0%Z → error_text ≠ "" →
     text = "plugin `" +:+ Plugins.plugin_name spec +:+ "` tool `" +:+ Plugins.name spec
            +:+ "` failed: " +:+ error_text).
Proof.
  intros text output error_text. unfold text, Plugins.render_process. fold output error_text.
  destruct (truncated_length (8 * 1000) output) as (Hlen & Hshort & Hne).
  split_and!.
  - apply render_process_nonempty.
  - intros Hcode Hout. rewrite bool_decide_eq_false_2 by (intros Hne'; apply Hne', Hcode).
    rewrite bool_decide_eq_false_2 by done.
    split_and!; [exact Hlen | apply strip_trimmed | exact Hshort |].
    intros Hlong. unfold Plugins.truncated.
    destruct (Nat.ltb_spec (8 * 1000) (Py.len output)) as [_ | Hle]; [| lia].
    split; [done |]. apply len_take_long. lia.
  - intros Hcode Hout. rewrite bool_decide_eq_false_2 by (intros Hne'; apply Hne', Hcode).
    by rewrite bool_decide_eq_true_2.
  - intros Hcode Herr. rewrite bool_decide_eq_true_2 by done.
    by destruct error_text.
Qed.


End HandlerProperties.


Lemma render_process_bounded_witness :
  let spec :=
    Plugins.mkPluginToolSpec "EchoPlugin" "echo_text" "Echo input text" [] false 120 None
      (Some ["python3"; "tool.py"]) (Some (Path_parent Demo.echo_manifest_path)) in
  Plugins.render_process spec (Plugins.mkCompletedProcess 0 ("echo:hello" +:+ nl) "")
  = "echo:hello"
  ∧ (Plugins.render_process spec (Plugins.mkCompletedProcess 0 (Demo.accents +:+ nl) "")
     = Demo.accents
     ∧ String.length Demo.accents = 10 * 1000)
  ∧ Plugins.render_process spec (Plugins.mkCompletedProcess 0 (Py.utf8 0xA0 +:+ nl) "")
    = "plugin `EchoPlugin` tool `echo_text` finished with empty output"
  ∧ Plugins.render_process spec (Plugins.mkCompletedProcess 2 "" ("  no such file" +:+ nl))
    = "plugin `EchoPlugin` tool `echo_text` failed: no such file".
Proof.
  intros spec. split_and!.
  - destruct (render_process_bounded spec
                (Plugins.mkCompletedProcess 0 ("echo:hello" +:+ nl) "")) as (_ & Hok & _).
    destruct Hok as (_ & _ & Hshort & _); [done | vm_compute; discriminate |].
    rewrite Hshort; [vm_compute; reflexivity |].
    apply Nat.leb_le. vm_compute. reflexivity.
  - destruct (render_process_bounded spec
                (Plugins.mkCompletedProcess 0 (Demo.accents +:+ nl) "")) as (_ & Hok & _).
    destruct Hok as (_ & _ & Hshort & _); [done | vm_compute; discriminate |].
    rewrite Hshort; [vm_compute; reflexivity |].
    apply Nat.leb_le. vm_compute. reflexivity.
  - vm_compute. reflexivity.
  - destruct (render_process_bounded spec
                (Plugins.mkCompletedProcess 0 (Py.utf8 0xA0 +:+ nl) "")) as (_ & _ & Hnone & _).
    rewrite Hnone; [vm_compute; reflexivity | done | vm_compute; reflexivity].
  - destruct (render_process_bounded spec
                (Plugins.mkCompletedProcess 2 "" ("  no such file" +:+ nl)))
      as (_ & _ & _ & Hfail).
    rewrite Hfail; [vm_compute; reflexivity | done | vm_compute; discriminate].
Defined.

(** ** Loading plugins: a manifest that is refused *)

Section ManifestProperties.
Context {host : Platform} {W : Type}.
Variables PluginCommandSpec Skill : Type.
Variable _parse_commands : dict → string → outcome (list PluginCommandSpec).
Variable _parse_skills : dict → Path → string → outcome (list Skill).
Variable read_manifest : Path → outcome json.
Variable _build_tool_handler : Plugins.PluginToolSpec → ToolHandler W.

Local Abbreviation load_manifest :=
  (Plugins.load_manifest PluginCommandSpec Skill _parse_commands _parse_skills read_manifest
                         _build_tool_handler).

(** One tool entry that is refused takes the whole manifest with it:
    none of its tools is registered, none of its commands and skills is
    collected, and the result gains exactly one error. *)
Theorem manifest_with_refused_tool_contributes_nothing
    (s : Plugins.LoadState (W := W) PluginCommandSpec Skill) (manifest : Path)
    (payload : dict) (raw_tools : list json) (item : json) :
  read_manifest manifest = Ret (JObj payload) →
  dict_get "tools" payload = Some (JArr raw_tools) →
  item ∈ raw_tools →
  (∀ plugin, is_Ret (Plugins.parse_tool manifest plugin item) = false) →
  let s' := load_manifest s manifest in
  Plugins.ls_registry _ _ s' = Plugins.ls_registry _ _ s
  ∧ Plugins.ls_existing _ _ s' = Plugins.ls_existing _ _ s
  ∧ Plugins.tool_names _ _ (Plugins.ls_result _ _ s') = Plugins.tool_names _ _ (Plugins.ls_result _ _ s)
  ∧ Plugins.commands _ _ (Plugins.ls_result _ _ s') = Plugins.commands _ _ (Plugins.ls_result _ _ s)
  ∧ Plugins.skills _ _ (Plugins.ls_result _ _ s') = Plugins.skills _ _ (Plugins.ls_result _ _ s)
  ∧ ∃ message,
      Plugins.errors _ _ (Plugins.ls_result _ _ s') = Plugins.errors _ _ (Plugins.ls_result _ _ s) ++ [message].
Proof.
  intros Hread Htools Hin Hbad s'. unfold s', Plugins.load_manifest, Plugins._parse_manifest.
  rewrite Hread. simpl. unfold Plugins._parse_tools. rewrite Htools. simpl.
  set (plugin := Py.str_or _ _).
  pose proof (parse_tool_entries_refused manifest plugin raw_tools item Hin (Hbad plugin)) as Hno.
  destruct (Plugins.parse_tool_entries manifest plugin raw_tools) as [specs | exc];
    [discriminate Hno |].
  simpl. split_and!; try done. by eexists.
Qed.

End ManifestProperties.

Lemma manifest_with_refused_tool_contributes_nothing_witness :
  let reg := Demo.registry (Demo.ctx Demo.approve WORKSPACE_WRITE ON_REQUEST) in
  let s := Plugins.mkLoadState unit unit reg ∅ (Plugins.mkPluginLoadResult unit unit [] [] [] []) in
  let s' := Plugins.load_manifest (host := Demo.platform) unit unit (λ _ _, Ret [])
              (λ _ _ _, Ret []) (λ _, Ret Demo.broken_manifest) Demo.echo_handler s
              Demo.echo_manifest_path in
  Plugins.ls_registry _ _ s' = reg
  ∧ Plugins.tool_names _ _ (Plugins.ls_result _ _ s') = [].
Proof.
  intros reg s s'.
  destruct (manifest_with_refused_tool_contributes_nothing (host := Demo.platform) unit unit
              (λ _ _, Ret []) (λ _ _ _, Ret []) (λ _, Ret Demo.broken_manifest) Demo.echo_handler
              s Demo.echo_manifest_path
              [("name", JStr "Broken"); ("tools", JArr [JObj [("name", JStr "missing-command")]])]
              [JObj [("name", JStr "missing-command")]] (JObj [("name", JStr "missing-command")]))
    as (Hreg & _ & Hnames & _).
  - reflexivity.
  - reflexivity.
  - apply list_elem_of_here.
  - intros plugin. reflexivity.
  - split; [exact Hreg | exact Hnames].
Defined.

(** ** MCP: the config file and the calls *)

Section McpConfigProperties.
Context {host : Platform}.
Variable read_config : Path → outcome json.

Local Abbreviation _parse_mcp_config := (Mcp._parse_mcp_config read_config).

Lemma parse_server_valid (name : string) (item : json) server :
  Mcp.parse_server name item = Ret (Some server) → valid_server server.
Proof.
  unfold Mcp.parse_server. destruct item as [| | | | | | fields]; try done.
  case_bool_decide as Hcommand; [done |].
  destruct (py_int _) as [t | exc]; [| done]. simpl. intros [= <-].
  unfold valid_server. simpl.
  split_and!; [done | apply strip_trimmed | apply strip_trimmed | lia | lia].
Qed.

Lemma parse_servers_valid (raw : list (string * json)) servers :
  Mcp.parse_servers raw = Ret servers →
  Forall valid_server servers ∧ length servers ≤ length raw.
Proof.
  revert servers. induction raw as [| [name item] rest IH]; intros servers; simpl.
  - intros [= <-]. by split.
  - destruct (Mcp.parse_server name item) as [parsed | exc] eqn:Hitem; [| done]. simpl.
    destruct (Mcp.parse_servers rest) as [servers' | exc]; [| done]. simpl.
    destruct (IH servers' eq_refl) as [Hall Hlen]. intros [= <-].
    destruct parsed as [server |]; [| split; [done | lia]].
    split; [| simpl; lia]. constructor; [by eapply parse_server_valid | done].
Qed.

Lemma parse_server_skips (name : string) (item : json) :
  entry_command item = "" → Mcp.parse_server name item = Ret None.
Proof.
  destruct item as [| | | | | | fields]; try done. simpl. intros Hcommand.
  by rewrite bool_decide_eq_true_2.
Qed.

Lemma parse_server_declares (name : string) (item : json) parsed :
  entry_command item ≠ "" → Mcp.parse_server name item = Ret parsed →
  ∃ server, parsed = Some server ∧ declares server (name, item).
Proof.
  destruct item as [| | | | | | fields]; try done. simpl. intros Hcommand.
  rewrite bool_decide_eq_false_2 by done.
  destruct (py_int _) as [t | exc]; [| done]. simpl. intros [= <-].
  eexists. split; [reflexivity |]. by split.
Qed.

Lemma parse_servers_kept (raw : list (string * json)) servers :
  Mcp.parse_servers raw = Ret servers →
  Forall2 declares servers (filter (λ entry, entry_command entry.2 ≠ "") raw).
Proof.
  revert servers. induction raw as [| [name item] rest IH]; intros servers; simpl.
  - intros [= <-]. constructor.
  - destruct (Mcp.parse_server name item) as [parsed | exc] eqn:Hitem; [| done]. simpl.
    destruct (Mcp.parse_servers rest) as [servers' | exc]; [| done]. simpl.
    specialize (IH servers' eq_refl). intros [= <-].
    destruct (decide (entry_command item = "")) as [Hskip | Hkeep].
    + rewrite (parse_server_skips name item Hskip) in Hitem. injection Hitem as <-.
      by rewrite filter_cons_False by (simpl; auto).
    + destruct (parse_server_declares name item parsed Hkeep Hitem) as (server & -> & Hserver).
      rewrite filter_cons_True by done. by constructor.
Qed.

(** Every server that [_parse_mcp_config] returns has a command that is
    not empty, no white space around its command and its name, and a
    timeout between 5 and 300 seconds.  The servers returned are, in the
    order of the file, those of the entries with a command: an entry that
    is not an object, that has no command or whose command is white space
    only (a no-break space as much as a blank) is skipped in silence,
    whatever else it holds; and a root object without an object under
    [mcpServers] gives no server.  A config whose root is not an object is
    refused as a whole, and so is one where an entry with a command has a
    timeout that is not a number. *)
Theorem parse_mcp_config_valid (path : Path) :
  (∀ servers, _parse_mcp_config path = Ret servers → Forall valid_server servers)
  ∧ (∀ payload raw servers,
       read_config path = Ret (JObj payload) →
       dict_get "mcpServers" payload = Some (JObj raw) →
       _parse_mcp_config path = Ret servers →
       Forall2 declares servers (filter (λ entry, entry_command entry.2 ≠ "") raw))
  ∧ (∀ payload raw,
       read_config path = Ret (JObj payload) →
       dict_get "mcpServers" payload = Some (JObj raw) →
       Forall (λ entry, entry_command entry.2 = "") raw →
       _parse_mcp_config path = Ret [])
  ∧ (∀ payload,
       read_config path = Ret (JObj payload) →
       (∀ raw, dict_get "mcpServers" payload ≠ Some (JObj raw)) →
       _parse_mcp_config path = Ret [])
  ∧ (∀ payload, read_config path = Ret payload → is_dict payload = false →
       is_Ret (_parse_mcp_config path) = false)
  ∧ (∀ payload raw name fields exc,
       read_config path = Ret (JObj payload) →
       dict_get "mcpServers" payload = Some (JObj raw) →
       (name, JObj fields) ∈ raw →
       entry_command (JObj fields) ≠ "" →
       py_int (default (JInt 30) (dict_get "timeout_sec" fields)) = Raise exc →
       is_Ret (_parse_mcp_config path) = false).
Proof.
  unfold Mcp._parse_mcp_config. split_and!.
  - intros servers. destruct (read_config path) as [payload | exc]; [| done]. simpl.
    destruct payload as [| | | | | | payload]; try done.
    destruct (dict_get "mcpServers" payload) as [[| | | | | | raw] |];
      try (intros [= <-]; constructor).
    intros Hparse. by apply parse_servers_valid in Hparse as [? _].
  - intros payload raw servers -> Hservers. simpl. rewrite Hservers.
    apply parse_servers_kept.
  - intros payload raw -> Hservers. simpl. rewrite Hservers. clear Hservers. intros Hall.
    induction Hall as [| [name item] rest Hskip _ IH]; [done |]. simpl in *.
    by rewrite (parse_server_skips name item Hskip), IH.
  - intros payload -> Hnone. simpl.
    destruct (dict_get "mcpServers" payload) as [[| | | | | | raw] |]; try done.
    by destruct (Hnone raw).
  - intros payload -> Hdict. by destruct payload.
  - intros payload raw name fields exc Hread Hservers Hin Hcommand Hbad.
    rewrite Hread. simpl. rewrite Hservers. clear Hservers.
    assert (Hraise : Mcp.parse_server name (JObj fields) = Raise exc).
    { simpl in *. rewrite bool_decide_eq_false_2 by done. by rewrite Hbad. }
    induction raw as [| [name' item'] rest IH]; [by apply elem_of_nil in Hin |].
    simpl. apply elem_of_cons in Hin as [[= <- <-] | Hin].
    + by rewrite Hraise.
    + destruct (Mcp.parse_server name' item') as [parsed | exc']; [| done].
      specialize (IH Hin). simpl in *. by destruct (Mcp.parse_servers rest).
Qed.

End McpConfigProperties.

Section McpCallProperties.
Context {W : Type}.
Variable call_tool : Mcp.McpServerConfig → string → dict → W → outcome Mcp.CallToolResult * W.
Implicit Types (server : Mcp.McpServerConfig) (result : Mcp.CallToolResult).

(** The handler of an MCP tool never raises: whatever the call does, it
    returns a text that is not empty and leaves the plan as it is.  A call
    that raised comes back as an invocation error, and a result marked as
    an error as a text that says so, both naming the server and the tool. *)
Theorem mcp_handler_returns_text server (tool_name : string) (ctx : ToolContext W)
    (args : dict) (w : W) :
  let '(r, w') := call_tool server tool_name args w in
  let label := "MCP `" +:+ Mcp.server_name server +:+ "/" +:+ tool_name +:+ "`" in
  ∃ text,
    Mcp._handler call_tool server tool_name ctx args w = (Ret text, plan ctx, w')
    ∧ text ≠ ""
    ∧ match r with
      | Raise exc => text = label +:+ " invocation error: " +:+ exn_str exc
      | Ret result =>
          text = Mcp._render_tool_result result (Mcp.server_name server) tool_name
          ∧ (Mcp.isError result = true → ∃ detail, text = label +:+ " failed: " +:+ detail
                                                   ∧ detail ≠ "")
          ∧ (Mcp.isError result = false → trimmed text ∨
               text = label +:+ " returned empty result.")
      end.
Proof.
  unfold Mcp._handler. destruct (call_tool server tool_name args w) as [[result | exc] w'].
  - eexists. split; [reflexivity |]. unfold Mcp._render_tool_result.
    set (rendered := Py.strip _).
    assert (Hne : Py.str_or rendered
                    ("MCP `" +:+ Mcp.server_name server +:+ "/" +:+ tool_name
                     +:+ "` returned empty result.") ≠ "").
    { apply str_or_nonempty, append_nonempty_l. done. }
    destruct (Mcp.isError result).
    + split; [by apply append_nonempty_l |]. split; [done |]. split; [| done].
      intros _. eexists. split; [| exact Hne]. by rewrite <- !append_assoc.
    + split; [exact Hne |]. split; [done |]. split; [done |].
      intros _. destruct rendered eqn:Hr.
      * right. simpl. by rewrite <- !append_assoc.
      * left. simpl. rewrite <- Hr. apply strip_trimmed.
  - eexists. split; [reflexivity |]. split; [by apply append_nonempty_l |].
    by rewrite <- !append_assoc.
Qed.

End McpCallProperties.

Lemma parse_mcp_config_valid_witness :
  let path := mkPath "/" ["ws"; "apecode_mcp.json"] in
  let demo := JObj [("command", JStr "python3"); ("args", JArr [JStr "server.py"])] in
  let blank := JObj [("command", JStr (Py.utf8 0xA0)); ("timeout_sec", JStr "soon")] in
  let late := JObj [("command", JStr "python3"); ("timeout_sec", JStr "soon")] in
  let entries := [("notes", JStr "python3"); ("blank", blank); ("demo", demo)] in
  let parse := λ payload, Mcp._parse_mcp_config (host := Demo.platform) (λ _, Ret payload) path in
  parse (JObj [("mcpServers", JObj entries)]) = Ret [Demo.demo_server]
  ∧ Forall2 (declares (host := Demo.platform)) [Demo.demo_server] [("demo", demo)]
  ∧ is_Ret (parse (JArr [])) = false
  ∧ is_Ret (parse (JObj [("mcpServers", JObj [("demo", demo); ("late", late)])])) = false.
Proof.
  intros path demo blank late entries parse.
  assert (Hparse : parse (JObj [("mcpServers", JObj entries)]) = Ret [Demo.demo_server])
    by (vm_compute; reflexivity).
  split_and!.
  - exact Hparse.
  - destruct (parse_mcp_config_valid (host := Demo.platform)
                (λ _, Ret (JObj [("mcpServers", JObj entries)])) path) as (_ & Hkept & _).
    exact (Hkept _ entries _ eq_refl eq_refl Hparse).
  - destruct (parse_mcp_config_valid (host := Demo.platform) (λ _, Ret (JArr [])) path)
      as (_ & _ & _ & _ & Hroot & _).
    by apply (Hroot (JArr [])).
  - destruct (parse_mcp_config_valid (host := Demo.platform)
                (λ _, Ret (JObj [("mcpServers", JObj [("demo", demo); ("late", late)])])) path)
      as (_ & _ & _ & _ & _ & Htimeout).
    eapply (Htimeout _ _ "late" _ _ eq_refl eq_refl).
    + apply list_elem_of_further, list_elem_of_here.
    + vm_compute. discriminate.
    + vm_compute. reflexivity.
Defined.

Lemma mcp_handler_returns_text_witness :
  Mcp._handler Demo.echo_call Demo.demo_server "echo"
    (Demo.ctx Demo.approve WORKSPACE_WRITE ON_REQUEST) [("text", JStr "hello")] []
  = (Ret "mcp:hello", [], ["called"]).
Proof.
  pose proof (mcp_handler_returns_text Demo.echo_call Demo.demo_server "echo"
                (Demo.ctx Demo.approve WORKSPACE_WRITE ON_REQUEST) [("text", JStr "hello")] [])
    as Hcall.
  simpl in Hcall. destruct Hcall as (text & Hcall & _ & Htext & _).
  rewrite Hcall, Htext. vm_compute. reflexivity.
Defined.

(** ** Loading MCP tools *)

Section McpLoadProperties.
Context {host : Platform} {W : Type}.
Variable is_file : Path → bool.
Variable _parse_mcp_config : Path → outcome (list Mcp.McpServerConfig).
Variable list_server_tools : Mcp.McpServerConfig → outcome (list Mcp.RawTool).
Variable mcp_handler : Mcp.McpServerConfig → string → ToolHandler W.
Implicit Types (s : Mcp.LoadState (W := W)) (server : Mcp.McpServerConfig).
Implicit Types (raw_tool : Mcp.RawTool) (reg : ToolRegistry W).

Local Abbreviation load_tool := (Mcp.load_tool mcp_handler).
Local Abbreviation load_server := (Mcp.load_server list_server_tools mcp_handler).
Local Abbreviation load_config :=
  (Mcp.load_config is_file _parse_mcp_config list_server_tools mcp_handler).
Local Abbreviation load_mcp_tools :=
  (Mcp.load_mcp_tools is_file _parse_mcp_config list_server_tools mcp_handler).
Local Abbreviation mcp_tool := (Mcp.mcp_tool mcp_handler).

Lemma load_tools_last_wins server (tools : list Mcp.RawTool) s (n : string) :
  let s' := foldl (load_tool server) s tools in
  _tools (Mcp.ls_registry s') !! n
  = match last (filter (registers_as server n) tools) with
    | Some raw_tool => Some (mcp_tool server raw_tool (Py.strip (Mcp.raw_name raw_tool)))
    | None => _tools (Mcp.ls_registry s) !! n
    end
  ∧ Mcp.tool_names (Mcp.ls_bridge s')
    = Mcp.tool_names (Mcp.ls_bridge s)
      ++ ((λ raw_tool, Mcp.namespaced_name server (Py.strip (Mcp.raw_name raw_tool)))
            <$> filter (λ raw_tool, Py.strip (Mcp.raw_name raw_tool) ≠ "") tools)
  ∧ Mcp.errors (Mcp.ls_bridge s') = Mcp.errors (Mcp.ls_bridge s).
Proof.
  intros s'. unfold s'. clear s'. revert s.
  induction tools as [| raw_tool tools IH]; intros s; simpl.
  { by rewrite app_nil_r. }
  destruct (IH (load_tool server s raw_tool)) as (Hlook & Hnames & Herrors).
  rewrite Hlook, Hnames, Herrors. clear IH Hlook Hnames Herrors.
  rewrite !filter_cons.
  destruct (decide (Py.strip (Mcp.raw_name raw_tool) = "")) as [Hblank | Hname].
  - assert (Hskip : load_tool server s raw_tool = s).
    { unfold Mcp.load_tool. by rewrite bool_decide_eq_true_2. }
    rewrite Hskip. rewrite decide_False by (intros [? _]; done).
    rewrite decide_False by (intros ?; done). done.
  - assert (Hadd : load_tool server s raw_tool
                   = Mcp.mkLoadState
                       (register (Mcp.ls_registry s)
                                 (mcp_tool server raw_tool (Py.strip (Mcp.raw_name raw_tool))))
                       (Mcp.ls_seen s)
                       (Mcp.mkMcpBridge
                          (Mcp.tool_names (Mcp.ls_bridge s)
                           ++ [Mcp.namespaced_name server (Py.strip (Mcp.raw_name raw_tool))])
                          (Mcp.errors (Mcp.ls_bridge s)))).
    { unfold Mcp.load_tool. by rewrite bool_decide_eq_false_2. }
    rewrite Hadd. rewrite (decide_True _ _ Hname). simpl.
    split_and!; [| by rewrite <- app_assoc | done].
    destruct (decide (registers_as server n raw_tool)) as [[_ Hn] | Hno].
    + rewrite last_cons. rewrite Hn, lookup_insert_eq. by destruct (last _).
    + rewrite lookup_insert_ne; [done |]. intros Hn. apply Hno. by split.
Qed.

Lemma load_tools_skip_blank server (tools : list Mcp.RawTool) s :
  foldl (load_tool server) s tools
  = foldl (load_tool server) s
      (filter (λ raw_tool, Py.strip (Mcp.raw_name raw_tool) ≠ "") tools).
Proof.
  revert s. induction tools as [| raw_tool tools IH]; intros s; [done |].
  rewrite filter_cons. simpl.
  destruct (decide (Py.strip (Mcp.raw_name raw_tool) ≠ "")) as [Hname | Hblank].
  - simpl. apply IH.
  - apply dec_stable in Hblank. rewrite <- IH. f_equal.
    unfold Mcp.load_tool. by rewrite bool_decide_eq_true_2.
Qed.

(** The loader has no check for names that are taken.  Of the tools a
    server lists, the last one that is registered under a name holds that
    name in the end, also when the registry held a tool of that name
    before; every registration is reported, so a name can be reported more
    than once.  A tool whose name is empty or made of white space only (a
    no-break space as much as a blank) is skipped: it is neither registered
    nor reported, and loading the list is loading it without such tools. *)
Theorem mcp_server_tools_last_wins server (tools : list Mcp.RawTool) s (n : string) :
  let s' := foldl (load_tool server) s tools in
  let named := filter (λ raw_tool, Py.strip (Mcp.raw_name raw_tool) ≠ "") tools in
  _tools (Mcp.ls_registry s') !! n
  = match last (filter (registers_as server n) tools) with
    | Some raw_tool => Some (mcp_tool server raw_tool (Py.strip (Mcp.raw_name raw_tool)))
    | None => _tools (Mcp.ls_registry s) !! n
    end
  ∧ Mcp.tool_names (Mcp.ls_bridge s')
    = Mcp.tool_names (Mcp.ls_bridge s)
      ++ ((λ raw_tool, Mcp.namespaced_name server (Py.strip (Mcp.raw_name raw_tool)))
            <$> named)
  ∧ Mcp.errors (Mcp.ls_bridge s') = Mcp.errors (Mcp.ls_bridge s)
  ∧ s' = foldl (load_tool server) s named
  ∧ (named = [] → s' = s).
Proof.
  intros s' named.
  destruct (load_tools_last_wins server tools s n) as (Hlook & Hnames & Herrors).
  pose proof (load_tools_skip_blank server tools s) as Hskip.
  split_and!; [exact Hlook | exact Hnames | exact Herrors | exact Hskip |].
  intros Hnone. unfold s'. rewrite Hskip. fold named. by rewrite Hnone.
Qed.

Lemma namespaced_name_shape server (name : string) :
  (∃ rest, Mcp.namespaced_name server name = "mcp__" +:+ rest)
  ∧ all_chars is_name_char (Mcp.namespaced_name server name) = true.
Proof.
  unfold Mcp.namespaced_name. split; [by eexists |].
  destruct (sanitize_with_sanitized "tool" (Mcp.server_name server) sanitized_tool)
    as (_ & Hserver & _).
  destruct (sanitize_with_sanitized "tool" name sanitized_tool) as (_ & Hname & _).
  unfold Mcp._sanitize_name. rewrite !all_chars_app, Hserver, Hname. done.
Qed.

Lemma mcp_loaded_refl reg : mcp_loaded reg reg [].
Proof. split_and!; [done | done |]. intros n Hn. by apply elem_of_nil in Hn. Qed.

Lemma load_tool_loaded reg server s raw_tool :
  mcp_loaded reg (Mcp.ls_registry s) (Mcp.tool_names (Mcp.ls_bridge s)) →
  mcp_loaded reg (Mcp.ls_registry (load_tool server s raw_tool))
             (Mcp.tool_names (Mcp.ls_bridge (load_tool server s raw_tool))).
Proof.
  intros (Hctx & Hframe & Hnames). unfold Mcp.load_tool.
  case_bool_decide as Hblank; [by split_and! |]. unfold register. simpl.
  set (name := Py.strip (Mcp.raw_name raw_tool)).
  set (n0 := Mcp.namespaced_name server name).
  split_and!.
  - done.
  - intros n Hn. rewrite elem_of_app, list_elem_of_singleton in Hn. simpl.
    rewrite lookup_insert_ne by (intros ->; apply Hn; by right).
    apply Hframe. intros Hin. apply Hn. by left.
  - intros n Hn. rewrite elem_of_app, list_elem_of_singleton in Hn. simpl.
    destruct (decide (n = n0)) as [-> | Hne].
    + rewrite lookup_insert_eq. split; [by eexists |]. apply namespaced_name_shape.
    + rewrite lookup_insert_ne by done. apply Hnames. by destruct Hn.
Qed.

Lemma load_tool_wf server s raw_tool :
  registry_wf (Mcp.ls_registry s) → registry_wf (Mcp.ls_registry (load_tool server s raw_tool)).
Proof.
  intros Hwf. unfold Mcp.load_tool. case_bool_decide; [done |]. simpl. by apply register_wf.
Qed.

(** What the loops of the loader keep true. *)
Lemma load_config_loaded reg s (raw_path : Path) :
  let keeps s :=
    mcp_loaded reg (Mcp.ls_registry s) (Mcp.tool_names (Mcp.ls_bridge s))
    ∧ (registry_wf reg → registry_wf (Mcp.ls_registry s)) in
  keeps s → keeps (load_config s raw_path).
Proof.
  intros keeps.
  assert (Htools : ∀ server tools s0, keeps s0 → keeps (foldl (load_tool server) s0 tools)).
  { intros server tools. induction tools as [| raw_tool tools IH]; intros s0 Hs0; [done |].
    simpl. apply IH. destruct Hs0 as [Hl Hwf].
    split; [by apply load_tool_loaded |]. intros Hreg. by apply load_tool_wf, Hwf. }
  assert (Hserver : ∀ server s0, keeps s0 → keeps (load_server s0 server)).
  { intros server s0 Hs0. unfold Mcp.load_server. case_bool_decide; [done |].
    destruct (list_server_tools server) as [tools | exc]; [by apply Htools | done]. }
  intros Hs. unfold Mcp.load_config. destruct (is_file _); [| done]. simpl.
  destruct (_parse_mcp_config _) as [servers | exc]; [| done].
  revert s Hs. induction servers as [| server servers IH]; intros s Hs; [done |].
  simpl. by apply IH, Hserver.
Qed.

(** Loading MCP tools touches only what it reports: the context and
    every tool whose name is not in [tool_names] are as before; every
    reported name is registered, under itself, starts with [mcp__] and is
    made of lower-case letters, digits and underscores.  A registry built
    by [register] stays one. *)
Theorem load_mcp_tools_frame reg (config_paths : list Path) :
  let out := load_mcp_tools reg config_paths in
  mcp_loaded reg out.1 (Mcp.tool_names out.2)
  ∧ (registry_wf reg → registry_wf out.1).
Proof.
  intros out. unfold out, Mcp.load_mcp_tools. simpl.
  set (s0 := Mcp.mkLoadState reg ∅ (Mcp.mkMcpBridge [] [])).
  assert (Hs0 : mcp_loaded reg (Mcp.ls_registry s0) (Mcp.tool_names (Mcp.ls_bridge s0))
                ∧ (registry_wf reg → registry_wf (Mcp.ls_registry s0))).
  { split; [apply mcp_loaded_refl | done]. }
  revert Hs0. generalize s0. clear s0.
  induction config_paths as [| raw_path config_paths IH]; intros s Hs; [done |].
  simpl. apply IH. by apply load_config_loaded.
Qed.

End McpLoadProperties.

Lemma mcp_server_tools_last_wins_witness :
  let s := Mcp.mkLoadState (Demo.registry (Demo.ctx Demo.approve WORKSPACE_WRITE ON_REQUEST)) ∅
                           (Mcp.mkMcpBridge [] []) in
  let s' := foldl (Mcp.load_tool (Mcp._handler Demo.echo_call) Demo.demo_server) s
                  Demo.listed_tools in
  tool_description <$> (_tools (Mcp.ls_registry s') !! "mcp__demo__read_file")
  = Some "Read (second)"
  ∧ Mcp.tool_names (Mcp.ls_bridge s') = ["mcp__demo__read_file"; "mcp__demo__read_file"]
  ∧ foldl (Mcp.load_tool (Mcp._handler Demo.echo_call) Demo.demo_server) s
      [Mcp.mkRawTool (Py.utf8 0xA0) "No name" None None] = s.
Proof.
  intros s s'.
  destruct (mcp_server_tools_last_wins (Mcp._handler Demo.echo_call) Demo.demo_server
              Demo.listed_tools s "mcp__demo__read_file") as (Hlook & Hnames & _).
  destruct (mcp_server_tools_last_wins (Mcp._handler Demo.echo_call) Demo.demo_server
              [Mcp.mkRawTool (Py.utf8 0xA0) "No name" None None] s "mcp__demo__read_file")
    as (_ & _ & _ & _ & Hblank).
  split_and!.
  - etrans; [exact (f_equal (fmap tool_description) Hlook) |]. vm_compute. reflexivity.
  - etrans; [exact Hnames |]. vm_compute. reflexivity.
  - apply Hblank. vm_compute. reflexivity.
Defined.

Lemma load_mcp_tools_frame_witness :
  let reg := Demo.registry (Demo.ctx Demo.approve WORKSPACE_WRITE ON_REQUEST) in
  let out := Mcp.load_mcp_tools (host := Demo.platform) (λ _, true)
               (λ _, Ret [Demo.demo_server]) (λ _, Ret Demo.listed_tools)
               (Mcp._handler Demo.echo_call) reg [mkPath "/" ["ws"; "apecode_mcp.json"]] in
  registry_wf out.1
  ∧ _tools out.1 !! "write_file" = _tools reg !! "write_file".
Proof.
  intros reg out.
  destruct (load_mcp_tools_frame (host := Demo.platform) (λ _, true)
              (λ _, Ret [Demo.demo_server]) (λ _, Ret Demo.listed_tools)
              (Mcp._handler Demo.echo_call) reg [mkPath "/" ["ws"; "apecode_mcp.json"]])
    as ((_ & Hframe & _) & Hwf).
  split.
  - apply Hwf. repeat apply register_wf. apply ToolRegistry_new_wf.
  - apply Hframe. vm_compute. intros Hin.
    repeat (apply elem_of_cons in Hin as [Hin | Hin]; [discriminate Hin |]).
    by apply elem_of_nil in Hin.
Defined.

(** ** Slash commands *)

Section CommandProperties.
Context {host : Platform} {W U : Type}.
Implicit Types (st : State W U) (cb : AgentCallbacks U) (model : ChatModel W).
Local Abbreviation M := (M W U).
Local Abbreviation CommandRegistry := (gmap string (Commands.SlashCommand (W := W) (U := U))).
Implicit Types (self commands : CommandRegistry).

(** In a registry without mutating tools a tool call returns, whatever
    the approval callback would do, unless [json.loads] raises on the
    argument text. *)
Lemma execute_read_only_outcome name args_json st :
  read_only_registry (st_tools st) →
  is_Ret (execute name args_json st).1 = true ∨ delegate_catches (execute name args_json st).1.
Proof.
  intros Hro. destruct (execute name args_json st) as [[text | e] st'] eqn:Hex; [by left |].
  right. apply execute_fault_sources in Hex
    as [(tool & fault & _ & _ & -> & _) | (tool & arguments & w & Hlook & Hmut & _)].
  - destruct fault; [right | left]; by eexists.
  - apply Hro in Hlook. congruence.
Qed.

Lemma read_only_same_setup st st' :
  same_setup st st' → read_only_registry (st_tools st) → read_only_registry (st_tools st').
Proof. intros (Htools & _) Hro k t. rewrite Htools. apply Hro. Qed.

Lemma run_tool_calls_read_only cb (calls : list ToolCall) st :
  hooks_return cb → read_only_registry (st_tools st) →
  ∃ r st', run_tool_calls cb calls st = (r, st')
           ∧ (r = Ret () ∧ same_setup st st' ∨ delegate_catches r).
Proof.
  intros (_ & _ & Hcall & Hresult). revert st.
  induction calls as [| call calls IH]; intros st Hro; simpl.
  { eexists _, _. split; [done |]. left. split; [done | apply same_setup_refl]. }
  rewrite bind_run.
  destruct (fire_returns (on_tool_call cb) (tc_name call, tc_arguments call) st Hcall)
    as [u1 ->].
  rewrite bind_run.
  pose proof (execute_read_only_outcome (tc_name call) (tc_arguments call) (with_ui u1 st) Hro)
    as Hout.
  destruct (execute (tc_name call) (tc_arguments call) (with_ui u1 st))
    as [[text | e] st2] eqn:Hex.
  2:{ eexists _, _. split; [done |]. right. simpl in Hout.
      destruct Hout as [Hout | [[message Hm] | [message Hm]]]; [done | |];
        injection Hm as ->; [left | right]; by eexists. }
  rewrite bind_run.
  destruct (fire_returns (on_tool_result cb) (tc_name call, text) st2 Hresult) as [u2 ->].
  rewrite bind_run. unfold append_message at 1, modify at 1.
  apply execute_frame in Hex as (_ & _ & Hs & _).
  assert (Hs' : same_setup st (with_messages
                  (st_messages (with_ui u2 st2) ++ [ToolMessage (tc_id call) text])
                  (with_ui u2 st2))).
  { destruct Hs as (? & ? & ? & ? & ?). by repeat split. }
  destruct (IH _ (read_only_same_setup _ _ Hs' Hro)) as (r & st' & Hrun & Hr).
  exists r, st'. split; [done |]. destruct Hr as [[-> Hs''] | Hr]; [left | by right].
  split; [done |]. by eapply same_setup_trans.
Qed.

(** With a model that answers and hooks that return, the steps over a
    registry without mutating tools end with a text, with the step-budget
    fault, or with what [json.loads] raised on an argument text: a
    [ValueError] or a [RuntimeError] in each case of a fault. *)
Lemma run_steps_read_only model cb limit n st :
  model_answers model → hooks_return cb → read_only_registry (st_tools st) →
  ∃ r st', run_steps model cb limit n st = (r, st')
           ∧ (is_Ret r = true ∨ delegate_catches r).
Proof.
  intros Hmodel Hhooks. pose proof Hhooks as (Hstatus & Hthinking & _). revert st.
  induction n as [| n IH]; intros st Hro; simpl.
  { eexists _, _. split; [done |]. right. right. by eexists. }
  rewrite bind_run. destruct (fire_returns (on_status cb) "Thinking..." st Hstatus) as [u1 ->].
  rewrite bind_run. unfold call_model at 1.
  destruct (Hmodel (st_messages (with_ui u1 st)) (as_openai_tools (st_tools (with_ui u1 st)))
              (st_world (with_ui u1 st))) as (assistant & w & Hanswer).
  rewrite Hanswer. rewrite bind_run.
  match goal with |- context [_fire (on_status cb) "" ?s] =>
    destruct (fire_returns (on_status cb) "" s Hstatus) as [u3 ->]; set (st3 := with_ui u3 s)
  end.
  rewrite bind_run.
  assert (∃ u4, match kept_reasoning assistant with
                | Some reasoning => _fire (on_thinking cb) reasoning
                | None => mret ()
                end st3 = (Ret (), with_ui u4 st3)) as [u4 ->].
  { destruct (kept_reasoning assistant) as [reasoning |].
    - apply fire_returns, Hthinking.
    - exists (st_ui st3). by destruct st3. }
  rewrite bind_run. unfold append_message at 1, modify at 1.
  destruct (a_tool_calls assistant) as [| call calls].
  { eexists _, _. split; [done |]. by left. }
  rewrite bind_run.
  match goal with |- context [run_tool_calls cb _ ?s] =>
    destruct (run_tool_calls_read_only cb (call :: calls) s Hhooks)
      as (r5 & st5 & -> & [[-> Hs5] | Hr5])
  end.
  { intros k t. apply Hro. }
  - apply IH. eapply read_only_same_setup; [exact Hs5 |]. intros k t. apply Hro.
  - destruct Hr5 as [[message ->] | [message ->]]; eexists _, _; (split; [done |]); right;
      [left | right]; by eexists.
Qed.

(** A delegated run over the registry of the session, with a model that
    answers and hooks that return, ends with a text or with a fault that
    [/delegate] catches: one of the two refusals of the runner, the
    step-budget fault, or what [json.loads] raised on an argument text. *)
Lemma subagent_run_outcome (runner : SubagentRunner W U) (task profile : string)
    (w : W) (u : U) (log : list Event) :
  model_answers (_model runner) → hooks_return (subagent_hooks runner) →
  let r := (SubagentRunner_run runner task profile w u log).1 in
  is_Ret r = true ∨ delegate_catches r.
Proof.
  intros Hmodel Hhooks r. unfold r. clear r.
  destruct (SubagentRunner_run runner task profile w u log) as [r out] eqn:Hrun. simpl.
  unfold SubagentRunner_run in Hrun.
  destruct (_profiles runner !! profile) as [profile_obj |];
    [| simplify_eq; right; left; by eexists].
  case_bool_decide; [simplify_eq; right; left; by eexists |].
  set (agent := subagent_agent runner profile_obj w u log) in Hrun.
  unfold run in Hrun. rewrite bind_run in Hrun.
  unfold append_message at 1, modify at 1 in Hrun.
  match type of Hrun with context [run_steps ?m ?c ?l ?n ?s] =>
    pose proof (run_steps_read_only m c l n s Hmodel Hhooks) as Htotal;
    destruct (run_steps m c l n s) as [r1 st1]
  end.
  destruct Htotal as (r' & st'' & [= <- <-] & Hr).
  { intros k t Hk. simpl in Hk. by apply subagent_tools_from_parent in Hk as (_ & _ & ? & _). }
  by simplify_eq.
Qed.

(** [/delegate] with a model that answers and subagent hooks that
    return: the command returns a result for every argument text, also when
    the profile is unknown, the task is blank or the subagent runs out of
    steps.  The conversation, the registry and the plan of the session are
    as before, and the approval callback has not been called. *)
Theorem delegate_returns (runner : SubagentRunner W U) (infos : list Commands.CommandInfo)
    (args : string) st :
  model_answers (_model runner) → hooks_return (subagent_hooks runner) →
  ∃ result st',
    Commands._delegate_handler (Some runner) infos args st = (Ret result, st')
    ∧ st_tools st' = st_tools st
    ∧ st_messages st' = st_messages st
    ∧ approval_calls (st_log st') = approval_calls (st_log st).
Proof.
  intros Hmodel Hhooks. unfold Commands._delegate_handler.
  case_bool_decide; [by eexists _, _ |].
  destruct (match Commands.split_once "::" args with
            | Some (profile, task) => (py_lower (Py.strip profile), Py.strip task)
            | None => ("general", Py.strip args)
            end) as [profile task].
  case_bool_decide; [by eexists _, _ |].
  set (runner' := Commands.runner_of_session runner st).
  pose proof (subagent_run_outcome runner' task profile (st_world st) (st_ui st) (st_log st)
                Hmodel Hhooks) as Hout.
  destruct (subagent_run_events runner' task profile (st_world st) (st_ui st) (st_log st))
    as (events & Hlog & Hask & _).
  destruct (SubagentRunner_run runner' task profile (st_world st) (st_ui st) (st_log st))
    as [r [[w u] log]].
  simpl in Hout, Hlog. subst log.
  assert (Hcalls : approval_calls (st_log st ++ events) = approval_calls (st_log st)).
  { by rewrite approval_calls_app, Hask, app_nil_r. }
  destruct Hout as [Hr | [[message ->] | [message ->]]].
  - destruct r as [output | exc]; [| done]. by eexists _, _.
  - by eexists _, _.
  - by eexists _, _.
Qed.

End CommandProperties.

(** ** Dispatch of slash commands *)

Section DispatchProperties.
Context {host : Platform} {W U : Type}.
Implicit Types (st : State W U) (s t n args : string).

Local Abbreviation SlashCommand := (Commands.SlashCommand (W := W) (U := U)).
Local Abbreviation CommandRegistry := (gmap string SlashCommand).
Implicit Types (self commands : CommandRegistry) (command : SlashCommand).

Lemma name_char_not_blank (c : ascii) : is_name_char c = true → Ascii.eqb " " c = false.
Proof. destruct c as [[] [] [] [] [] [] [] []]; by vm_compute. Qed.

(** Two ways to cut the same text: one cut lies before the other. *)
Lemma append_split (a b c d : string) :
  a +:+ b = c +:+ d →
  (∃ k, a = c +:+ k ∧ d = k +:+ b) ∨ (∃ k, k ≠ "" ∧ c = a +:+ k ∧ b = k +:+ d).
Proof.
  revert c. induction a as [| x a IH]; intros c Heq.
  - destruct c as [| y c]; [left; by exists "" |]. right. by exists (String y c).
  - destruct c as [| y c]; [left; by exists (String x a) |].
    rewrite !append_cons in Heq. injection Heq as -> Heq.
    destruct (IH c Heq) as [(k & -> & ->) | (k & Hk & -> & ->)]; [left | right]; by exists k.
Qed.

(** The blank occurs in no white-space character but the blank itself. *)
Lemma whitespace_blank w :
  w ∈ Py.whitespace → w = " " ∨ all_chars (λ c, negb (Ascii.eqb c " ")) w = true.
Proof.
  intros Hin. vm_compute in Hin.
  repeat (apply elem_of_cons in Hin as [-> | Hin];
          [first [by left | right; vm_compute; reflexivity] |]).
  by apply elem_of_nil in Hin.
Qed.

(** A name, a blank and arguments with no white space around them make
    a text with no white space around it. *)
Lemma trimmed_command n args :
  n ≠ "" → all_chars is_name_char n = true → args ≠ "" → trimmed args →
  trimmed (n +:+ " " +:+ args).
Proof.
  intros Hn Hchars Hargs [_ Hend]. split.
  - intros (w & rest & Hin & Heq).
    apply whitespace_bytes in Hin as (c & w' & -> & Hw).
    destruct n as [| c0 n]; [done |]. rewrite !append_cons in Heq. injection Heq as <- _.
    simpl in Hchars, Hw. apply andb_true_iff in Hchars as [Hc _].
    apply andb_true_iff in Hw as [Hw _]. apply name_char_no_space in Hc.
    by rewrite Hw in Hc.
  - intros (w & front & Hin & Heq). rewrite append_assoc in Heq.
    apply append_split in Heq as [(k & Hk & ->) | (k & Hk & -> & ->)].
    2:{ apply Hend. by exists w, k. }
    destruct k as [| x k]; [apply Hend; by exists args, "" |].
    apply append_split in Hk as [(k2 & -> & Hk2) | (k2 & Hk2 & -> & Hblank)].
    + rewrite Hk2 in Hin. apply whitespace_blank in Hin as [Hw | Hw].
      * apply (f_equal String.length) in Hw. rewrite !length_append in Hw. simpl in Hw.
        destruct args; [done | simpl in Hw; lia].
      * rewrite !all_chars_app in Hw. simpl in Hw. by rewrite andb_false_r in Hw.
    + apply (f_equal String.length) in Hblank. rewrite !length_append in Hblank.
      simpl in Hblank. destruct k2; [done | simpl in Hblank; lia].
Qed.

Lemma starts_with_blank (c : ascii) s :
  Ascii.eqb " " c = false → Py.after " " (String c s) = None.
Proof. intros Hc. cbn [Py.after]. by rewrite Hc. Qed.

Lemma split_once_blank_none n :
  all_chars is_name_char n = true → Commands.split_once " " n = None.
Proof.
  induction n as [| c n IH]; [done |]. cbn [all_chars Commands.split_once].
  rewrite andb_true_iff. intros [Hc Hn]. apply name_char_not_blank in Hc.
  by rewrite (starts_with_blank c n Hc), IH.
Qed.

Lemma split_once_blank_name n args :
  all_chars is_name_char n = true →
  Commands.split_once " " (n +:+ " " +:+ args) = Some (n, args).
Proof.
  induction n as [| c n IH]; [done |].
  rewrite append_cons. cbn [all_chars Commands.split_once].
  rewrite andb_true_iff. intros [Hc Hn]. apply name_char_not_blank in Hc.
  by rewrite (starts_with_blank c _ Hc), IH.
Qed.

(** A line that does not start with a slash is no command: [run]
    answers [None] and touches nothing.  A line that starts with a slash
    is never answered with [None].  A registered command whose name is
    sanitized is reached by its name after the slash, alone or followed by
    a blank and the arguments; its handler gets the arguments as they are
    when they have no white-space character, of Unicode's, at either
    end. *)
Theorem command_run_dispatch self (raw_input : string) st :
  (first_char raw_input ≠ Some "/"%char → Commands.run self raw_input st = (Ret None, st))
  ∧ (first_char raw_input = Some "/"%char → (Commands.run self raw_input st).1 ≠ Ret None)
  ∧ (∀ n command,
       sanitized n → self !! n = Some command →
       let call args :=
         let '(r, st') :=
           Commands.handler command (Commands.command_infos self) args st in
         (outcome_bind r (λ result, Ret (Some result)), st') in
       Commands.run self ("/" +:+ n) st = call ""
       ∧ ∀ args, args ≠ "" → trimmed args →
                 Commands.run self ("/" +:+ n +:+ " " +:+ args) st = call args).
Proof.
  split_and!.
  - destruct raw_input as [| c rest]; [done |]. simpl. intros Hc.
    destruct c as [[] [] [] [] [] [] [] []]; try done.
  - destruct raw_input as [| c rest]; [done |]. simpl. intros [= ->].
    unfold Commands.run. case_bool_decide; [done |].
    destruct (match Commands.split_once " " (Py.strip rest) with
              | Some (name, args) => (name, Py.strip args)
              | None => (Py.strip rest, "")
              end) as [name args].
    destruct (self !! name) as [command |]; [| done].
    destruct (Commands.handler command _ args st) as [[result | exc] st']; done.
  - intros n command (Hne & Hchars & _) Hlook call.
    pose proof (name_chars_trimmed n Hchars) as Hstripped.
    split.
    + unfold Commands.run. change ("/" +:+ n) with (String "/" n). cbv iota beta.
      rewrite (strip_fixed _ Hstripped).
      rewrite bool_decide_eq_false_2 by done.
      rewrite (split_once_blank_none n Hchars), Hlook. done.
    + intros args Hargs Hclean. unfold Commands.run.
      change ("/" +:+ n +:+ " " +:+ args) with (String "/" (n +:+ " " +:+ args)).
      cbv iota beta.
      rewrite (strip_fixed _ (trimmed_command n args Hne Hchars Hargs Hclean)).
      rewrite bool_decide_eq_false_2 by (by apply append_nonempty_l).
      rewrite (split_once_blank_name n args Hchars).
      rewrite (strip_fixed _ Hclean), Hlook. done.
Qed.

(** Registering the commands of plugins never replaces a command: every
    command registered before is still there, unchanged; each plugin
    command is either loaded or reported, and the names registered in the
    end are those registered before and those of the plugin commands. *)
Theorem plugin_commands_never_replace commands (specs : list Plugins.PluginCommandSpec) :
  let out := Commands._register_plugin_commands commands specs in
  (∀ n command, commands !! n = Some command → out.1.1 !! n = Some command)
  ∧ out.1.2 + length out.2 = length specs
  ∧ (∀ n, is_Some (out.1.1 !! n)
          ↔ is_Some (commands !! n) ∨ n ∈ Plugins.cmd_name <$> specs).
Proof.
  intros out. unfold out, Commands._register_plugin_commands. clear out.
  assert (Hgen : ∀ acc : CommandRegistry * nat * list string,
            let out := foldl Commands.register_plugin_command acc specs in
            (∀ n command, acc.1.1 !! n = Some command → out.1.1 !! n = Some command)
            ∧ out.1.2 + length out.2 = acc.1.2 + length acc.2 + length specs
            ∧ (∀ n, is_Some (out.1.1 !! n)
                    ↔ is_Some (acc.1.1 !! n) ∨ n ∈ Plugins.cmd_name <$> specs)).
  2:{ destruct (Hgen (commands, 0, [])) as (Hkeep & Hcount & Hnames). simpl in *.
      split_and!; [done | lia | done]. }
  induction specs as [| spec specs IH]; intros [[registered loaded] errors].
  { simpl. split_and!; [done | lia |]. intros n. rewrite elem_of_nil. naive_solver. }
  cbn [foldl fmap list_fmap length].
  set (acc' := Commands.register_plugin_command (registered, loaded, errors) spec).
  destruct (IH acc') as (Hkeep & Hcount & Hnames). clear IH.
  assert (Hstep : (∀ n command, registered !! n = Some command → acc'.1.1 !! n = Some command)
                  ∧ acc'.1.2 + length acc'.2 = S (loaded + length errors)
                  ∧ (∀ n, is_Some (acc'.1.1 !! n)
                          ↔ is_Some (registered !! n) ∨ n = Plugins.cmd_name spec)).
  { unfold acc', Commands.register_plugin_command, Commands.register. simpl.
    destruct (decide (is_Some (registered !! Plugins.cmd_name spec))) as [Htaken | Hfree].
    - rewrite bool_decide_eq_true_2 by done. simpl.
      split_and!; [done | rewrite length_app; simpl; lia |].
      intros n. split; [by left |]. by intros [? | ->].
    - rewrite bool_decide_eq_false_2 by done. simpl. split_and!; [| lia |].
      + intros n command Hn. rewrite lookup_insert_ne; [done |].
        intros <-. apply Hfree. by eexists.
      + intros n. destruct (decide (Plugins.cmd_name spec = n)) as [<- | Hne].
        * rewrite lookup_insert_eq. split; [by right | by eexists].
        * rewrite lookup_insert_ne by done. split; [by left |]. by intros [? | ->]. }
  destruct Hstep as (Hkeep' & Hcount' & Hnames').
  split_and!.
  - intros n command Hn. by apply Hkeep, Hkeep'.
  - simpl in *. lia.
  - intros n. rewrite Hnames, Hnames', elem_of_cons. simpl. naive_solver.
Qed.

End DispatchProperties.

Lemma delegate_returns_witness :
  let st := Demo.start (Demo.ctx Demo.broken_prompt WORKSPACE_WRITE ON_REQUEST) in
  let out := Commands._delegate_handler (host := Demo.platform)
               (Some (Demo.runner Demo.LoopingModel 2)) [] "reviewer:: check tests" st in
  outcome_bind out.1 (λ result, Ret (Commands.output result))
  = Ret "Subagent execution failed: max steps exceeded (2)"
  ∧ st_messages out.2 = st_messages st.
Proof.
  intros st out.
  destruct (delegate_returns (host := Demo.platform) (Demo.runner Demo.LoopingModel 2) []
              "reviewer:: check tests" st) as (result & st' & Hrun & _ & Hmessages & _).
  - intros msgs schemas w. by eexists _, _.
  - split_and!; intros f Hf; discriminate Hf.
  - split; [vm_compute; reflexivity |]. unfold out. by rewrite Hrun.
Defined.

Lemma command_run_dispatch_witness :
  let commands := (Commands._register_plugin_commands (Demo.default_commands Demo.DoneModel)
                     Demo.plugin_commands).1.1 in
  let out := Commands.run commands ("/" +:+ "quick_review" +:+ " " +:+ "fix it")
               (Demo.start (Demo.ctx Demo.approve WORKSPACE_WRITE ON_REQUEST)) in
  outcome_bind out.1 (λ result, Ret (Commands.agent_input <$> result))
  = Ret (Some (Some "Review task: fix it")).
Proof.
  intros commands out.
  destruct (commands !! "quick_review") as [command |] eqn:Hlook;
    [| vm_compute in Hlook; discriminate Hlook].
  destruct (command_run_dispatch commands "/quick_review fix it"
              (Demo.start (Demo.ctx Demo.approve WORKSPACE_WRITE ON_REQUEST)))
    as (_ & _ & Hcall).
  destruct (Hcall "quick_review" command) as [_ Hargs]; [| exact Hlook |].
  { split_and!; [done | done | split; intros c [= <-]; done]. }
  unfold out. rewrite (Hargs "fix it"); [| done | by apply trimmed_strip].
  assert (Hcommand : commands !! "quick_review"
                     = Some (Commands.create_template_command "quick_review"
                               "[plugin:EchoPlugin] Review with plugin template"
                               "/quick-review <task>" "Running quick review..."
                               (Some "Review task: {args}")))
    by (vm_compute; reflexivity).
  rewrite Hlook in Hcommand. injection Hcommand as ->. vm_compute. reflexivity.
Defined.

Lemma plugin_commands_never_replace_witness :
  let before := Demo.default_commands Demo.DoneModel in
  let out := Commands._register_plugin_commands before Demo.plugin_commands in
  Commands.description <$> (out.1.1 !! "help") = Some "Show available slash commands."
  ∧ out.1.2 = 1
  ∧ out.2 = ["command already registered: /help"].
Proof.
  intros before out.
  destruct (plugin_commands_never_replace before Demo.plugin_commands) as (Hkeep & _ & _).
  destruct (before !! "help") as [command |] eqn:Hlook;
    [| vm_compute in Hlook; discriminate Hlook].
  split_and!.
  - unfold out. rewrite (Hkeep "help" command Hlook).
    etrans; [exact (f_equal (fmap Commands.description) (eq_sym Hlook)) |].
    vm_compute. reflexivity.
  - vm_compute. reflexivity.
  - vm_compute. reflexivity.
Defined.

(** ** Merging skills *)

Section SkillProperties.
Context {host : Platform}.
Implicit Types (self : gmap string Skills.Skill) (skill : Skills.Skill) (n : string).

(** Merging additional skills into a catalog never replaces a skill: a
    name of the catalog keeps its skill; a free name goes to the first
    additional skill whose normalized name it is, stored under that name;
    a skill whose name normalizes to the empty text is dropped.  The
    normalized name is the name without the white space around it, in
    lower case (Unicode's, for a name that is not ASCII), with a dash for
    every blank. *)
Theorem with_additional_first_wins self (skills : list Skills.Skill) n :
  Skills.with_additional self skills !! n
  = match self !! n with
    | Some existing => Some existing
    | None =>
        if bool_decide (n = "") then None
        else (λ skill, Skills.mkSkill n (Skills.description skill) (Skills.path skill)
                                      (Skills.inline_content skill) (Skills.source skill))
               <$> head (filter (λ skill, Skills._normalize_name (Skills.name skill) = n) skills)
    end.
Proof.
  unfold Skills.with_additional. revert self.
  induction skills as [| skill skills IH]; intros self; simpl.
  { destruct (self !! n); [done |]. by case_bool_decide. }
  rewrite IH. clear IH. rewrite filter_cons. unfold Skills.add_skill.
  set (m := Skills._normalize_name (Skills.name skill)).
  destruct (decide (m = "")) as [Hempty | Hname].
  - rewrite bool_decide_eq_true_2 by done. simpl.
    destruct (decide (m = n)) as [<- | Hne]; [| done].
    destruct (self !! m); [done |]. by rewrite bool_decide_eq_true_2.
  - rewrite (bool_decide_eq_false_2 (m = "")) by done. simpl.
    destruct (self !! m) as [taken |] eqn:Htaken.
    + rewrite bool_decide_eq_true_2 by (by eexists).
      destruct (decide (m = n)) as [<- | Hne]; [| done]. by rewrite Htaken.
    + rewrite bool_decide_eq_false_2 by (by intros [? ?]).
      destruct (decide (m = n)) as [<- | Hne].
      * rewrite lookup_insert_eq, Htaken. by rewrite bool_decide_eq_false_2.
      * by rewrite lookup_insert_ne.
Qed.

End SkillProperties.

(** Two skills claim the name [inline], the second with a no-break
    space before it: the first one keeps the name. *)
Lemma with_additional_first_wins_witness :
  let skills :=
    [ Skills.mkSkill "Inline" "Inline plugin skill" None (Some "Use concise output.")
                     "plugin:test";
      Skills.mkSkill (Py.utf8 0xA0 +:+ "inline ") "A second claim" None (Some "Other.")
                     "plugin:other";
      Skills.mkSkill (Py.utf8 0xC9 +:+ "mile Zola") "Novels" None (Some "Write.")
                     "plugin:test";
      Skills.mkSkill (Py.utf8 0xA0 +:+ Py.utf8 0x2003) "No name" None None "plugin:test" ] in
  let merged := Skills.with_additional (host := Demo.platform) ∅ skills in
  Skills.name <$> (merged !! "inline") = Some "inline"
  ∧ Skills.description <$> (merged !! "inline") = Some "Inline plugin skill"
  ∧ Skills.description <$> (merged !! (Py.utf8 0xE9 +:+ "mile-zola")) = Some "Novels"
  ∧ merged !! (Py.utf8 0xC9 +:+ "mile-zola") = None
  ∧ merged !! "" = None
  ∧ Skills._normalize_name (host := Demo.platform) (Py.utf8 0xA0 +:+ "inline ") = "inline".
Proof.
  intros skills merged. unfold merged.
  rewrite !(with_additional_first_wins (host := Demo.platform)).
  split_and!; vm_compute; reflexivity.
Defined.



Lemma subagent_registry_keeps_read_only_witness :
  let parent := Demo.registry (Demo.ctx Demo.approve DANGER_FULL_ACCESS ALWAYS) in
  _tools (_build_subagent_tools (host := Demo.platform) parent) !! "list_files"
  = Some Demo.list_files_tool.
Proof.
  intros parent.
  apply (subagent_registry_keeps_read_only (host := Demo.platform) parent "list_files"
           Demo.list_files_tool).
  - repeat apply register_wf. apply ToolRegistry_new_wf.
  - split_and!; [reflexivity | reflexivity | discriminate].
Defined.

Lemma run_requests_within_budget_witness :
  let st := Demo.start (Demo.ctx Demo.approve WORKSPACE_WRITE ON_REQUEST) in
  (run (host := Demo.platform) Demo.LoopingModel (mkAgentConfig 0) Demo.no_callbacks
       "Inspect the file" st).1
  = Raise (StepBudgetExceeded 0).
Proof.
  intros st.
  destruct (run_requests_within_budget (host := Demo.platform) Demo.LoopingModel
              (mkAgentConfig 0) Demo.no_callbacks "Inspect the file" st) as [_ Hzero].
  simpl in Hzero. by rewrite Hzero.
Defined.

Lemma subagent_run_read_only_witness :
  let out := SubagentRunner_run (host := Demo.platform) (Demo.runner Demo.LoopingModel 2)
               "check tests" "general" [] [] [] in
  handler_calls out.2.2 = [("list_files", []); ("list_files", [])]
  ∧ approval_calls out.2.2 = [].
Proof.
  intros out.
  destruct (subagent_run_read_only (host := Demo.platform) (U := Demo.Display)
              Demo.LoopingModel (Demo.registry (Demo.ctx Demo.approve DANGER_FULL_ACCESS ALWAYS))
              "base prompt" 2 DEFAULT_SUBAGENT_PROFILES None "check tests" "general" [] [] [])
    as (events & Hlog & Hask & _).
  split; [vm_compute; reflexivity |].
  etrans; [exact (f_equal approval_calls Hlog) |]. exact Hask.
Defined.

(** ** The stored plan *)

Section StoredPlanProperties.
Context {host : Platform} {W : Type}.
Implicit Types (p : list PlanItem) (items : list json) (ctx : ToolContext W).

Lemma status_stripped (s : string) : s ∈ plan_statuses → Py.strip s = s.
Proof.
  intros Hs. apply status_allowed in Hs as [-> | [-> | ->]]; by vm_compute.
Qed.

Lemma normalized_item_normalized (item : json) :
  valid_plan_item item → normalized_plan_item (normalized_item item).
Proof.
  destruct item as [| | | | | | fields]; try done. simpl. intros [Hstep Hstatus].
  split_and!; [done | apply strip_trimmed | by apply status_allowed].
Qed.

Lemma normalize_plan_stored p (acc : list PlanItem) :
  Forall normalized_plan_item p →
  normalize_plan (plan_item_json <$> p) acc = inr (acc ++ p).
Proof.
  intros Hall. revert acc.
  induction Hall as [| item p (Hstep & Hclean & Hstatus) _ IH]; intros acc; simpl.
  { by rewrite app_nil_r. }
  rewrite (strip_fixed _ Hclean), (status_stripped _ Hstatus).
  rewrite bool_decide_eq_false_2 by done.
  rewrite (bool_decide_eq_true_2 _ Hstatus). simpl.
  rewrite IH, <- app_assoc. by destruct item.
Qed.

(** Every item of a plan that the plan tool has stored has a step that
    is not empty and has no white space around it, and one of the three
    statuses; and the stored plan is a fixed point of the tool: handing it
    back as the payload, in any context, stores it again as it is. *)
Theorem update_plan_stored_plan_normalized ctx (args : dict) (w : W) items :
  dict_get "plan" args = Some (JArr items) →
  Forall valid_plan_item items →
  let stored := (_update_plan ctx args w).1.2 in
  Forall normalized_plan_item stored
  ∧ ∀ (ctx' : ToolContext W) (w' : W),
      _update_plan ctx' [("plan", plan_json stored)] w'
      = (Ret (plan_ok_text (length stored)), stored, w').
Proof.
  intros Hplan Hvalid stored.
  assert (Hstored : stored = normalized_item <$> items).
  { unfold stored, _update_plan. rewrite Hplan.
    destruct (normalize_plan items []) as [message | normalized] eqn:Hn.
    - apply normalize_plan_inl in Hn as [Hbad _]. done.
    - by apply normalize_plan_inr in Hn as [_ ->]. }
  assert (Hall : Forall normalized_plan_item stored).
  { rewrite Hstored. apply Forall_fmap. eapply Forall_impl; [exact Hvalid |].
    intros item. apply normalized_item_normalized. }
  split; [exact Hall |]. intros ctx' w'. unfold _update_plan, plan_json. simpl.
  by rewrite (normalize_plan_stored stored [] Hall).
Qed.

End StoredPlanProperties.

Lemma update_plan_stored_plan_normalized_witness :
  let spaced := Py.utf8 0xA0 +:+ "implement" +:+ Py.utf8 0x2003 in
  let args := [("plan", JArr [JObj [("step", JStr spaced); ("status", JStr "in_progress")]])] in
  let ctx := Demo.ctx Demo.approve WORKSPACE_WRITE ON_REQUEST in
  let stored := (_update_plan (host := Demo.platform) ctx args ([] : Demo.World)).1.2 in
  stored = [mkPlanItem "implement" "in_progress"]
  ∧ (_update_plan (host := Demo.platform) ctx [("plan", plan_json stored)] ([] : Demo.World)).1.2
    = stored.
Proof.
  intros spaced args ctx stored.
  destruct (update_plan_stored_plan_normalized (host := Demo.platform) ctx args ([] : Demo.World)
              [JObj [("step", JStr spaced); ("status", JStr "in_progress")]])
    as [_ Hfixed].
  - reflexivity.
  - apply Forall_cons_2; [| constructor]. vm_compute. split; [discriminate | auto].
  - split; [vm_compute; reflexivity |]. fold stored in Hfixed. by rewrite Hfixed.
Defined.

(** ** The built-in tools *)

Section BuiltinToolProperties.
Context {host : Platform} {W : Type}.
Variable fs_mkdir : Path → W → outcome unit * W.
Variable fs_write_text : Path → string → W → outcome unit * W.
Variable fs_append_text : Path → string → W → outcome unit * W.
Variable shell_run : string → Path → Z → W → outcome Plugins.CompletedProcess * W.
Variables _list_files _read_file _grep_files _replace_in_file : ToolHandler W.
Variable description_of : string → string.
Variable parameters_of : string → json.
Implicit Types (ctx : ToolContext W) (args : dict) (w : W).

Local Abbreviation write_file := (_write_file fs_mkdir fs_write_text fs_append_text).
Local Abbreviation exec_command := (_exec_command shell_run).
Local Abbreviation default_registry :=
  (create_default_registry fs_mkdir fs_write_text fs_append_text shell_run
     _list_files _read_file _grep_files _replace_in_file description_of parameters_of).

Lemma write_file_confined ctx args w :
  sandbox_mode ctx ≠ DANGER_FULL_ACCESS →
  let out := write_file ctx args w in
  let content := py_str (default (JStr "") (dict_get "content" args)) in
  out.1.2 = plan ctx
  ∧ (out.2 = w
     ∨ ∃ raw path,
         dict_get "path" args = Some raw
         ∧ resolve_path ctx (py_str raw) = Ret path
         ∧ within_root (cwd ctx) path
         ∧ let w1 := (fs_mkdir (Path_parent path) w).2 in
           out.2 = w1
           ∨ out.2 = (fs_write_text path content w1).2
           ∨ out.2 = (fs_append_text path content w1).2)
  ∧ (dict_get "path" args = None → out = (Raise (KeyError "path"), plan ctx, w))
  ∧ (∀ raw exc, dict_get "path" args = Some raw →
       resolve_path ctx (py_str raw) = Raise exc → out.2 = w).
Proof.
  intros Hmode out content. unfold out, _write_file. clear out.
  destruct (dict_get "path" args) as [raw |] eqn:Hpath; [| by split_and!; [| left | |]].
  case_bool_decide as Hvalid; simpl.
  2:{ split_and!; [done | by left | done | done]. }
  destruct (resolve_path ctx (py_str raw)) as [path | exc] eqn:Hresolve.
  2:{ split_and!; [done | by left | done | done]. }
  assert (Hin : within_root (cwd ctx) path).
  { unfold resolve_path in Hresolve. rewrite bool_decide_eq_true_2 in Hresolve by done.
    simpl in Hresolve.
    destruct (_is_within (cwd ctx) (resolved_candidate ctx (py_str raw))) eqn:Hw;
      [| discriminate Hresolve].
    simpl in Hresolve. simplify_eq. by apply is_within_iff. }
  fold content.
  assert (Hrest : ∀ (r : outcome string) (w' : W),
            (let w1 := (fs_mkdir (Path_parent path) w).2 in
             w' = w1 ∨ w' = (fs_write_text path content w1).2
             ∨ w' = (fs_append_text path content w1).2) →
            (r, plan ctx, w').1.2 = plan ctx
            ∧ ((r, plan ctx, w').2 = w
               ∨ ∃ raw0 path0,
                   Some raw = Some raw0
                   ∧ resolve_path ctx (py_str raw0) = Ret path0
                   ∧ within_root (cwd ctx) path0
                   ∧ let w1 := (fs_mkdir (Path_parent path0) w).2 in
                     (r, plan ctx, w').2 = w1
                     ∨ (r, plan ctx, w').2 = (fs_write_text path0 content w1).2
                     ∨ (r, plan ctx, w').2 = (fs_append_text path0 content w1).2)
            ∧ (Some raw = None → (r, plan ctx, w') = (Raise (KeyError "path"), plan ctx, w))
            ∧ (∀ raw0 exc,
                 Some raw = Some raw0 → resolve_path ctx (py_str raw0) = Raise exc →
                 (r, plan ctx, w').2 = w)).
  { intros r w' Hw'. split_and!; [done | | done |].
    - right. by exists raw, path.
    - intros raw0 exc [= <-] Hraise. congruence. }
  destruct (fs_mkdir (Path_parent path) w) as [[[] | exc] w1] eqn:Hmk; simpl in *.
  2:{ apply Hrest. by left. }
  case_bool_decide as Hover.
  - destruct (fs_write_text path content w1) as [[[] | exc] w2] eqn:Hwr; simpl in *.
    + destruct (relative_to path (cwd ctx)) as [rel | exc]; apply Hrest; right; by left.
    + apply Hrest. right. by left.
  - destruct (fs_append_text path content w1) as [[[] | exc] w2] eqn:Hwr; simpl in *.
    + destruct (relative_to path (cwd ctx)) as [rel | exc]; apply Hrest; right; by right.
    + apply Hrest. right. by right.
Qed.

(** Outside full access, [write_file] writes inside the workspace or not
    at all: either the world is as it was, or the path it resolved lies
    under the workspace root, and the world is what creating the parent
    directory and then writing or appending to that very path left.  The
    plan is never touched.  A missing path raises and leaves the world as
    it was; a mode other than the two is answered with the text that names
    the two modes, before the path is resolved, and nothing is created or
    written; a path that escapes the workspace raises what resolving it
    raised and leaves the world as it was. *)
Theorem write_file_stays_in_workspace ctx args w :
  sandbox_mode ctx ≠ DANGER_FULL_ACCESS →
  let out := write_file ctx args w in
  let content := py_str (default (JStr "") (dict_get "content" args)) in
  let mode := py_str (default (JStr "overwrite") (dict_get "mode" args)) in
  out.1.2 = plan ctx
  ∧ (out.2 = w
     ∨ ∃ raw path,
         dict_get "path" args = Some raw
         ∧ mode ∈ ["overwrite"; "append"]
         ∧ resolve_path ctx (py_str raw) = Ret path
         ∧ within_root (cwd ctx) path
         ∧ let w1 := (fs_mkdir (Path_parent path) w).2 in
           out.2 = w1
           ∨ out.2 = (fs_write_text path content w1).2
           ∨ out.2 = (fs_append_text path content w1).2)
  ∧ (dict_get "path" args = None → out = (Raise (KeyError "path"), plan ctx, w))
  ∧ (∀ raw, dict_get "path" args = Some raw → mode ∉ ["overwrite"; "append"] →
       out = (Ret "mode must be one of: overwrite, append", plan ctx, w))
  ∧ (∀ raw exc, dict_get "path" args = Some raw → mode ∈ ["overwrite"; "append"] →
       resolve_path ctx (py_str raw) = Raise exc → out = (Raise exc, plan ctx, w))
  ∧ (∀ raw exc, dict_get "path" args = Some raw →
       resolve_path ctx (py_str raw) = Raise exc → out.2 = w).
Proof.
  intros Hmode out content mode.
  destruct (write_file_confined ctx args w Hmode) as (Hplan & Hworld & Hmissing & Hescape).
  assert (Hbad : ∀ raw, dict_get "path" args = Some raw → mode ∉ ["overwrite"; "append"] →
            out = (Ret "mode must be one of: overwrite, append", plan ctx, w)).
  { intros raw Hpath Hnot. unfold out, _write_file. rewrite Hpath. fold mode.
    by rewrite bool_decide_eq_false_2. }
  split_and!; [exact Hplan | | exact Hmissing | exact Hbad | | exact Hescape].
  - destruct Hworld as [Hsame | (raw & path & Hpath & Hresolve & Hin & Hw)]; [by left |].
    destruct (decide (mode ∈ ["overwrite"; "append"])) as [Hvalid | Hnot].
    + right. by exists raw, path.
    + left. fold out. by rewrite (Hbad raw Hpath Hnot).
  - intros raw exc Hpath Hvalid Hresolve. unfold out, _write_file. rewrite Hpath. fold mode.
    rewrite (bool_decide_eq_true_2 _ Hvalid). simpl. by rewrite Hresolve.
Qed.

(** With full access, a write outside the workspace is done and then
    reported as a failure: once the file is written, the path relative to
    the workspace root, which the success text needs, does not exist, and
    the handler raises. *)
Theorem write_file_outside_workspace_reports_failure ctx args w (raw : json) (w1 w2 : W) :
  sandbox_mode ctx = DANGER_FULL_ACCESS →
  dict_get "path" args = Some raw →
  dict_get "mode" args = None →
  let path := resolved_candidate ctx (py_str raw) in
  let content := py_str (default (JStr "") (dict_get "content" args)) in
  ¬ within_root (cwd ctx) path →
  fs_mkdir (Path_parent path) w = (Ret (), w1) →
  fs_write_text path content w1 = (Ret (), w2) →
  ∃ message, write_file ctx args w = (Raise (ValueError message), plan ctx, w2).
Proof.
  intros Hmode Hpath Hdefault path content Hout Hmk Hwr.
  unfold _write_file. rewrite Hpath, Hdefault. simpl.
  unfold resolve_path. rewrite bool_decide_eq_false_2 by (intros Hne; by apply Hne).
  simpl. fold path content. rewrite Hmk, Hwr.
  apply is_within_false in Hout. unfold _is_within in Hout.
  destruct (relative_to path (cwd ctx)) as [rel | exc] eqn:Hrel; [discriminate Hout |].
  unfold relative_to in Hrel. case_bool_decide; simplify_eq. by eexists.
Qed.

(** [exec_command] runs the command through the shell in the workspace
    root, with a timeout between 1 and 1800 seconds (the one asked for
    when it lies in that range), and leaves the plan as it is.  The text it
    returns is the exit code on a first line, then the output without the
    white space around it, cut after 6000 characters and marked when it
    was longer: at most 6016 characters, whatever the number of bytes they
    take.  Without a command it raises before anything runs. *)
Theorem exec_command_bounded ctx args w :
  let out := exec_command ctx args w in
  out.1.2 = plan ctx
  ∧ (dict_get "command" args = None → out = (Raise (KeyError "command"), plan ctx, w))
  ∧ (∀ raw t,
       dict_get "command" args = Some raw →
       py_int (default (JInt 120) (dict_get "timeout_sec" args)) = Ret t →
       ∃ timeout,
         (1 ≤ timeout ≤ 1800)%Z
         ∧ ((1 ≤ t ≤ 1800)%Z → timeout = t)
         ∧ out.2 = (shell_run (py_str raw) (cwd ctx) timeout w).2
         ∧ match (shell_run (py_str raw) (cwd ctx) timeout w).1 with
           | Raise exc => out.1.1 = Raise exc
           | Ret proc =>
               ∃ shown,
                 out.1.1 = Ret ("exit_code=" +:+ pretty (Plugins.returncode proc) +:+ nl
                                +:+ shown)
                 ∧ Py.len shown ≤ 6 * 1000 + 16
                 ∧ (let output := Py.strip (Plugins.stdout proc +:+ Plugins.stderr proc) in
                    Py.len output ≤ 6 * 1000 → shown = output)
           end).
Proof.
  intros out. unfold out, _exec_command. clear out. split_and!.
  - destruct (dict_get "command" args); [| done].
    destruct (py_int _); [| done].
    destruct (shell_run _ _ _ w) as [[proc | exc] w']; done.
  - by intros ->.
  - intros raw t -> ->. exists (Z.max 1 (Z.min t 1800)).
    split_and!; [lia | lia | lia | |].
    + by destruct (shell_run _ _ _ w) as [[proc | exc] w'].
    + destruct (shell_run _ _ _ w) as [[proc | exc] w']; simpl; [| done].
      destruct (truncated_length (6 * 1000)
                  (Py.strip (Plugins.stdout proc +:+ Plugins.stderr proc)))
        as (Hbound & Hshort & _).
      eexists. split_and!; [done | exact Hbound | exact Hshort].
Qed.

(** The built-in registry, whatever the context: seven tools, each
    under its own name; exactly [exec_command], [replace_in_file] and
    [write_file] are mutating, so only they go through the gate; and the
    registry derived from it for a subagent holds [grep_files],
    [list_files] and [read_file]. *)
Theorem default_registry_tools (context0 : ToolContext W) :
  let reg := default_registry context0 in
  list_tool_names reg
  = ["exec_command"; "grep_files"; "list_files"; "read_file"; "replace_in_file";
     "update_plan"; "write_file"]
  ∧ tool_name <$> filter (λ tool, tool_mutating tool = true) (list_tools reg)
    = ["exec_command"; "replace_in_file"; "write_file"]
  ∧ registry_wf reg
  ∧ context reg = context0
  ∧ list_tool_names (_build_subagent_tools reg) = ["grep_files"; "list_files"; "read_file"].
Proof.
  intros reg. split_and!.
  - vm_compute. reflexivity.
  - vm_compute. reflexivity.
  - unfold reg, create_default_registry. simpl.
    repeat apply register_wf. apply ToolRegistry_new_wf.
  - reflexivity.
  - vm_compute. reflexivity.
Qed.

End BuiltinToolProperties.

Lemma write_file_stays_in_workspace_witness :
  let ctx := Demo.ctx Demo.approve WORKSPACE_WRITE ON_REQUEST in
  let write := _write_file (host := Demo.platform) Demo.mkdir Demo.write_text Demo.write_text in
  write ctx [("path", JStr "notes/a.txt"); ("content", JStr "hi")] []
  = (Ret "wrote 2 bytes to notes/a.txt (overwrite)", [], ["/ws/notes/a.txt"])
  ∧ (write ctx [("path", JStr "../outside.txt"); ("content", JStr "hi")] []).2 = []
  ∧ write ctx [("path", JStr "notes/a.txt"); ("content", JStr "hi"); ("mode", JStr "truncate")] []
    = (Ret "mode must be one of: overwrite, append", [], []).
Proof.
  intros ctx write. split_and!.
  - vm_compute. reflexivity.
  - destruct (write_file_stays_in_workspace (host := Demo.platform) Demo.mkdir Demo.write_text
                Demo.write_text ctx [("path", JStr "../outside.txt"); ("content", JStr "hi")] [])
      as (_ & _ & _ & _ & _ & Hescape); [discriminate |].
    destruct (resolve_path (host := Demo.platform) ctx "../outside.txt")
      as [path | exc] eqn:Hresolve;
      [vm_compute in Hresolve; discriminate Hresolve |].
    exact (Hescape (JStr "../outside.txt") exc eq_refl Hresolve).
  - destruct (write_file_stays_in_workspace (host := Demo.platform) Demo.mkdir Demo.write_text
                Demo.write_text ctx
                [("path", JStr "notes/a.txt"); ("content", JStr "hi"); ("mode", JStr "truncate")] [])
      as (_ & _ & _ & Hbad & _); [discriminate |].
    apply (Hbad (JStr "notes/a.txt")); [reflexivity |].
    change (py_str _) with "truncate".
    intros [Heq | [Heq | Hin%elem_of_nil]%elem_of_cons]%elem_of_cons;
      [discriminate Heq | discriminate Heq | exact Hin].
Defined.

Lemma write_file_outside_workspace_reports_failure_witness :
  let out := _write_file (host := Demo.platform) Demo.mkdir Demo.write_text Demo.write_text
               (Demo.ctx Demo.approve DANGER_FULL_ACCESS ALWAYS)
               [("path", JStr "/etc/motd"); ("content", JStr "hi")] [] in
  is_Ret out.1.1 = false ∧ out.2 = ["/etc/motd"].
Proof.
  intros out.
  destruct (write_file_outside_workspace_reports_failure (host := Demo.platform)
              Demo.mkdir Demo.write_text Demo.write_text
              (Demo.ctx Demo.approve DANGER_FULL_ACCESS ALWAYS)
              [("path", JStr "/etc/motd"); ("content", JStr "hi")] [] (JStr "/etc/motd")
              [] ["/etc/motd"]) as [message Hout].
  - reflexivity.
  - reflexivity.
  - reflexivity.
  - intros [_ [rest Hrest]]. vm_compute in Hrest. discriminate Hrest.
  - reflexivity.
  - vm_compute. reflexivity.
  - unfold out. rewrite Hout. done.
Defined.

Lemma exec_command_bounded_witness :
  let ctx := Demo.ctx Demo.approve WORKSPACE_WRITE ALWAYS in
  (_exec_command (host := Demo.platform) Demo.shell ctx
     [("command", JStr "make test"); ("timeout_sec", JInt 7200)] []).2 = ["make test"]
  ∧ (_exec_command (host := Demo.platform) Demo.shell ctx [] []).2 = []
  ∧ (_exec_command (host := Demo.platform) Demo.accent_shell ctx
       [("command", JStr "cat notes.txt")] []).1.1
    = Ret ("exit_code=0" +:+ nl +:+ Demo.accents).
Proof.
  intros ctx.
  destruct (exec_command_bounded (host := Demo.platform) Demo.shell ctx
              [("command", JStr "make test"); ("timeout_sec", JInt 7200)] [])
    as (_ & _ & Hrun).
  destruct (Hrun (JStr "make test") 7200%Z eq_refl eq_refl) as (timeout & _ & _ & Hworld & _).
  destruct (exec_command_bounded (host := Demo.platform) Demo.shell ctx [] [])
    as (_ & Hmissing & _).
  destruct (exec_command_bounded (host := Demo.platform) Demo.accent_shell ctx
              [("command", JStr "cat notes.txt")] [])
    as (_ & _ & Hlong).
  destruct (Hlong (JStr "cat notes.txt") 120%Z eq_refl eq_refl)
    as (timeout' & _ & _ & _ & shown & Hshown & _ & Hshort).
  split_and!; [rewrite Hworld; reflexivity | by rewrite Hmissing |].
  etrans; [exact Hshown |]. rewrite Hshort; [vm_compute; reflexivity |].
  apply Nat.leb_le. vm_compute. reflexivity.
Defined.
